(** * Mini Cloud client: the dashboard's handlers and the password rules

    A shallow embedding of the browser client's view-model code:
    - [Login.validatePassword] and the requirement table of the
      password-strength indicator;
    - the dashboard component: its [useState] cells, the asynchronous
      handlers (upload, folder upload, create folder, move, drag and drop)
      and the wiring of the JSX event attributes to these handlers.

    JavaScript strings are sequences of UTF-16 code units.  An [async]
    handler is a tree of synchronous segments separated by [await]s; the
    event loop settles one request that is in flight at a time and runs the
    segment waiting for it. *)

From Stdlib Require Import List ZArith NArith Bool String Ascii Lia.
Import ListNotations.

Set Implicit Arguments.

(* ================================================================== *)
(** * JavaScript strings and identifiers *)
(* ================================================================== *)

Module Js.

(** A string is a list of UTF-16 code units. *)
Definition jsstring : Type := list N.

(** An ASCII literal of the source, as code units. *)
Definition lit (s : string) : jsstring :=
  map N_of_ascii (list_ascii_of_string s).

Fixpoint streq (a b : jsstring) : bool :=
  match a, b with
  | [], [] => true
  | x :: a', y :: b' => N.eqb x y && streq a' b'
  | _, _ => false
  end.

(** [s.length] *)
Definition strlen (s : jsstring) : Z := Z.of_nat (List.length s).

(** ToBoolean on a string: only the empty string is falsy. *)
Definition truthy_string (s : jsstring) : bool :=
  match s with [] => false | _ :: _ => true end.

(** WhiteSpace and LineTerminator code points of ECMAScript, the ones
    [String.prototype.trim] strips: TAB, LF, VT, FF, CR, SP, NBSP, the
    other space separators (Zs), LS, PS and the BOM. *)
Definition isWhiteSpace (c : N) : bool :=
  ((9 <=? c) && (c <=? 13)
   || (c =? 32) || (c =? 160) || (c =? 5760)
   || (8192 <=? c) && (c <=? 8202)
   || (c =? 8232) || (c =? 8233) || (c =? 8239) || (c =? 8287)
   || (c =? 12288) || (c =? 65279))%N.

Fixpoint trimStart (s : jsstring) : jsstring :=
  match s with
  | [] => []
  | c :: r => if isWhiteSpace c then trimStart r else s
  end.

Definition trimEnd (s : jsstring) : jsstring := rev (trimStart (rev s)).

(** [s.trim()] *)
Definition trim (s : jsstring) : jsstring := trimEnd (trimStart s).

(** [s.split(sep)] for a one-code-unit separator: the pieces between the
    separators, in order; the empty string gives one empty piece. *)
Fixpoint split_go (sep : N) (cur : jsstring) (s : jsstring) : list jsstring :=
  match s with
  | [] => [rev cur]
  | c :: r => if N.eqb c sep then rev cur :: split_go sep [] r
              else split_go sep (c :: cur) r
  end.

Definition split (sep : N) (s : jsstring) : list jsstring := split_go sep [] s.

(** [a.slice(0, -1)]: all elements but the last. *)
Definition slice_0_m1 {A} (a : list A) : list A := removelast a.

(** [a.join(sep)] for a one-code-unit separator. *)
Fixpoint join (sep : N) (a : list jsstring) : jsstring :=
  match a with
  | [] => []
  | [x] => x
  | x :: r => x ++ sep :: join sep r
  end.

(** [/[...]/.test(s)] for a character class: some code unit is in the
    class. *)
Definition test_class (cls : N -> bool) (s : jsstring) : bool := existsb cls s.

(** Identifiers arrive in JSON from the backend, as numbers or strings. *)
Inductive JsId : Type :=
| IdNum (n : Z)
| IdStr (s : jsstring).

(** [a === b] on identifiers. *)
Definition id_eq (a b : JsId) : bool :=
  match a, b with
  | IdNum x, IdNum y => Z.eqb x y
  | IdStr x, IdStr y => streq x y
  | _, _ => false
  end.

(** [a === b] where either side may be [null]. *)
Definition nullable_eq (a b : option JsId) : bool :=
  match a, b with
  | None, None => true
  | Some x, Some y => id_eq x y
  | _, _ => false
  end.

(** ToBoolean on an identifier: [0] and [''] are falsy. *)
Definition truthy_id (a : JsId) : bool :=
  match a with
  | IdNum n => negb (Z.eqb n 0)
  | IdStr s => truthy_string s
  end.

(** ToBoolean on a nullable identifier. *)
Definition truthy (a : option JsId) : bool :=
  match a with None => false | Some x => truthy_id x end.

End Js.

Import Js.

(* ================================================================== *)
(** * Password rules (Login.jsx, PasswordStrengthIndicator) *)
(* ================================================================== *)

Module Login.

(** [[A-Z]] *)
Definition upper (c : N) : bool := ((65 <=? c) && (c <=? 90))%N.

(** [[a-z]] *)
Definition lower (c : N) : bool := ((97 <=? c) && (c <=? 122))%N.

(** The class [[!@#$%^&*()_+\-=\[\]{}|;:,.<>?]] of the source. *)
Definition special_chars : jsstring := lit "!@#$%^&*()_+-=[]{}|;:,.<>?".

Definition special (c : N) : bool := existsb (N.eqb c) special_chars.

(** The four messages [validatePassword] can push. *)
Inductive PasswordError : Type :=
| Minimum_8_characters
| At_least_one_uppercase_letter
| At_least_one_lowercase_letter
| At_least_one_special_character.

(** [validatePassword]: the errors, in the order the source pushes them. *)
Definition validatePassword (password : jsstring) : list PasswordError :=
  (if (strlen password <? 8)%Z then [Minimum_8_characters] else [])
  ++ (if negb (test_class upper password)
      then [At_least_one_uppercase_letter] else [])
  ++ (if negb (test_class lower password)
      then [At_least_one_lowercase_letter] else [])
  ++ (if negb (test_class special password)
      then [At_least_one_special_character] else []).

End Login.

Module PasswordStrengthIndicator.

(** The [id] of a requirement. *)
Inductive RuleId : Type := length | uppercase | lowercase | special.

Record Requirement : Type := {
  id : RuleId;
  test : jsstring -> bool
}.

(** The [requirements] array. *)
Definition requirements : list Requirement :=
  [ {| id := length;    test := fun pwd => (8 <=? strlen pwd)%Z |};
    {| id := uppercase; test := fun pwd => test_class Login.upper pwd |};
    {| id := lowercase; test := fun pwd => test_class Login.lower pwd |};
    {| id := special;   test := fun pwd => test_class Login.special pwd |} ].

(** The pass state of each rule, in the order of the array. *)
Definition outcomes (password : jsstring) : list (RuleId * bool) :=
  map (fun req => (id req, test req password)) requirements.

(** [requirements.filter(req => req.test(password)).length] *)
Definition passed (password : jsstring) : nat :=
  List.length (filter (fun req => test req password) requirements).

(** [requirements.every(req => req.test(password))] *)
Definition allPassed (password : jsstring) : bool :=
  forallb (fun req => test req password) requirements.

Inductive Strength : Type := Very_Weak | Weak | Fair | Good | Strong.

(** [getStrength], its label. *)
Definition getStrength (password : jsstring) : Strength :=
  match passed password with
  | 0 => Very_Weak
  | 1 => Weak
  | 2 => Fair
  | 3 => Good
  | _ => Strong
  end.

End PasswordStrengthIndicator.

(* ================================================================== *)
(** * The dashboard: data *)
(* ================================================================== *)

(** A folder as the backend lists it. *)
Module FolderNode.
Record t : Type := {
  id : JsId;
  name : jsstring;
  parent_id : option JsId;
  size : Z
}.
End FolderNode.

(** A stored file as the backend lists it. *)
Module FileNode.
Record t : Type := {
  id : JsId;
  name : jsstring;
  folder_id : option JsId;
  size : Z;
  created_at : jsstring
}.
End FileNode.

(** A browser [File] picked in an input or carried by a drop. *)
Module LocalFile.
Record t : Type := {
  name : jsstring;
  webkitRelativePath : jsstring
}.
End LocalFile.

(** [{storage_used, file_count, folder_count}] *)
Record Stats : Type := {
  storage_used : Z;
  file_count : Z;
  folder_count : Z
}.

(** The second argument of [handleDragStart] and the [type] field of the
    move and drag targets: ['file'] or ['folder']. *)
Inductive ItemType : Type := type_file | type_folder.

(** A row of the listing. *)
Inductive Item : Type :=
| FolderItem (f : FolderNode.t)
| FileItem (f : FileNode.t).

Definition item_id (i : Item) : JsId :=
  match i with
  | FolderItem f => FolderNode.id f
  | FileItem f => FileNode.id f
  end.

(** [{ ...item, type }] *)
Record Tagged : Type := {
  item : Item;
  type : ItemType
}.

(** [x.id] on a tagged item. *)
Definition id (x : Tagged) : JsId := item_id (item x).

(** The [useState] cells of the dashboard that the handlers below read or
    write. *)
Record State : Type := {
  files : list FileNode.t;
  folders : list FolderNode.t;
  currentFolder : option JsId;
  breadcrumb : list FolderNode.t;
  stats : Stats;
  loading : bool;
  newFolderName : jsstring;
  showFolderDialog : bool;
  showMoveDialog : bool;
  moveTarget : option Tagged;
  moveDestination : option JsId;
  dragOver : bool;
  draggedItem : option Tagged;
  dropTarget : option JsId
}.

(** The initial values given to [useState]. *)
Definition initialState : State :=
  {| files := []; folders := []; currentFolder := None; breadcrumb := [];
     stats := {| storage_used := 0; file_count := 0; folder_count := 0 |};
     loading := false; newFolderName := [];
     showFolderDialog := false; showMoveDialog := false;
     moveTarget := None; moveDestination := None;
     dragOver := false; draggedItem := None; dropTarget := None |}.

Definition setFiles (v : list FileNode.t) (s : State) : State :=
  {| files := v;
     folders := folders s;
     currentFolder := currentFolder s;
     breadcrumb := breadcrumb s;
     stats := stats s;
     loading := loading s;
     newFolderName := newFolderName s;
     showFolderDialog := showFolderDialog s;
     showMoveDialog := showMoveDialog s;
     moveTarget := moveTarget s;
     moveDestination := moveDestination s;
     dragOver := dragOver s;
     draggedItem := draggedItem s;
     dropTarget := dropTarget s |}.

Definition setFolders (v : list FolderNode.t) (s : State) : State :=
  {| files := files s;
     folders := v;
     currentFolder := currentFolder s;
     breadcrumb := breadcrumb s;
     stats := stats s;
     loading := loading s;
     newFolderName := newFolderName s;
     showFolderDialog := showFolderDialog s;
     showMoveDialog := showMoveDialog s;
     moveTarget := moveTarget s;
     moveDestination := moveDestination s;
     dragOver := dragOver s;
     draggedItem := draggedItem s;
     dropTarget := dropTarget s |}.

Definition setBreadcrumb (v : list FolderNode.t) (s : State) : State :=
  {| files := files s;
     folders := folders s;
     currentFolder := currentFolder s;
     breadcrumb := v;
     stats := stats s;
     loading := loading s;
     newFolderName := newFolderName s;
     showFolderDialog := showFolderDialog s;
     showMoveDialog := showMoveDialog s;
     moveTarget := moveTarget s;
     moveDestination := moveDestination s;
     dragOver := dragOver s;
     draggedItem := draggedItem s;
     dropTarget := dropTarget s |}.

Definition setStats (v : Stats) (s : State) : State :=
  {| files := files s;
     folders := folders s;
     currentFolder := currentFolder s;
     breadcrumb := breadcrumb s;
     stats := v;
     loading := loading s;
     newFolderName := newFolderName s;
     showFolderDialog := showFolderDialog s;
     showMoveDialog := showMoveDialog s;
     moveTarget := moveTarget s;
     moveDestination := moveDestination s;
     dragOver := dragOver s;
     draggedItem := draggedItem s;
     dropTarget := dropTarget s |}.

Definition setLoading (v : bool) (s : State) : State :=
  {| files := files s;
     folders := folders s;
     currentFolder := currentFolder s;
     breadcrumb := breadcrumb s;
     stats := stats s;
     loading := v;
     newFolderName := newFolderName s;
     showFolderDialog := showFolderDialog s;
     showMoveDialog := showMoveDialog s;
     moveTarget := moveTarget s;
     moveDestination := moveDestination s;
     dragOver := dragOver s;
     draggedItem := draggedItem s;
     dropTarget := dropTarget s |}.

Definition setNewFolderName (v : jsstring) (s : State) : State :=
  {| files := files s;
     folders := folders s;
     currentFolder := currentFolder s;
     breadcrumb := breadcrumb s;
     stats := stats s;
     loading := loading s;
     newFolderName := v;
     showFolderDialog := showFolderDialog s;
     showMoveDialog := showMoveDialog s;
     moveTarget := moveTarget s;
     moveDestination := moveDestination s;
     dragOver := dragOver s;
     draggedItem := draggedItem s;
     dropTarget := dropTarget s |}.

Definition setShowFolderDialog (v : bool) (s : State) : State :=
  {| files := files s;
     folders := folders s;
     currentFolder := currentFolder s;
     breadcrumb := breadcrumb s;
     stats := stats s;
     loading := loading s;
     newFolderName := newFolderName s;
     showFolderDialog := v;
     showMoveDialog := showMoveDialog s;
     moveTarget := moveTarget s;
     moveDestination := moveDestination s;
     dragOver := dragOver s;
     draggedItem := draggedItem s;
     dropTarget := dropTarget s |}.

Definition setShowMoveDialog (v : bool) (s : State) : State :=
  {| files := files s;
     folders := folders s;
     currentFolder := currentFolder s;
     breadcrumb := breadcrumb s;
     stats := stats s;
     loading := loading s;
     newFolderName := newFolderName s;
     showFolderDialog := showFolderDialog s;
     showMoveDialog := v;
     moveTarget := moveTarget s;
     moveDestination := moveDestination s;
     dragOver := dragOver s;
     draggedItem := draggedItem s;
     dropTarget := dropTarget s |}.

Definition setMoveTarget (v : option Tagged) (s : State) : State :=
  {| files := files s;
     folders := folders s;
     currentFolder := currentFolder s;
     breadcrumb := breadcrumb s;
     stats := stats s;
     loading := loading s;
     newFolderName := newFolderName s;
     showFolderDialog := showFolderDialog s;
     showMoveDialog := showMoveDialog s;
     moveTarget := v;
     moveDestination := moveDestination s;
     dragOver := dragOver s;
     draggedItem := draggedItem s;
     dropTarget := dropTarget s |}.

Definition setMoveDestination (v : option JsId) (s : State) : State :=
  {| files := files s;
     folders := folders s;
     currentFolder := currentFolder s;
     breadcrumb := breadcrumb s;
     stats := stats s;
     loading := loading s;
     newFolderName := newFolderName s;
     showFolderDialog := showFolderDialog s;
     showMoveDialog := showMoveDialog s;
     moveTarget := moveTarget s;
     moveDestination := v;
     dragOver := dragOver s;
     draggedItem := draggedItem s;
     dropTarget := dropTarget s |}.

Definition setDragOver (v : bool) (s : State) : State :=
  {| files := files s;
     folders := folders s;
     currentFolder := currentFolder s;
     breadcrumb := breadcrumb s;
     stats := stats s;
     loading := loading s;
     newFolderName := newFolderName s;
     showFolderDialog := showFolderDialog s;
     showMoveDialog := showMoveDialog s;
     moveTarget := moveTarget s;
     moveDestination := moveDestination s;
     dragOver := v;
     draggedItem := draggedItem s;
     dropTarget := dropTarget s |}.

Definition setDraggedItem (v : option Tagged) (s : State) : State :=
  {| files := files s;
     folders := folders s;
     currentFolder := currentFolder s;
     breadcrumb := breadcrumb s;
     stats := stats s;
     loading := loading s;
     newFolderName := newFolderName s;
     showFolderDialog := showFolderDialog s;
     showMoveDialog := showMoveDialog s;
     moveTarget := moveTarget s;
     moveDestination := moveDestination s;
     dragOver := dragOver s;
     draggedItem := v;
     dropTarget := dropTarget s |}.

Definition setDropTarget (v : option JsId) (s : State) : State :=
  {| files := files s;
     folders := folders s;
     currentFolder := currentFolder s;
     breadcrumb := breadcrumb s;
     stats := stats s;
     loading := loading s;
     newFolderName := newFolderName s;
     showFolderDialog := showFolderDialog s;
     showMoveDialog := showMoveDialog s;
     moveTarget := moveTarget s;
     moveDestination := moveDestination s;
     dragOver := dragOver s;
     draggedItem := draggedItem s;
     dropTarget := v |}.

(* ================================================================== *)
(** * The dashboard: requests, effects and asynchronous handlers *)
(* ================================================================== *)

(** The text of a toast or of a console line. *)
Inductive Message : Type :=
| Text (s : string)
  (** a literal of the source *)
| Translated (key : string)
  (** [t('key')] *)
| TranslatedCount (key : string) (n : N)
  (** [t('key') + ` (${n})`] *)
| WithName (before : string) (name : jsstring) (after : string)
  (** a template literal around [file.name] *)
| Detail (d : jsstring).
  (** [error.response.data.detail], as the server sent it *)

(** One [formData.append(key, value)]. *)
Inductive FormField : Type :=
| field_file (f : LocalFile.t)
| field_folder_path (p : jsstring)
| field_folder_id (i : JsId).

(** The calls made through axios, indexed by the type of [response.data]
    the handlers use. *)
Inductive Request : Type -> Type :=
| GetFilesList (folder_id : option JsId) : Request (list FileNode.t)
  (** [GET /files/list?folder_id=...]; [None] is the empty parameter *)
| GetFoldersTree : Request (list FolderNode.t)
| GetUserStats : Request Stats
| GetBreadcrumb (folder_id : JsId) : Request (list FolderNode.t)
| PostFilesUpload (formData : list FormField) : Request unit
| PostFoldersCreate (name : jsstring) (parent_id : option JsId) : Request unit
| PostFilesMove (file_id : JsId) (target_folder_id : option JsId) : Request unit
| PostFoldersMove (folder_id : JsId) (target_parent_id : option JsId)
  : Request unit.

(** How a request settles: the promise is fulfilled with [response.data],
    or rejected with an error whose [response?.data?.detail] may be
    missing. *)
Inductive Outcome (A : Type) : Type :=
| Fulfilled (data : A)
| Rejected (detail : option jsstring).

Arguments Fulfilled {A} data.
Arguments Rejected {A} detail.

(** [detail || fallback] *)
Definition detail_or (detail : option jsstring) (fallback : Message) : Message :=
  match detail with
  | Some d => if truthy_string d then Detail d else fallback
  | None => fallback
  end.

(** The synchronous effects of a handler. *)
Inductive Action : Type :=
| SetFiles (v : list FileNode.t)
| SetFolders (v : list FolderNode.t)
| SetBreadcrumb (v : list FolderNode.t)
| SetStats (v : Stats)
| SetLoading (v : bool)
| SetNewFolderName (v : jsstring)
| SetShowFolderDialog (v : bool)
| SetShowMoveDialog (v : bool)
| SetMoveTarget (v : option Tagged)
| SetMoveDestination (v : option JsId)
| SetDragOver (v : bool)
| SetDraggedItem (v : option Tagged)
| SetDropTarget (v : option JsId)
| toast_success (m : Message)
| toast_error (m : Message)
| console_error (m : Message)
| preventDefault
| stopPropagation.

(** An [async] function body.  [Await r k] sends [r] and suspends; [k] is
    the rest of the body, which sees how the request settled ([try] /
    [catch]).  [Fork c k] calls the async function [c] without awaiting
    it.  [Throw] is an exception nothing catches. *)
Inductive Task : Type :=
| Done : Task
| Throw : Task
| Do (a : Action) (k : Task) : Task
| Fork (child : Task) (k : Task) : Task
| Await {A : Type} (r : Request A) (k : Outcome A -> Task) : Task.

(** [await t; u] for an async function [t] called from another one. *)
Fixpoint and_then (t u : Task) : Task :=
  match t with
  | Done => u
  | Throw => Throw
  | Do a k => Do a (and_then k u)
  | Fork c k => Fork c (and_then k u)
  | Await r k => Await r (fun o => and_then (k o) u)
  end.

(** [if (b) a; k] *)
Definition when (b : bool) (a : Action) (k : Task) : Task :=
  if b then Do a k else k.

(** What the page shows or sends, in order. *)
Inductive Output : Type :=
| Sent {A : Type} (r : Request A)
| ToastSuccess (m : Message)
| ToastError (m : Message)
| ConsoleError (m : Message).

(** A request in flight and the function body waiting for it. *)
Record Pending : Type := pend {
  answer : Type;
  request : Request answer;
  continuation : Outcome answer -> Task
}.

Arguments pend {answer} request continuation.

Record World : Type := {
  state : State;
  inflight : list Pending;
  trace : list Output
}.

Definition with_state (f : State -> State) (w : World) : World :=
  {| state := f (state w); inflight := inflight w; trace := trace w |}.

Definition emit (o : Output) (w : World) : World :=
  {| state := state w; inflight := inflight w; trace := trace w ++ [o] |}.

Definition perform (a : Action) (w : World) : World :=
  match a with
  | SetFiles v => with_state (setFiles v) w
  | SetFolders v => with_state (setFolders v) w
  | SetBreadcrumb v => with_state (setBreadcrumb v) w
  | SetStats v => with_state (setStats v) w
  | SetLoading v => with_state (setLoading v) w
  | SetNewFolderName v => with_state (setNewFolderName v) w
  | SetShowFolderDialog v => with_state (setShowFolderDialog v) w
  | SetShowMoveDialog v => with_state (setShowMoveDialog v) w
  | SetMoveTarget v => with_state (setMoveTarget v) w
  | SetMoveDestination v => with_state (setMoveDestination v) w
  | SetDragOver v => with_state (setDragOver v) w
  | SetDraggedItem v => with_state (setDraggedItem v) w
  | SetDropTarget v => with_state (setDropTarget v) w
  | toast_success m => emit (ToastSuccess m) w
  | toast_error m => emit (ToastError m) w
  | console_error m => emit (ConsoleError m) w
  | preventDefault => w
  | stopPropagation => w
  end.

(** Runs a function body up to its first [await] (or to its end): the
    synchronous segment.  A call that is not awaited runs its own first
    segment in place, as JavaScript does. *)
Fixpoint run (t : Task) (w : World) : World :=
  match t with
  | Done => w
  | Throw => w
  | Do a k => run k (perform a w)
  | Fork c k => run k (run c w)
  | Await r k =>
      {| state := state w;
         inflight := inflight w ++ [pend r k];
         trace := trace w ++ [Sent r] |}
  end.

(** The event loop: a request in flight settles, in any order and either
    way, and the body waiting for it runs its next segment. *)
Inductive step : World -> World -> Prop :=
| step_settle (w : World) (before after : list Pending) (p : Pending)
    (o : Outcome (answer p)) :
    inflight w = before ++ p :: after ->
    step w (run (continuation p o)
              {| state := state w;
                 inflight := before ++ after;
                 trace := trace w |}).

Inductive steps : World -> World -> Prop :=
| steps_refl (w : World) : steps w w
| steps_step (w1 w2 w3 : World) : step w1 w2 -> steps w2 w3 -> steps w1 w3.

(** A backend that answers every request. *)
Definition Backend : Type := forall A : Type, Request A -> Outcome A.

(** The first request in flight that [sel] selects, with the ones before
    and after it. *)
Fixpoint pick (sel : Pending -> bool) (before pool : list Pending)
  : option (list Pending * Pending * list Pending) :=
  match pool with
  | [] => None
  | p :: after =>
      if sel p then Some (before, p, after)
      else pick sel (before ++ [p]) after
  end.

(** Settles the first request in flight that [sel] selects with the
    backend's answer, leaving the others in flight. *)
Definition settle_first (sel : forall A : Type, Request A -> bool)
  (b : Backend) (w : World) : option World :=
  match pick (fun p => sel _ (request p)) [] (inflight w) with
  | Some (before, p, after) =>
      Some (run (continuation p (b _ (request p)))
              {| state := state w;
                 inflight := before ++ after;
                 trace := trace w |})
  | None => None
  end.

(** The backend that settles every POST with [o] (and fails the GETs). *)
Definition reply (o : Outcome unit) : Backend :=
  fun A r =>
    match r in Request A return Outcome A with
    | GetFilesList _ => Rejected None
    | GetFoldersTree => Rejected None
    | GetUserStats => Rejected None
    | GetBreadcrumb _ => Rejected None
    | PostFilesUpload _ => o
    | PostFoldersCreate _ _ => o
    | PostFilesMove _ _ => o
    | PostFoldersMove _ _ => o
    end.

(* ================================================================== *)
(** * A plain object used as a map ([filesByPath]) *)
(* ================================================================== *)

Module JsObject.

(** The own properties, in insertion order. *)
Definition t (V : Type) : Type := list (jsstring * V).

(** The property names every object literal inherits from
    [Object.prototype]: reading one of them on [{}] gives a function (or,
    for [__proto__], the prototype itself), never [undefined]. *)
Definition prototype_names : list jsstring :=
  map lit
    [ "constructor"; "__defineGetter__"; "__defineSetter__";
      "hasOwnProperty"; "__lookupGetter__"; "__lookupSetter__";
      "isPrototypeOf"; "propertyIsEnumerable"; "toString"; "valueOf";
      "__proto__"; "toLocaleString" ]%string.

Definition inherited (key : jsstring) : bool :=
  existsb (streq key) prototype_names.

Fixpoint get_own {V : Type} (key : jsstring) (o : t V) : option V :=
  match o with
  | [] => None
  | (k, v) :: r => if streq key k then Some v else get_own key r
  end.

(** Replaces the value of an own property, keeping its place. *)
Fixpoint replace {V : Type} (key : jsstring) (v : V) (o : t V) : t V :=
  match o with
  | [] => []
  | (k, x) :: r =>
      if streq key k then (k, v) :: r else (k, x) :: replace key v r
  end.

Definition digit (c : N) : bool := ((48 <=? c) && (c <=? 57))%N.

Definition decimal (s : jsstring) : N :=
  fold_left (fun acc c => (acc * 10 + (c - 48))%N) s 0%N.

(** An array index: the canonical decimal form of an integer below
    [2^32 - 1]. *)
Definition array_index (key : jsstring) : option N :=
  match key with
  | [] => None
  | c :: r =>
      if forallb digit key
         && (negb (N.eqb c 48) || match r with [] => true | _ => false end)
         && (decimal key <? 4294967295)%N
      then Some (decimal key) else None
  end.

Fixpoint insert_index {V : Type} (n : N) (e : jsstring * V)
  (l : list (N * (jsstring * V))) : list (N * (jsstring * V)) :=
  match l with
  | [] => [(n, e)]
  | (m, x) :: r =>
      if (n <? m)%N then (n, e) :: l else (m, x) :: insert_index n e r
  end.

Fixpoint indexed {V : Type} (o : t V) : list (N * (jsstring * V)) :=
  match o with
  | [] => []
  | (k, v) :: r =>
      match array_index k with
      | Some n => insert_index n (k, v) (indexed r)
      | None => indexed r
      end
  end.

Definition named {V : Type} (o : t V) : t V :=
  filter (fun e => match array_index (fst e) with
                   | Some _ => false | None => true end) o.

(** [Object.entries(o)]: the array-index keys in ascending numeric order,
    then the other keys in insertion order. *)
Definition entries {V : Type} (o : t V) : list (jsstring * V) :=
  map snd (indexed o) ++ named o.

End JsObject.

(* ================================================================== *)
(** * The dashboard: handlers *)
(* ================================================================== *)

(** Every handler is a closure of one render: it reads the cells of the
    state [s] it was created in, also after an [await]. *)

Module Dashboard.

(** [currentFolder || ''] in the query string. *)
Definition or_empty (current : option JsId) : option JsId :=
  if truthy current then current else None.

Definition loadFiles (s : State) : Task :=
  Await (GetFilesList (or_empty (currentFolder s)))
    (fun o => match o with
              | Fulfilled data => Do (SetFiles data) Done
              | Rejected _ =>
                  Do (console_error (Text "Failed to load files:")) Done
              end).

Definition loadFolders (s : State) : Task :=
  Await GetFoldersTree
    (fun o => match o with
              | Fulfilled allFolders =>
                  Do (SetFolders
                        (filter (fun f => nullable_eq (FolderNode.parent_id f)
                                            (currentFolder s))
                           allFolders))
                     Done
              | Rejected _ =>
                  Do (console_error (Text "Failed to load folders:")) Done
              end).

Definition loadStats (s : State) : Task :=
  Await GetUserStats
    (fun o => match o with
              | Fulfilled data => Do (SetStats data) Done
              | Rejected _ =>
                  Do (console_error (Text "Failed to load stats:")) Done
              end).

Definition loadBreadcrumb (s : State) : Task :=
  match currentFolder s with
  | Some current =>
      if truthy_id current then
        Await (GetBreadcrumb current)
          (fun o => match o with
                    | Fulfilled data => Do (SetBreadcrumb data) Done
                    | Rejected _ =>
                        Do (console_error (Text "Failed to load breadcrumb:"))
                           Done
                    end)
      else Do (SetBreadcrumb []) Done
  | None => Do (SetBreadcrumb []) Done
  end.

(** The effect on [currentFolder]. *)
Definition mount (s : State) : Task :=
  Fork (loadFiles s)
    (Fork (loadFolders s) (Fork (loadStats s) (Fork (loadBreadcrumb s) Done))).

(** [if (currentFolder) formData.append('folder_id', currentFolder)] *)
Definition current_folder_field (s : State) : list FormField :=
  match currentFolder s with
  | Some c => if truthy_id c then [field_folder_id c] else []
  | None => []
  end.

(** The form built for one file; [folderPath] is [null] by default, and an
    empty path is as good as none. *)
Definition formData (s : State) (folderPath : option jsstring)
  (file : LocalFile.t) : list FormField :=
  field_file file ::
  match folderPath with
  | Some p =>
      if truthy_string p then [field_folder_path p]
      else current_folder_field s
  | None => current_folder_field s
  end.

(** What follows the loop of [handleFileUpload]. *)
Definition upload_report (s : State) (successCount errorCount : N) : Task :=
  when (0 <? successCount)%N
    (toast_success (TranslatedCount "fileUploaded" successCount))
    (when (0 <? errorCount)%N
       (toast_error (TranslatedCount "fileUploadFailed" errorCount))
       (Do (SetLoading false)
          (Fork (loadFiles s) (Fork (loadFolders s) (Fork (loadStats s) Done))))).

(** The [for (const file of files)] loop of [handleFileUpload], with its
    two counters. *)
Fixpoint upload_loop (s : State) (folderPath : option jsstring)
  (files : list LocalFile.t) (successCount errorCount : N) : Task :=
  match files with
  | [] => upload_report s successCount errorCount
  | file :: rest =>
      Await (PostFilesUpload (formData s folderPath file))
        (fun o => match o with
                  | Fulfilled _ =>
                      upload_loop s folderPath rest (successCount + 1) errorCount
                  | Rejected _ =>
                      Do (console_error
                            (WithName "Failed to upload " (LocalFile.name file) ":"))
                         (upload_loop s folderPath rest successCount
                            (errorCount + 1))
                  end)
  end.

Definition handleFileUpload (s : State) (files : list LocalFile.t)
  (folderPath : option jsstring) : Task :=
  match files with
  | [] => Done
  | _ :: _ => Do (SetLoading true) (upload_loop s folderPath files 0 0)
  end.

(** [relativePath.split('/').slice(0, -1).join('/')] *)
Definition folderPath_of (file : LocalFile.t) : jsstring :=
  join 47 (slice_0_m1 (split 47 (LocalFile.webkitRelativePath file))).

(** The grouping loop of [handleFolderUpload].  [None] is the TypeError of
    [filesByPath[folderPath].push] when the path is a name inherited from
    [Object.prototype]. *)
Fixpoint group_files (files : list LocalFile.t)
  (filesByPath : JsObject.t (list LocalFile.t))
  : option (JsObject.t (list LocalFile.t)) :=
  match files with
  | [] => Some filesByPath
  | file :: rest =>
      let folderPath := folderPath_of file in
      match JsObject.get_own folderPath filesByPath with
      | Some pathFiles =>
          group_files rest
            (JsObject.replace folderPath (pathFiles ++ [file]) filesByPath)
      | None =>
          if JsObject.inherited folderPath then None
          else group_files rest (filesByPath ++ [(folderPath, [file])])
      end
  end.

(** The second loop of [handleFolderUpload]. *)
Fixpoint upload_groups (s : State)
  (groups : list (jsstring * list LocalFile.t)) (k : Task) : Task :=
  match groups with
  | [] => k
  | (folderPath, pathFiles) :: rest =>
      and_then (handleFileUpload s pathFiles (Some folderPath))
        (upload_groups s rest k)
  end.

(** [handleFolderUpload], on [Array.from(event.target.files)]. *)
Definition handleFolderUpload (s : State) (files : list LocalFile.t) : Task :=
  match files with
  | [] => Done
  | _ :: _ =>
      Do (SetLoading true)
        match group_files files [] with
        | None => Throw
        | Some filesByPath =>
            upload_groups s (JsObject.entries filesByPath)
              (Do (SetLoading false) Done)
        end
  end.

Definition handleCreateFolder (s : State) : Task :=
  if negb (truthy_string (trim (newFolderName s))) then Done
  else
    Await (PostFoldersCreate (newFolderName s) (currentFolder s))
      (fun o => match o with
                | Fulfilled _ =>
                    Do (toast_success (Translated "folderCreated"))
                      (Do (SetNewFolderName [])
                         (Do (SetShowFolderDialog false)
                            (Fork (loadFolders s) (Fork (loadStats s) Done))))
                | Rejected detail =>
                    Do (toast_error
                          (detail_or detail (Translated "folderCreateFailed")))
                       Done
                end).

(** The request of a move of [x] to [destination] ([None] is the root). *)
Definition move_request (x : Tagged) (destination : option JsId)
  : Request unit :=
  match type x with
  | type_file => PostFilesMove (id x) destination
  | type_folder => PostFoldersMove (id x) destination
  end.

Definition handleMove (s : State) : Task :=
  match moveTarget s with
  | None => Done
  | Some target =>
      Await (move_request target (moveDestination s))
        (fun o => match o with
                  | Fulfilled _ =>
                      Do (toast_success (Text "Moved successfully"))
                        (Do (SetShowMoveDialog false)
                           (Do (SetMoveTarget None)
                              (Do (SetMoveDestination None)
                                 (Fork (loadFiles s)
                                    (Fork (loadFolders s) Done)))))
                  | Rejected detail =>
                      Do (toast_error (detail_or detail (Text "Failed to move")))
                         Done
                  end)
  end.

Definition handleDragOver : Task :=
  Do preventDefault (Do (SetDragOver true) Done).

Definition handleDragLeave : Task := Do (SetDragOver false) Done.

Definition handleDrop (s : State) (files : list LocalFile.t) : Task :=
  Do preventDefault
    (Do (SetDragOver false) (Fork (handleFileUpload s files None) Done)).

Definition handleDragStart (i : Item) (ty : ItemType) : Task :=
  Do (SetDraggedItem (Some {| item := i; type := ty |})) Done.

Definition handleDragEnd : Task :=
  Do (SetDraggedItem None) (Do (SetDropTarget None) Done).

Definition handleDragOverItem (s : State) (i : Item) (ty : ItemType) : Task :=
  Do preventDefault
    (Do stopPropagation
       match ty, draggedItem s with
       | type_folder, Some dragged =>
           if negb (id_eq (id dragged) (item_id i))
           then Do (SetDropTarget (Some (item_id i))) Done
           else Done
       | _, _ => Done
       end).

Definition handleDragLeaveItem : Task := Do (SetDropTarget None) Done.

(** The body shared by the two drop handlers after their guards: the
    [try] with the request, the [catch], and the statement after them. *)
Definition drop_move (s : State) (dragged : Tagged)
  (destination : option JsId) (moved_file moved_folder : string) : Task :=
  Await (move_request dragged destination)
    (fun o => match o with
              | Fulfilled _ =>
                  Do (toast_success
                        (Text (match type dragged with
                               | type_file => moved_file
                               | type_folder => moved_folder
                               end)))
                    (Fork (loadFiles s)
                       (Fork (loadFolders s) (Do (SetDraggedItem None) Done)))
              | Rejected detail =>
                  Do (toast_error (detail_or detail (Text "Failed to move")))
                    (Do (SetDraggedItem None) Done)
              end).

Definition handleDropOnFolder (s : State) (targetFolder : FolderNode.t) : Task :=
  Do preventDefault
    (Do stopPropagation
       (Do (SetDropTarget None)
          match draggedItem s with
          | None => Done
          | Some dragged =>
              if id_eq (id dragged) (FolderNode.id targetFolder) then Done
              else drop_move s dragged (Some (FolderNode.id targetFolder))
                     "File moved successfully" "Folder moved successfully"
          end)).

Definition handleDropOnRoot (s : State) : Task :=
  Do preventDefault
    (Do stopPropagation
       (Do (SetDropTarget None)
          match draggedItem s with
          | None => Done
          | Some dragged =>
              drop_move s dragged None
                "File moved to root" "Folder moved to root"
          end)).

End Dashboard.

(* ================================================================== *)
(** * The dashboard: the event attributes of the JSX *)
(* ================================================================== *)

Module View.

Import Dashboard.

(** The user's gestures on the rendered page.  A row is named by its
    place in the [folders] or [files] cell the page was rendered from. *)
Inductive UIEvent : Type :=
| FileInputChange (picked : list LocalFile.t)
| FolderInputChange (picked : list LocalFile.t)
| FolderDialogOpenChange (open : bool)
| FolderNameChange (value : jsstring)
| CreateFolderSubmitClick
| ManagerDragOver
| ManagerDragLeave
| ManagerDrop (dataTransfer_files : list LocalFile.t)
| FolderRowDragStart (row : nat)
| FileRowDragStart (row : nat)
| RowDragEnd
| FolderRowDragOver (row : nat)
| FolderRowDragLeave
| FolderRowDrop (row : nat)
| FolderMoveClick (row : nat)
| FileMoveClick (row : nat)
| MoveDialogOpenChange (open : bool)
| MoveToRootClick
| MoveToClick (row : nat)
| MoveConfirmClick.

(** [disabled={moveTarget?.id === folder.id}] *)
Definition move_to_disabled (s : State) (f : FolderNode.t) : bool :=
  match moveTarget s with
  | Some target => id_eq (id target) (FolderNode.id f)
  | None => false
  end.

(** The handlers the page runs for a gesture.  A gesture on an element
    that is not rendered (a row that does not exist, the content of a
    closed dialog) or that is disabled runs nothing.  The rows lie inside
    the file-manager card: a drag-over or a drop on a folder row stops at
    the row ([stopPropagation]), a drag-leave of a folder row does not and
    goes on to the card's own [onDragLeave]. *)
Definition dispatch (s : State) (ev : UIEvent) : Task :=
  match ev with
  | FileInputChange picked => handleFileUpload s picked None
  | FolderInputChange picked => handleFolderUpload s picked
  | FolderDialogOpenChange open => Do (SetShowFolderDialog open) Done
  | FolderNameChange value =>
      if showFolderDialog s then Do (SetNewFolderName value) Done else Done
  | CreateFolderSubmitClick =>
      if showFolderDialog s then handleCreateFolder s else Done
  | ManagerDragOver =>
      and_then handleDragOver
        match draggedItem s with
        | Some _ => Do preventDefault Done
        | None => Done
        end
  | ManagerDragLeave => handleDragLeave
  | ManagerDrop dataTransfer_files =>
      match dataTransfer_files with
      | _ :: _ => handleDrop s dataTransfer_files
      | [] => handleDropOnRoot s
      end
  | FolderRowDragStart row =>
      match nth_error (folders s) row with
      | Some f => handleDragStart (FolderItem f) type_folder
      | None => Done
      end
  | FileRowDragStart row =>
      match nth_error (files s) row with
      | Some f => handleDragStart (FileItem f) type_file
      | None => Done
      end
  | RowDragEnd => handleDragEnd
  | FolderRowDragOver row =>
      match nth_error (folders s) row with
      | Some f => handleDragOverItem s (FolderItem f) type_folder
      | None => Done
      end
  | FolderRowDragLeave => and_then handleDragLeaveItem handleDragLeave
  | FolderRowDrop row =>
      match nth_error (folders s) row with
      | Some f => handleDropOnFolder s f
      | None => Done
      end
  | FolderMoveClick row =>
      match nth_error (folders s) row with
      | Some f =>
          Do stopPropagation
            (Do (SetMoveTarget
                   (Some {| item := FolderItem f; type := type_folder |}))
               (Do (SetShowMoveDialog true) Done))
      | None => Done
      end
  | FileMoveClick row =>
      match nth_error (files s) row with
      | Some f =>
          Do (SetMoveTarget (Some {| item := FileItem f; type := type_file |}))
            (Do (SetShowMoveDialog true) Done)
      | None => Done
      end
  | MoveDialogOpenChange open => Do (SetShowMoveDialog open) Done
  | MoveToRootClick =>
      if showMoveDialog s then Do (SetMoveDestination None) Done else Done
  | MoveToClick row =>
      if showMoveDialog s then
        match nth_error (folders s) row with
        | Some f =>
            if move_to_disabled s f then Done
            else Do (SetMoveDestination (Some (FolderNode.id f))) Done
        | None => Done
        end
      else Done
  | MoveConfirmClick => if showMoveDialog s then handleMove s else Done
  end.

(** A gesture runs the first segment of its handler on the state the page
    was last rendered from. *)
Definition fire (ev : UIEvent) (w : World) : World :=
  run (dispatch (state w) ev) w.

Definition fire_all (evs : list UIEvent) (w : World) : World :=
  fold_left (fun w ev => fire ev w) evs w.

(** The gestures of a drag that is under way, other than a drop and the
    end of the drag. *)
Definition hover (ev : UIEvent) : bool :=
  match ev with
  | ManagerDragOver | ManagerDragLeave
  | FolderRowDragOver _ | FolderRowDragLeave => true
  | _ => false
  end.

(** The page as first rendered, before its effects run. *)
Definition fresh : World :=
  {| state := initialState; inflight := []; trace := [] |}.

End View.

(* ================================================================== *)
(** * The earlier revision of the dashboard *)
(* ================================================================== *)

(** The first revision of the component differs from the one above in its
    upload handler (no [folderPath], one toast per file) and in the
    literal texts of its toasts. *)

Module DashboardRev1.

Definition formData (s : State) (file : LocalFile.t) : list FormField :=
  field_file file :: Dashboard.current_folder_field s.

Fixpoint upload_loop (s : State) (files : list LocalFile.t) : Task :=
  match files with
  | [] =>
      Do (SetLoading false)
        (Fork (Dashboard.loadFiles s) (Fork (Dashboard.loadStats s) Done))
  | file :: rest =>
      Await (PostFilesUpload (formData s file))
        (fun o => match o with
                  | Fulfilled _ =>
                      Do (toast_success
                            (WithName "" (LocalFile.name file)
                               " uploaded successfully"))
                         (upload_loop s rest)
                  | Rejected detail =>
                      Do (toast_error
                            (detail_or detail
                               (WithName "Failed to upload "
                                  (LocalFile.name file) "")))
                         (upload_loop s rest)
                  end)
  end.

Definition handleFileUpload (s : State) (files : list LocalFile.t) : Task :=
  match files with
  | [] => Done
  | _ :: _ => Do (SetLoading true) (upload_loop s files)
  end.

End DashboardRev1.

(* ================================================================== *)
(** * Observations on a run *)
(* ================================================================== *)

Definition upload_form {A : Type} (r : Request A) : option (list FormField) :=
  match r with
  | PostFilesUpload formData => Some formData
  | _ => None
  end.

Definition is_move {A : Type} (r : Request A) : bool :=
  match r with
  | PostFilesMove _ _ | PostFoldersMove _ _ => true
  | _ => false
  end.

Definition is_stats {A : Type} (r : Request A) : bool :=
  match r with
  | GetUserStats => true
  | _ => false
  end.

(** The forms of the upload requests sent, in order. *)
Fixpoint uploads (tr : list Output) : list (list FormField) :=
  match tr with
  | [] => []
  | Sent r :: rest =>
      match upload_form r with
      | Some f => f :: uploads rest
      | None => uploads rest
      end
  | _ :: rest => uploads rest
  end.

(** The toasts shown, in order. *)
Definition toasts (tr : list Output) : list Output :=
  filter (fun o => match o with
                   | ToastSuccess _ | ToastError _ => true
                   | _ => false
                   end) tr.

(** The number of requests sent. *)
Definition sent_count (tr : list Output) : nat :=
  List.length (filter (fun o => match o with Sent _ => true | _ => false end) tr).

(** Some request sent satisfies [p]. *)
Definition sent_some (p : forall A : Type, Request A -> bool)
  (tr : list Output) : bool :=
  existsb (fun o => match o with Sent r => p _ r | _ => false end) tr.

Definition is_upload {A : Type} (r : Request A) : bool :=
  match upload_form r with Some _ => true | None => false end.

(** Settles the upload request in flight with outcome [o], leaving the other
    requests in flight; [None] when no upload is in flight. *)
Definition answer_upload (o : Outcome unit) (w : World) : option World :=
  settle_first (@is_upload) (reply o) w.

(** Settles the move request in flight with outcome [o]. *)
Definition answer_move (o : Outcome unit) (w : World) : option World :=
  settle_first (@is_move) (reply o) w.

(** Settles, one after the other, the uploads of a batch. *)
Fixpoint answer_uploads (os : list (Outcome unit)) (w : World) : option World :=
  match os with
  | [] => Some w
  | o :: rest =>
      match answer_upload o w with
      | Some w' => answer_uploads rest w'
      | None => None
      end
  end.

(** The number of fulfilled outcomes of a batch. *)
Definition fulfilled {A : Type} (os : list (Outcome A)) : N :=
  N.of_nat (List.length
              (filter (fun o => match o with
                                | Fulfilled _ => true
                                | Rejected _ => false
                                end) os)).

(** The number of rejected outcomes of a batch. *)
Definition rejected {A : Type} (os : list (Outcome A)) : N :=
  N.of_nat (List.length
              (filter (fun o => match o with
                                | Fulfilled _ => false
                                | Rejected _ => true
                                end) os)).

(** The two toasts that close a batch: [m] successes, [n] failures; a
    count of zero shows no toast. *)
Definition report (m n : N) : list Output :=
  (if (0 <? m)%N
   then [ToastSuccess (TranslatedCount "fileUploaded" m)] else [])
  ++ (if (0 <? n)%N
      then [ToastError (TranslatedCount "fileUploadFailed" n)] else []).

(** What the loop of [handleFileUpload] sends and logs when its uploads
    settle as [os]: one request per file, and a console line after each
    rejected one. *)
Fixpoint loop_trace (s : State) (folderPath : option jsstring)
  (files : list LocalFile.t) (os : list (Outcome unit)) : list Output :=
  match files, os with
  | file :: files', o :: os' =>
      Sent (PostFilesUpload (Dashboard.formData s folderPath file))
      :: match o with
         | Fulfilled _ => []
         | Rejected _ =>
             [ConsoleError
                (WithName "Failed to upload " (LocalFile.name file) ":")]
         end
      ++ loop_trace s folderPath files' os'
  | _, _ => []
  end.

(** No upload is in flight. *)
Definition no_upload_in_flight (w : World) : bool :=
  forallb (fun p => negb (is_upload (request p))) (inflight w).

(** Every action a function body can perform satisfies [okA] and every
    request it can send satisfies [okR], however its requests settle. *)
Fixpoint confined (okA : Action -> bool)
  (okR : forall A : Type, Request A -> bool) (t : Task) : Prop :=
  match t with
  | Done => True
  | Throw => True
  | Do a k => okA a = true /\ confined okA okR k
  | Fork c k => confined okA okR c /\ confined okA okR k
  | Await r k => okR _ r = true /\ forall o, confined okA okR (k o)
  end.

(** The same of the bodies waiting for the requests in flight. *)
Definition pool_confined (okA : Action -> bool)
  (okR : forall A : Type, Request A -> bool) (pool : list Pending) : Prop :=
  Forall (fun p => forall o : Outcome (answer p),
              confined okA okR (continuation p o)) pool.

(** Some request outside [okR] was sent. *)
Definition strayed (okR : forall A : Type, Request A -> bool)
  (tr : list Output) : bool :=
  sent_some (fun A r => negb (okR A r)) tr.

(** What a confined run keeps from [w] to [w']: the observed cells, the
    absence of stray requests, and the confinement of what is still
    waiting. *)
Definition kept (okA : Action -> bool)
  (okR : forall A : Type, Request A -> bool)
  (X : Type) (obs : State -> X) (w w' : World) : Prop :=
  pool_confined okA okR (inflight w')
  /\ obs (state w') = obs (state w)
  /\ strayed okR (trace w') = strayed okR (trace w).

Definition is_files_list {A : Type} (r : Request A) : bool :=
  match r with
  | GetFilesList _ => true
  | _ => false
  end.

Definition is_folders_tree {A : Type} (r : Request A) : bool :=
  match r with
  | GetFoldersTree => true
  | _ => false
  end.

(** The backend that answers the request for the file list with [listing]
    and the request for the folder tree with [tree]. *)
Definition lists (listing : list FileNode.t) (tree : list FolderNode.t)
  : Backend :=
  fun A r =>
    match r in Request A return Outcome A with
    | GetFilesList _ => Fulfilled listing
    | GetFoldersTree => Fulfilled tree
    | GetUserStats => Rejected None
    | GetBreadcrumb _ => Rejected None
    | PostFilesUpload _ => Rejected None
    | PostFoldersCreate _ _ => Rejected None
    | PostFilesMove _ _ => Rejected None
    | PostFoldersMove _ _ => Rejected None
    end.

(** The two reloads in flight settle with [listing] and [tree], the file
    list first or the folder tree first. *)
Definition answer_lists (files_first : bool) (listing : list FileNode.t)
  (tree : list FolderNode.t) (w : World) : option World :=
  if files_first then
    match settle_first (@is_files_list) (lists listing tree) w with
    | Some w' => settle_first (@is_folders_tree) (lists listing tree) w'
    | None => None
    end
  else
    match settle_first (@is_folders_tree) (lists listing tree) w with
    | Some w' => settle_first (@is_files_list) (lists listing tree) w'
    | None => None
    end.

(** A move whose request [r] was sent by the gesture that led from [w] to
    [w1] and is then fulfilled.  The toast [m] is shown, the file list of
    the current folder (the empty parameter at the root) and the folder
    tree are asked for again and nothing else is sent.  When the two
    answers arrive, in either order, the [files] cell holds the list
    received and the [folders] cell the folders of the tree received whose
    parent is the current folder.  The stats cell is not written and no
    stats request goes out, then or in any later turn of the event
    loop. *)
Definition reloads_lists_not_stats (w w1 : World) (r : Request unit)
  (m : Message) : Prop :=
  exists w2 : World,
    answer_move (Fulfilled tt) w1 = Some w2
    /\ trace w2
       = trace w
         ++ [Sent r; ToastSuccess m;
             Sent (GetFilesList
                     (if truthy (currentFolder (state w))
                      then currentFolder (state w) else None));
             Sent GetFoldersTree]
    /\ stats (state w2) = stats (state w)
    /\ (forall (files_first : bool) (listing : list FileNode.t)
           (tree : list FolderNode.t),
           exists w4 : World,
             answer_lists files_first listing tree w2 = Some w4
             /\ files (state w4) = listing
             /\ folders (state w4)
                = filter (fun f => nullable_eq (FolderNode.parent_id f)
                                     (currentFolder (state w)))
                    tree
             /\ stats (state w4) = stats (state w)
             /\ inflight w4 = []
             /\ trace w4 = trace w2)
    /\ forall w3 : World,
         steps w2 w3 ->
         stats (state w3) = stats (state w)
         /\ sent_some (@is_stats) (trace w3) = sent_some (@is_stats) (trace w).

(** The text of the toast after a move by drag and drop. *)
Definition moved_text (x : Tagged) (moved_file moved_folder : string)
  : Message :=
  Text (match type x with
        | type_file => moved_file
        | type_folder => moved_folder
        end).

Definition keeps_stats (a : Action) : bool :=
  match a with SetStats _ => false | _ => true end.

Definition not_stats {A : Type} (r : Request A) : bool := negb (is_stats r).

Definition not_move {A : Type} (r : Request A) : bool := negb (is_move r).

Definition any_action (a : Action) : bool := true.

(** The cells of the directory view. *)
Definition directory (s : State)
  : list FileNode.t * list FolderNode.t * list FolderNode.t * Stats
    * option JsId :=
  (files s, folders s, breadcrumb s, stats s, currentFolder s).

Definition dragstart (ev : View.UIEvent) : bool :=
  match ev with
  | View.FolderRowDragStart _ | View.FileRowDragStart _ => true
  | _ => false
  end.

Definition dragend (ev : View.UIEvent) : bool :=
  match ev with
  | View.RowDragEnd => true
  | _ => false
  end.

(** The rules whose pass state differs between two passwords. *)
Definition flipped (p q : jsstring) : list PasswordStrengthIndicator.RuleId :=
  map PasswordStrengthIndicator.id
    (filter (fun req => xorb (PasswordStrengthIndicator.test req p)
                          (PasswordStrengthIndicator.test req q))
       PasswordStrengthIndicator.requirements).

(** The password without its special characters. *)
Definition remove_special (p : jsstring) : jsstring :=
  filter (fun c => negb (Login.special c)) p.

(* ================================================================== *)
(** * Sample data *)
(* ================================================================== *)

Module Sample.

Definition docs_a : LocalFile.t :=
  {| LocalFile.name := lit "a.txt";
     LocalFile.webkitRelativePath := lit "docs/a.txt" |}.

Definition docs_sub_b : LocalFile.t :=
  {| LocalFile.name := lit "b.txt";
     LocalFile.webkitRelativePath := lit "docs/sub/b.txt" |}.

Definition photo : LocalFile.t :=
  {| LocalFile.name := lit "photo.png"; LocalFile.webkitRelativePath := [] |}.

Definition folderA : FolderNode.t :=
  {| FolderNode.id := IdStr (lit "A"); FolderNode.name := lit "Alpha";
     FolderNode.parent_id := None; FolderNode.size := 0 |}.

Definition folderB : FolderNode.t :=
  {| FolderNode.id := IdStr (lit "B"); FolderNode.name := lit "Beta";
     FolderNode.parent_id := None; FolderNode.size := 0 |}.

Definition report_txt : FileNode.t :=
  {| FileNode.id := IdStr (lit "f1"); FileNode.name := lit "report.txt";
     FileNode.folder_id := None; FileNode.size := 12;
     FileNode.created_at := lit "2024-01-01T00:00:00" |}.

(** A backend whose account holds the two folders and the file above, at
    the root, and that accepts every POST. *)
Definition backend : Backend :=
  fun A r =>
    match r in Request A return Outcome A with
    | GetFilesList _ => Fulfilled [report_txt]
    | GetFoldersTree => Fulfilled [folderA; folderB]
    | GetUserStats =>
        Fulfilled {| storage_used := 12; file_count := 1; folder_count := 2 |}
    | GetBreadcrumb _ => Fulfilled []
    | PostFilesUpload _ => Fulfilled tt
    | PostFoldersCreate _ _ => Fulfilled tt
    | PostFilesMove _ _ => Fulfilled tt
    | PostFoldersMove _ _ => Fulfilled tt
    end.

Definition any_request {A : Type} (r : Request A) : bool := true.

(** Settles the requests in flight one after the other, oldest first. *)
Fixpoint settle_all (fuel : nat) (w : World) : World :=
  match fuel with
  | O => w
  | S fuel' =>
      match settle_first (@any_request) backend w with
      | Some w' => settle_all fuel' w'
      | None => w
      end
  end.

(** The dashboard once mounted and loaded from [backend]. *)
Definition loaded : World :=
  settle_all 4 (run (Dashboard.mount initialState) View.fresh).

(** The new-folder dialog open, with three spaces typed as the name. *)
Definition blank_name_typed : World :=
  View.fire_all [View.FolderDialogOpenChange true;
                 View.FolderNameChange (lit "   ")] loaded.

(** A drag of the first folder row that passes over the second row and
    leaves it again. *)
Definition hovering : list View.UIEvent :=
  [View.ManagerDragOver; View.FolderRowDragOver 1; View.FolderRowDragLeave;
   View.ManagerDragLeave].

(** The move dialog is opened on the first folder, the second folder is
    chosen as destination, the dialog is dismissed, and the dialog is
    opened again on the second folder and confirmed. *)
Definition stale_destination : list View.UIEvent :=
  [View.FolderMoveClick 0; View.MoveToClick 1;
   View.MoveDialogOpenChange false; View.FolderMoveClick 1].

(** The file row is dragged and held over the second folder row. *)
Definition dragging : World :=
  View.fire_all [View.FileRowDragStart 0; View.FolderRowDragOver 1] loaded.

(** The move dialog open on the file, with the second folder chosen. *)
Definition move_chosen : World :=
  View.fire_all [View.FileMoveClick 0; View.MoveToClick 1] loaded.

End Sample.

From Stdlib Require Import Permutation.

(* ================================================================== *)
(** * Further observations on the dashboard *)
(* ================================================================== *)

(** The picked files whose folder path is [path], in picking order. *)
Definition files_under (path : jsstring) (files : list LocalFile.t)
  : list LocalFile.t :=
  filter (fun f => streq (Dashboard.folderPath_of f) path) files.

(** The group the loop of [handleFolderUpload] ends with under [path]:
    none when no picked file lies there. *)
Definition group_under (path : jsstring) (files : list LocalFile.t)
  : option (list LocalFile.t) :=
  match files_under path files with
  | [] => None
  | f :: r => Some (f :: r)
  end.

(** Some picked file lies in a folder whose path is a name every object
    inherits from [Object.prototype]. *)
Definition hits_prototype (files : list LocalFile.t) : bool :=
  existsb (fun f => JsObject.inherited (Dashboard.folderPath_of f)) files.





(** The clicks that choose a destination in the move dialog. *)
Definition destination_click (ev : View.UIEvent) : bool :=
  match ev with
  | View.MoveToRootClick | View.MoveToClick _ => true
  | _ => false
  end.

(** The destination cell holds the id of the item to move. *)
Definition self_destination (s : State) : bool :=
  match moveTarget s, moveDestination s with
  | Some target, Some d => id_eq (id target) d
  | _, _ => false
  end.

(** The drop-target cell holds the id of the dragged item. *)
Definition self_highlight (s : State) : bool :=
  match draggedItem s, dropTarget s with
  | Some dragged, Some d => id_eq (id dragged) d
  | _, _ => false
  end.

(** Further sample data. *)
Definition is_create {A : Type} (r : Request A) : bool :=
  match r with
  | PostFoldersCreate _ _ => true
  | _ => false
  end.

(** Settles the create request in flight with outcome [o]. *)
Definition answer_create (o : Outcome unit) (w : World) : option World :=
  settle_first (@is_create) (reply o) w.

Module Scenario.

(** Two files of a picked folder that is itself named "constructor". *)
Definition in_constructor : LocalFile.t :=
  {| LocalFile.name := lit "a.txt";
     LocalFile.webkitRelativePath := lit "constructor/a.txt" |}.

Definition site_index : LocalFile.t :=
  {| LocalFile.name := lit "index.html";
     LocalFile.webkitRelativePath := lit "constructor/site/index.html" |}.

(** A picked folder "7" with a file in a subfolder listed first. *)
Definition seven_sub_b : LocalFile.t :=
  {| LocalFile.name := lit "b.txt";
     LocalFile.webkitRelativePath := lit "7/sub/b.txt" |}.

Definition seven_a : LocalFile.t :=
  {| LocalFile.name := lit "a.txt";
     LocalFile.webkitRelativePath := lit "7/a.txt" |}.

Definition seven_c : LocalFile.t :=
  {| LocalFile.name := lit "c.txt";
     LocalFile.webkitRelativePath := lit "7/sub/c.txt" |}.

(** A listing in which a file and a folder have the same id, with the
    file being dragged. *)
Definition twin_folder : FolderNode.t :=
  {| FolderNode.id := IdNum 1; FolderNode.name := lit "Docs";
     FolderNode.parent_id := None; FolderNode.size := 0 |}.

Definition twin_file : FileNode.t :=
  {| FileNode.id := IdNum 1; FileNode.name := lit "notes.txt";
     FileNode.folder_id := None; FileNode.size := 3;
     FileNode.created_at := lit "2024-01-01T00:00:00" |}.

Definition twins_dragging : World :=
  View.fire (View.FileRowDragStart 0)
    (with_state (fun s => setFolders [twin_folder] (setFiles [twin_file] s))
       View.fresh).

End Scenario.

(* ================================================================== *)
(** * The routes of the application (App.js) *)
(* ================================================================== *)

Module App.

(** The [user] of the session, as the login response gives it. *)
Record User : Type := {
  id : JsId;
  username : jsstring;
  email : jsstring;
  role : jsstring;
  is_super_admin : bool;
  language : jsstring
}.

(** The paths of the [Route] elements: "/login", "/", "/profile",
    "/admin" and "/admin/plugins". *)
Inductive Path : Type := login | home | profile | admin | admin_plugins.

(** What a route renders. *)
Inductive Element : Type :=
| Loading
| Navigate (to : Path)
| LoginPage
| Dashboard
| Profile
| AdminPanel
| PluginManagement.

(** [user.role !== 'admin'] *)
Definition is_admin (u : User) : bool := streq (role u) (lit "admin").

Definition ProtectedRoute (loading : bool) (user : option User)
  (children : Element) : Element :=
  if loading then Loading
  else match user with
       | None => Navigate login
       | Some _ => children
       end.

Definition AdminRoute (loading : bool) (user : option User)
  (children : Element) : Element :=
  if loading then Loading
  else match user with
       | None => Navigate home
       | Some u => if negb (is_admin u) then Navigate home else children
       end.

Definition SuperAdminRoute (loading : bool) (user : option User)
  (children : Element) : Element :=
  if loading then Loading
  else match user with
       | None => Navigate home
       | Some u => if negb (is_super_admin u) then Navigate home else children
       end.

(** The [element] of the route of a path. *)
Definition element (loading : bool) (user : option User) (path : Path)
  : Element :=
  match path with
  | login => match user with
             | Some _ => Navigate home
             | None => LoginPage
             end
  | home => ProtectedRoute loading user Dashboard
  | profile => ProtectedRoute loading user Profile
  | admin => AdminRoute loading user AdminPanel
  | admin_plugins => SuperAdminRoute loading user PluginManagement
  end.

(** What is on screen at a path once the [Navigate] elements have been
    followed, at most [hops] of them. *)
Fixpoint screen (hops : nat) (loading : bool) (user : option User)
  (path : Path) : option Element :=
  match element loading user path with
  | Navigate to =>
      match hops with
      | O => None
      | S hops' => screen hops' loading user to
      end
  | e => Some e
  end.

(** [user?.role === 'admin' && ...]: the admin button in the header of the
    dashboard. *)
Definition admin_button_shown (user : option User) : bool :=
  match user with
  | Some u => is_admin u
  | None => false
  end.

End App.

(* ================================================================== *)
(** * The admin panel: which actions a row offers *)
(* ================================================================== *)

Module AdminPanel.

(** A row of [GET /admin/users]. *)
Record Row : Type := {
  id : JsId;
  username : jsstring;
  role : jsstring;
  is_super_admin : bool
}.

(** [!u.is_super_admin && (u.role !== 'admin' || user.is_super_admin)]:
    the condition of the role button and of the password button. *)
Definition manage_shown (user : App.User) (u : Row) : bool :=
  negb (is_super_admin u)
  && (negb (streq (role u) (lit "admin")) || App.is_super_admin user).

(** [!u.is_super_admin && u.id !== user.id
     && (u.role !== 'admin' || user.is_super_admin)] *)
Definition delete_shown (user : App.User) (u : Row) : bool :=
  negb (is_super_admin u)
  && negb (id_eq (id u) (App.id user))
  && (negb (streq (role u) (lit "admin")) || App.is_super_admin user).

(** The row of the list that describes the viewer. *)
Definition row_of (user : App.User) : Row :=
  {| id := App.id user; username := App.username user;
     role := App.role user; is_super_admin := App.is_super_admin user |}.

End AdminPanel.

(* ================================================================== *)
(** * Asynchronous handlers of the other pages *)
(* ================================================================== *)

(** The same reading of [async] functions as for the dashboard, for a page
    given by its requests [Req], its synchronous effects [Act], its cells
    [St] and the way an effect writes the cells. *)

Module Async.

Section Machine.

Variable Req : Type -> Type.
Variable Act : Type.
Variable St : Type.
Variable write : Act -> St -> St.

(** A function body: [Wait r k] sends [r] and awaits it, [Spawn c k] calls
    [c] without awaiting it. *)
Inductive Prog : Type :=
| Ret : Prog
| Eff (a : Act) (k : Prog) : Prog
| Spawn (child : Prog) (k : Prog) : Prog
| Wait {A : Type} (r : Req A) (k : Outcome A -> Prog) : Prog.

(** What happened on the page, in order. *)
Inductive Event : Type :=
| Did (a : Act)
| Asked {A : Type} (r : Req A).

Record Waiting : Type := waiting {
  data : Type;
  asked : Req data;
  rest : Outcome data -> Prog
}.

Record Page : Type := {
  cells : St;
  pending : list Waiting;
  log : list Event
}.

(** Runs a body up to its first [await]. *)
Fixpoint segment (p : Prog) (pg : Page) : Page :=
  match p with
  | Ret => pg
  | Eff a k =>
      segment k {| cells := write a (cells pg);
                   pending := pending pg;
                   log := log pg ++ [Did a] |}
  | Spawn c k => segment k (segment c pg)
  | Wait r k =>
      {| cells := cells pg;
         pending := pending pg ++ [waiting r k];
         log := log pg ++ [Asked r] |}
  end.

(** A turn of the event loop: a pending request settles. *)
Inductive turn : Page -> Page -> Prop :=
| turn_settle (pg : Page) (before after : list Waiting) (x : Waiting)
    (o : Outcome (data x)) :
    pending pg = before ++ x :: after ->
    turn pg (segment (rest x o)
               {| cells := cells pg;
                  pending := before ++ after;
                  log := log pg |}).

(** A server that answers every request. *)
Definition Server : Type := forall A : Type, Req A -> Outcome A.

(** The oldest pending request settles with the server's answer. *)
Definition settle_oldest (b : Server) (pg : Page) : option Page :=
  match pending pg with
  | [] => None
  | x :: after =>
      Some (segment (rest x (b _ (asked x)))
              {| cells := cells pg; pending := after; log := log pg |})
  end.

(** Settles the pending requests oldest first, [fuel] of them at most. *)
Fixpoint drain (fuel : nat) (b : Server) (pg : Page) : Page :=
  match fuel with
  | O => pg
  | S fuel' =>
      match settle_oldest b pg with
      | Some pg' => drain fuel' b pg'
      | None => pg
      end
  end.

End Machine.

End Async.

(* ================================================================== *)
(** * The login page (Login.jsx): logging in and registering *)
(* ================================================================== *)

Module LoginData.
Record t : Type := {
  username : jsstring;
  password : jsstring
}.
End LoginData.

Module RegisterData.
Record t : Type := {
  username : jsstring;
  email : jsstring;
  password : jsstring;
  confirm_password : jsstring
}.
End RegisterData.

Module LoginPage.

(** The object given to [setRegisterErrors]: [{}], [{ password: ... }] or
    [{ confirm: ... }].  The password text is the validator's messages
    joined with [', ']. *)
Record RegisterErrors : Type := {
  password : option (list Login.PasswordError);
  confirm : option string
}.

(** [response.data] of [POST /auth/login]. *)
Record Session : Type := {
  token : jsstring;
  user : App.User
}.

Inductive Request : Type -> Type :=
| PostLogin (username password : jsstring) : Request Session
| PostRegister (username email password : jsstring) : Request unit.

Inductive Action : Type :=
| preventDefault
| SetLoading (v : bool)
| SetRegisterErrors (v : RegisterErrors)
| setItem_token (v : jsstring)
  (** [localStorage.setItem('token', v)] *)
| setItem_user (v : App.User)
  (** [localStorage.setItem('user', JSON.stringify(v))] *)
| setUser (v : App.User)
| toast_success (m : Message)
| toast_error (m : Message).

(** The cells of the page, the two keys of [localStorage] it writes and
    the [user] cell of the application. *)
Record State : Type := {
  loading : bool;
  loginData : LoginData.t;
  registerData : RegisterData.t;
  registerErrors : RegisterErrors;
  stored_token : option jsstring;
  stored_user : option App.User;
  app_user : option App.User
}.

Definition write (a : Action) (s : State) : State :=
  match a with
  | preventDefault => s
  | SetLoading v =>
      {| loading := v; loginData := loginData s;
         registerData := registerData s; registerErrors := registerErrors s;
         stored_token := stored_token s; stored_user := stored_user s;
         app_user := app_user s |}
  | SetRegisterErrors v =>
      {| loading := loading s; loginData := loginData s;
         registerData := registerData s; registerErrors := v;
         stored_token := stored_token s; stored_user := stored_user s;
         app_user := app_user s |}
  | setItem_token v =>
      {| loading := loading s; loginData := loginData s;
         registerData := registerData s; registerErrors := registerErrors s;
         stored_token := Some v; stored_user := stored_user s;
         app_user := app_user s |}
  | setItem_user v =>
      {| loading := loading s; loginData := loginData s;
         registerData := registerData s; registerErrors := registerErrors s;
         stored_token := stored_token s; stored_user := Some v;
         app_user := app_user s |}
  | setUser v =>
      {| loading := loading s; loginData := loginData s;
         registerData := registerData s; registerErrors := registerErrors s;
         stored_token := stored_token s; stored_user := stored_user s;
         app_user := Some v |}
  | toast_success _ => s
  | toast_error _ => s
  end.

Definition Prog : Type := Async.Prog Request Action.
Definition Page : Type := Async.Page Request Action State.
Definition Server : Type := Async.Server Request.

(** The statements both handlers run once the login request is
    fulfilled, with the toast of the handler. *)
Definition open_session (r : Session) (m : Message) (k : Prog) : Prog :=
  Async.Eff (setItem_token (token r))
    (Async.Eff (setItem_user (user r))
       (Async.Eff (setUser (user r))
          (Async.Eff (toast_success m) k))).

(** The [finally] block. *)
Definition finally_ : Prog := Async.Eff (SetLoading false) (Async.Ret _ _).

Definition handleLogin (s : State) : Prog :=
  Async.Eff preventDefault
    (Async.Eff (SetLoading true)
       (Async.Wait
          (PostLogin (LoginData.username (loginData s))
             (LoginData.password (loginData s)))
          (fun o => match o with
                    | Fulfilled r =>
                        open_session r (Translated "loginSuccess") finally_
                    | Rejected detail =>
                        Async.Eff
                          (toast_error
                             (detail_or detail (Translated "loginFailed")))
                          finally_
                    end))).

Definition handleRegister (s : State) : Prog :=
  Async.Eff preventDefault
    (Async.Eff (SetRegisterErrors {| password := None; confirm := None |})
       match Login.validatePassword (RegisterData.password (registerData s))
       with
       | e :: es =>
           Async.Eff
             (SetRegisterErrors {| password := Some (e :: es); confirm := None |})
             (Async.Ret _ _)
       | [] =>
           if negb (streq (RegisterData.password (registerData s))
                      (RegisterData.confirm_password (registerData s)))
           then
             Async.Eff
               (SetRegisterErrors
                  {| password := None;
                     confirm := Some "Passwords do not match"%string |})
               (Async.Ret _ _)
           else
             Async.Eff (SetLoading true)
               (Async.Wait
                  (PostRegister (RegisterData.username (registerData s))
                     (RegisterData.email (registerData s))
                     (RegisterData.password (registerData s)))
                  (fun o =>
                     match o with
                     | Fulfilled _ =>
                         Async.Wait
                           (PostLogin
                              (RegisterData.username (registerData s))
                              (RegisterData.password (registerData s)))
                           (fun o' =>
                              match o' with
                              | Fulfilled r =>
                                  open_session r
                                    (Translated "registerSuccess") finally_
                              | Rejected detail =>
                                  Async.Eff
                                    (toast_error
                                       (detail_or detail
                                          (Translated "registerFailed")))
                                    finally_
                              end)
                     | Rejected detail =>
                         Async.Eff
                           (toast_error
                              (detail_or detail (Translated "registerFailed")))
                           finally_
                     end))
       end).

(** The submit of the register form on a page. *)
Definition submit_register (pg : Page) : Page :=
  Async.segment write (handleRegister (Async.cells pg)) pg.

(** The requests asked, in order. *)
Definition is_register {A : Type} (r : Request A) : bool :=
  match r with
  | PostRegister _ _ _ => true
  | PostLogin _ _ => false
  end.

Definition asked_register (ev : Async.Event Request Action) : bool :=
  match ev with
  | @Async.Asked _ _ _ r => is_register r
  | @Async.Did _ _ _ => false
  end.

Definition asked_login (ev : Async.Event Request Action) : bool :=
  match ev with
  | @Async.Asked _ _ _ r => negb (is_register r)
  | @Async.Did _ _ _ => false
  end.

Definition toasted_error (ev : Async.Event Request Action) : bool :=
  match ev with
  | @Async.Did _ _ (toast_error _) => true
  | _ => false
  end.

(** The page with cells [s], nothing pending and nothing logged yet. *)
Definition page_of (s : State) : Page :=
  {| Async.cells := s; Async.pending := []; Async.log := [] |}.

(** The register form is submitted and the requests it sends settle. *)
Definition register (b : Server) (s : State) : Page :=
  Async.drain write 2 b (submit_register (page_of s)).

End LoginPage.

(* ================================================================== *)
(** * The profile page: changing one's password *)
(* ================================================================== *)

(** [s.startsWith(prefix)] *)
Fixpoint startsWith (prefix s : jsstring) : bool :=
  match prefix, s with
  | [], _ => true
  | c :: prefix', d :: s' => N.eqb c d && startsWith prefix' s'
  | _ :: _, [] => false
  end.

(** [s.includes(needle)] *)
Fixpoint includes (needle s : jsstring) : bool :=
  startsWith needle s
  || match s with
     | [] => false
     | _ :: s' => includes needle s'
     end.

Module PasswordData.
Record t : Type := {
  current_password : jsstring;
  new_password : jsstring;
  confirm_password : jsstring
}.
End PasswordData.

(** The first revision of the component (part_001, up to the second
    [import] block) is the one modelled: the later revision reads [stats]
    and calls [setStats] without declaring them, so it does not render. *)
Module ProfileRev1.

(** The one message [setPasswordErrors] is given, under its key; [{}] is
    [None]. *)
Inductive PasswordErrors : Type :=
| current_error (text : string)
| new_error_rules (joined : list Login.PasswordError)
  (** the validator's messages joined with [', '] *)
| new_error (text : string)
| confirm_error (text : string).

Inductive Request : Type -> Type :=
| GetUserStats : Request Stats
| PostChangePassword (current_password new_password : jsstring)
  : Request unit.

Inductive Action : Type :=
| preventDefault
| SetStats (v : Stats)
| SetPasswordErrors (v : option PasswordErrors)
| SetLoading (v : bool)
| SetPasswordData (v : PasswordData.t)
| toast_success (m : Message)
| toast_error (text : jsstring)
| console_error (m : Message).

Record State : Type := {
  stats : Stats;
  passwordData : PasswordData.t;
  loading : bool;
  passwordErrors : option PasswordErrors
}.

(** The initial values given to [useState]. *)
Definition initialState : State :=
  {| stats := {| storage_used := 0; file_count := 0; folder_count := 0 |};
     passwordData :=
       {| PasswordData.current_password := [];
          PasswordData.new_password := [];
          PasswordData.confirm_password := [] |};
     loading := false;
     passwordErrors := None |}.

Definition write (a : Action) (s : State) : State :=
  match a with
  | preventDefault => s
  | SetStats v =>
      {| stats := v; passwordData := passwordData s; loading := loading s;
         passwordErrors := passwordErrors s |}
  | SetPasswordErrors v =>
      {| stats := stats s; passwordData := passwordData s;
         loading := loading s; passwordErrors := v |}
  | SetLoading v =>
      {| stats := stats s; passwordData := passwordData s; loading := v;
         passwordErrors := passwordErrors s |}
  | SetPasswordData v =>
      {| stats := stats s; passwordData := v; loading := loading s;
         passwordErrors := passwordErrors s |}
  | toast_success _ => s
  | toast_error _ => s
  | console_error _ => s
  end.

Definition Prog : Type := Async.Prog Request Action.
Definition Page : Type := Async.Page Request Action State.
Definition Server : Type := Async.Server Request.

Definition loadStats : Prog :=
  Async.Wait GetUserStats
    (fun o => match o with
              | Fulfilled data => Async.Eff (SetStats data) (Async.Ret _ _)
              | Rejected _ =>
                  Async.Eff (console_error (Text "Failed to load stats:"))
                    (Async.Ret _ _)
              end).

Definition finally_ : Prog := Async.Eff (SetLoading false) (Async.Ret _ _).

(** [validatePassword] of the profile page: the page has its own copy of
    the function of the login page, with the same four tests and
    messages. *)
Definition validatePassword (password : jsstring) : list Login.PasswordError :=
  Login.validatePassword password.

(** [error.response?.data?.detail || 'Failed to change password'] *)
Definition errorMsg (detail : option jsstring) : jsstring :=
  match detail with
  | Some d => if truthy_string d then d else lit "Failed to change password"
  | None => lit "Failed to change password"
  end.

Definition handlePasswordChange (s : State) : Prog :=
  let d := passwordData s in
  Async.Eff preventDefault
    (Async.Eff (SetPasswordErrors None)
       (if negb (truthy_string (PasswordData.current_password d)) then
          Async.Eff
            (SetPasswordErrors
               (Some (current_error "Current password is required")))
            (Async.Ret _ _)
        else
          match validatePassword (PasswordData.new_password d) with
          | e :: es =>
              Async.Eff (SetPasswordErrors (Some (new_error_rules (e :: es))))
                (Async.Ret _ _)
          | [] =>
              if negb (streq (PasswordData.new_password d)
                         (PasswordData.confirm_password d))
              then
                Async.Eff
                  (SetPasswordErrors
                     (Some (confirm_error "Passwords do not match")))
                  (Async.Ret _ _)
              else if streq (PasswordData.current_password d)
                        (PasswordData.new_password d)
              then
                Async.Eff
                  (SetPasswordErrors
                     (Some (new_error
                              "New password must be different from current password")))
                  (Async.Ret _ _)
              else
                Async.Eff (SetLoading true)
                  (Async.Wait
                     (PostChangePassword (PasswordData.current_password d)
                        (PasswordData.new_password d))
                     (fun o =>
                        match o with
                        | Fulfilled _ =>
                            Async.Eff
                              (toast_success
                                 (Text "Password changed successfully"))
                              (Async.Eff
                                 (SetPasswordData
                                    {| PasswordData.current_password := [];
                                       PasswordData.new_password := [];
                                       PasswordData.confirm_password := [] |})
                                 finally_)
                        | Rejected detail =>
                            if includes (lit "incorrect") (errorMsg detail)
                            then
                              Async.Eff
                                (SetPasswordErrors
                                   (Some (current_error
                                            "Current password is incorrect")))
                                finally_
                            else
                              Async.Eff (toast_error (errorMsg detail)) finally_
                        end))
          end)).

(** The form of this revision: an input for the current password, an
    input for the new password, and the submit event of the form, however
    it comes about (the browser holds it back while a required input is
    empty or the button is disabled).  There is no input for the
    confirmation. *)
Inductive UIEvent : Type :=
| CurrentPasswordChange (value : jsstring)
| NewPasswordChange (value : jsstring)
| FormSubmit.

Definition dispatch (s : State) (ev : UIEvent) : Prog :=
  match ev with
  | CurrentPasswordChange value =>
      Async.Eff
        (SetPasswordData
           {| PasswordData.current_password := value;
              PasswordData.new_password :=
                PasswordData.new_password (passwordData s);
              PasswordData.confirm_password :=
                PasswordData.confirm_password (passwordData s) |})
        (Async.Ret _ _)
  | NewPasswordChange value =>
      Async.Eff
        (SetPasswordData
           {| PasswordData.current_password :=
                PasswordData.current_password (passwordData s);
              PasswordData.new_password := value;
              PasswordData.confirm_password :=
                PasswordData.confirm_password (passwordData s) |})
        (Async.Ret _ _)
  | FormSubmit => handlePasswordChange s
  end.

Definition fire (ev : UIEvent) (pg : Page) : Page :=
  Async.segment write (dispatch (Async.cells pg) ev) pg.

(** The page once rendered for the first time: the effect has called
    [loadStats]. *)
Definition mounted : Page :=
  Async.segment write loadStats
    {| Async.cells := initialState; Async.pending := []; Async.log := [] |}.

(** The pages the user can bring about: by gestures on the form, and as
    requests settle. *)
Inductive reachable : Page -> Prop :=
| reach_mount : reachable mounted
| reach_gesture (ev : UIEvent) (pg : Page) :
    reachable pg -> reachable (fire ev pg)
| reach_turn (pg pg' : Page) :
    reachable pg -> Async.turn write pg pg' -> reachable pg'.

Definition is_change {A : Type} (r : Request A) : bool :=
  match r with
  | PostChangePassword _ _ => true
  | GetUserStats => false
  end.

Definition asked_change (ev : Async.Event Request Action) : bool :=
  match ev with
  | @Async.Asked _ _ _ r => is_change r
  | @Async.Did _ _ _ => false
  end.

(** The body leaves the password cells and [loading] alone and never asks
    for a change of password, however its requests settle. *)
Fixpoint harmless (p : Prog) : Prop :=
  match p with
  | Async.Ret _ _ => True
  | Async.Eff a k =>
      match a with
      | SetPasswordData _ | SetLoading _ => False
      | _ => True
      end
      /\ harmless k
  | Async.Spawn c k => harmless c /\ harmless k
  | Async.Wait r k => is_change r = false /\ forall o, harmless (k o)
  end.

(** The error a submit of this form ends in. *)
Definition submit_error (d : PasswordData.t) : PasswordErrors :=
  match PasswordData.current_password d with
  | [] => current_error "Current password is required"
  | _ :: _ =>
      match Login.validatePassword (PasswordData.new_password d) with
      | e :: es => new_error_rules (e :: es)
      | [] => confirm_error "Passwords do not match"
      end
  end.

End ProfileRev1.

(* ================================================================== *)
(** * The plugin page (PluginManagement.jsx) *)
(* ================================================================== *)

(** [a.join(sep)] for a separator of any length. *)
Fixpoint join_str (sep : jsstring) (a : list jsstring) : jsstring :=
  match a with
  | [] => []
  | [x] => x
  | x :: r => x ++ sep ++ join_str sep r
  end.

(** The [settings] of a plugin as the server lists it for the file-type
    filter: the text area reads [settings.blocked_extensions] without a
    test, so the page relies on both being there. *)
Module Settings.
Record t : Type := {
  blocked_extensions : list jsstring;
  description : option jsstring
}.
End Settings.

Module Plugin.
Record t : Type := {
  name : jsstring;
  enabled : bool;
  settings : Settings.t
}.
End Plugin.

Module PluginManagement.

(** The body of [PUT /admin/plugins/{name}]: [{ enabled }] or
    [{ enabled, settings }]. *)
Record Body : Type := {
  enabled : bool;
  settings : option Settings.t
}.

Inductive Request : Type -> Type :=
| GetPlugins : Request (list Plugin.t)
| PutPlugin (pluginName : jsstring) (body : Body) : Request unit.

Inductive Action : Type :=
| SetPlugins (v : list Plugin.t)
| SetLoading (v : bool)
| SetEditingPlugin (v : option Plugin.t)
| toast_success (m : Message)
| toast_error (m : Message).

Record State : Type := {
  plugins : list Plugin.t;
  loading : bool;
  editingPlugin : option Plugin.t
}.

Definition write (a : Action) (s : State) : State :=
  match a with
  | SetPlugins v =>
      {| plugins := v; loading := loading s;
         editingPlugin := editingPlugin s |}
  | SetLoading v =>
      {| plugins := plugins s; loading := v;
         editingPlugin := editingPlugin s |}
  | SetEditingPlugin v =>
      {| plugins := plugins s; loading := loading s; editingPlugin := v |}
  | toast_success _ => s
  | toast_error _ => s
  end.

Definition Prog : Type := Async.Prog Request Action.
Definition Page : Type := Async.Page Request Action State.
Definition Server : Type := Async.Server Request.

Definition loadPlugins : Prog :=
  Async.Eff (SetLoading true)
    (Async.Wait GetPlugins
       (fun o => match o with
                 | Fulfilled data =>
                     Async.Eff (SetPlugins data)
                       (Async.Eff (SetLoading false) (Async.Ret _ _))
                 | Rejected _ =>
                     Async.Eff (toast_error (Text "Failed to load plugins"))
                       (Async.Eff (SetLoading false) (Async.Ret _ _))
                 end)).

Definition togglePlugin (pluginName : jsstring) (currentState : bool) : Prog :=
  Async.Wait
    (PutPlugin pluginName
       {| enabled := negb currentState; settings := None |})
    (fun o => match o with
              | Fulfilled _ =>
                  Async.Eff (toast_success (Translated "pluginUpdated"))
                    (Async.Spawn loadPlugins (Async.Ret _ _))
              | Rejected _ =>
                  Async.Eff (toast_error (Text "Failed to update plugin"))
                    (Async.Ret _ _)
              end).

(** [updatePluginSettings]: [editingPlugin.enabled] is read inside the
    [try], so a [null] cell ends in the [catch]. *)
Definition updatePluginSettings (s : State) (pluginName : jsstring)
  (new_settings : Settings.t) : Prog :=
  match editingPlugin s with
  | Some editing =>
      Async.Wait
        (PutPlugin pluginName
           {| enabled := Plugin.enabled editing;
              settings := Some new_settings |})
        (fun o => match o with
                  | Fulfilled _ =>
                      Async.Eff (toast_success (Translated "pluginUpdated"))
                        (Async.Eff (SetEditingPlugin None)
                           (Async.Spawn loadPlugins (Async.Ret _ _)))
                  | Rejected _ =>
                      Async.Eff
                        (toast_error (Text "Failed to update plugin settings"))
                        (Async.Ret _ _)
                  end)
  | None =>
      Async.Eff (toast_error (Text "Failed to update plugin settings"))
        (Async.Ret _ _)
  end.

(** [value.split(',').map(s => s.trim()).filter(Boolean)]: the list typed
    in the text area. *)
Definition parse_extensions (value : jsstring) : list jsstring :=
  filter truthy_string (map trim (split 44 value)).

(** [blocked_extensions.join(', ')]: the value of the text area. *)
Definition show_extensions (blocked_extensions : list jsstring) : jsstring :=
  join_str [44; 32]%N blocked_extensions.

(** An entry as the text area can hold one: not empty, no white space at
    either end, no comma. *)
Definition extension_like (e : jsstring) : Prop :=
  e <> [] /\ trim e = e /\ forallb (fun c => negb (N.eqb c 44)) e = true.

(** [plugin.name === 'file_type_filter'] *)
Definition is_file_type_filter (p : Plugin.t) : bool :=
  streq (Plugin.name p) (lit "file_type_filter").

(** [editingPlugin?.name === plugin.name] *)
Definition editing_this (s : State) (p : Plugin.t) : bool :=
  match editingPlugin s with
  | Some editing => streq (Plugin.name editing) (Plugin.name p)
  | None => false
  end.

(** The gestures on the card of the plugin in a row of the list. *)
Inductive UIEvent : Type :=
| SwitchChange (row : nat)
| EditClick (row : nat)
| TextareaChange (row : nat) (value : jsstring)
| SaveClick (row : nat)
| CancelClick (row : nat).

(** [{ ...editingPlugin, settings: { ...editingPlugin.settings,
      blocked_extensions: ... } }] *)
Definition with_extensions (editing : Plugin.t) (value : jsstring) : Plugin.t :=
  {| Plugin.name := Plugin.name editing;
     Plugin.enabled := Plugin.enabled editing;
     Plugin.settings :=
       {| Settings.blocked_extensions := parse_extensions value;
          Settings.description :=
            Settings.description (Plugin.settings editing) |} |}.

(** The handler of a gesture.  The list is rendered only while [loading]
    is false; the settings block only on the card of [file_type_filter];
    the text area and its two buttons only while that plugin is being
    edited, the edit button only while it is not. *)
Definition dispatch (s : State) (ev : UIEvent) : Prog :=
  if loading s then Async.Ret _ _
  else
    match ev with
    | SwitchChange row =>
        match nth_error (plugins s) row with
        | Some p => togglePlugin (Plugin.name p) (Plugin.enabled p)
        | None => Async.Ret _ _
        end
    | EditClick row =>
        match nth_error (plugins s) row with
        | Some p =>
            if is_file_type_filter p && negb (editing_this s p)
            then Async.Eff (SetEditingPlugin (Some p)) (Async.Ret _ _)
            else Async.Ret _ _
        | None => Async.Ret _ _
        end
    | TextareaChange row value =>
        match nth_error (plugins s) row, editingPlugin s with
        | Some p, Some editing =>
            if is_file_type_filter p && editing_this s p
            then Async.Eff
                   (SetEditingPlugin (Some (with_extensions editing value)))
                   (Async.Ret _ _)
            else Async.Ret _ _
        | _, _ => Async.Ret _ _
        end
    | SaveClick row =>
        match nth_error (plugins s) row, editingPlugin s with
        | Some p, Some editing =>
            if is_file_type_filter p && editing_this s p
            then updatePluginSettings s (Plugin.name p)
                   (Plugin.settings editing)
            else Async.Ret _ _
        | _, _ => Async.Ret _ _
        end
    | CancelClick row =>
        match nth_error (plugins s) row with
        | Some p =>
            if is_file_type_filter p && editing_this s p
            then Async.Eff (SetEditingPlugin None) (Async.Ret _ _)
            else Async.Ret _ _
        | None => Async.Ret _ _
        end
    end.

Definition fire (ev : UIEvent) (pg : Page) : Page :=
  Async.segment write (dispatch (Async.cells pg) ev) pg.

(** The initial values given to [useState]. *)
Definition initialState : State :=
  {| plugins := []; loading := false; editingPlugin := None |}.

(** The page once rendered for the first time: the effect has called
    [loadPlugins]. *)
Definition mounted : Page :=
  Async.segment write loadPlugins
    {| Async.cells := initialState; Async.pending := []; Async.log := [] |}.

(** The pages the user can bring about: by gestures, and as requests
    settle. *)
Inductive reachable : Page -> Prop :=
| reach_mount : reachable mounted
| reach_gesture (ev : UIEvent) (pg : Page) :
    reachable pg -> reachable (fire ev pg)
| reach_turn (pg pg' : Page) :
    reachable pg -> Async.turn write pg pg' -> reachable pg'.

(** The body writes the [editingPlugin] cell with [null] only, however
    its requests settle. *)
Fixpoint closes_only (p : Prog) : Prop :=
  match p with
  | Async.Ret _ _ => True
  | Async.Eff a k =>
      match a with SetEditingPlugin (Some _) => False | _ => True end
      /\ closes_only k
  | Async.Spawn c k => closes_only c /\ closes_only k
  | Async.Wait _ k => forall o, closes_only (k o)
  end.

(** The same of what the body does after its first [await]. *)
Fixpoint closes_only_later (p : Prog) : Prop :=
  match p with
  | Async.Ret _ _ => True
  | Async.Eff _ k => closes_only_later k
  | Async.Spawn c k => closes_only_later c /\ closes_only_later k
  | Async.Wait _ k => forall o, closes_only (k o)
  end.

Definition pool_closes_only (pool : list (Async.Waiting Request Action))
  : Prop :=
  Forall (fun x => forall o : Outcome (Async.data x),
              closes_only (Async.rest x o)) pool.

(** The gestures other than a click on the edit button. *)
Definition not_edit (ev : UIEvent) : bool :=
  match ev with
  | EditClick _ => false
  | _ => true
  end.

(** What can happen on the page once the settings have been opened and
    before they are opened again: switches are flipped, the text is
    changed, save or cancel is clicked, requests settle. *)
Inductive meanwhile : Page -> Page -> Prop :=
| meanwhile_stop (pg : Page) : meanwhile pg pg
| meanwhile_gesture (ev : UIEvent) (pg pg' : Page) :
    not_edit ev = true ->
    meanwhile (fire ev pg) pg' -> meanwhile pg pg'
| meanwhile_turn (pg pg1 pg' : Page) :
    Async.turn write pg pg1 -> meanwhile pg1 pg' -> meanwhile pg pg'.

(** The plugin being edited, if any, has this name and this flag. *)
Definition editing_as (n : jsstring) (en : bool) (s : State) : Prop :=
  match editingPlugin s with
  | Some e => Plugin.name e = n /\ Plugin.enabled e = en
  | None => True
  end.

End PluginManagement.

(* ================================================================== *)
(** * Sample data of the other pages *)
(* ================================================================== *)

Module Example.

Definition alice : App.User :=
  {| App.id := IdNum 7; App.username := lit "alice";
     App.email := lit "alice@example.org"; App.role := lit "user";
     App.is_super_admin := false; App.language := lit "en" |}.

Definition admin_bob : App.User :=
  {| App.id := IdNum 2; App.username := lit "bob";
     App.email := lit "bob@example.org"; App.role := lit "admin";
     App.is_super_admin := false; App.language := lit "en" |}.

(** The register form filled in by alice, on a page nobody is logged in
    on. *)
Definition register_form : LoginPage.State :=
  {| LoginPage.loading := false;
     LoginPage.loginData :=
       {| LoginData.username := []; LoginData.password := [] |};
     LoginPage.registerData :=
       {| RegisterData.username := lit "alice";
          RegisterData.email := lit "alice@example.org";
          RegisterData.password := lit "Abcdef1!";
          RegisterData.confirm_password := lit "Abcdef1!" |};
     LoginPage.registerErrors :=
       {| LoginPage.password := None; LoginPage.confirm := None |};
     LoginPage.stored_token := None;
     LoginPage.stored_user := None;
     LoginPage.app_user := None |}.

(** A server that creates the account and then refuses the login. *)
Definition login_refused : LoginPage.Server :=
  fun A r =>
    match r in LoginPage.Request T return Outcome T with
    | LoginPage.PostLogin _ _ => Rejected (Some (lit "Too many attempts"))
    | LoginPage.PostRegister _ _ _ => Fulfilled tt
    end.

(** The password form of the profile page with both fields filled in,
    the new password one that passes the four rules, and submitted. *)
Definition password_submitted : ProfileRev1.Page :=
  ProfileRev1.fire ProfileRev1.FormSubmit
    (ProfileRev1.fire (ProfileRev1.NewPasswordChange (lit "Abcdef1!"))
       (ProfileRev1.fire (ProfileRev1.CurrentPasswordChange (lit "Old-pass1"))
          ProfileRev1.mounted)).

(** The file-type filter as the server lists it, switched on. *)
Definition filter_on : Plugin.t :=
  {| Plugin.name := lit "file_type_filter";
     Plugin.enabled := true;
     Plugin.settings :=
       {| Settings.blocked_extensions := [lit "exe"; lit "bat"];
          Settings.description := Some (lit "Blocks uploads by extension") |} |}.

(** The same plugin once it has been switched off. *)
Definition filter_off : Plugin.t :=
  {| Plugin.name := lit "file_type_filter";
     Plugin.enabled := false;
     Plugin.settings := Plugin.settings filter_on |}.

(** The plugin page showing the filter switched on, nothing pending. *)
Definition plugin_page : PluginManagement.Page :=
  {| Async.cells :=
       {| PluginManagement.plugins := [filter_on];
          PluginManagement.loading := false;
          PluginManagement.editingPlugin := None |};
     Async.pending := [];
     Async.log := [] |}.

(** A server on which the filter has just been switched off: it accepts
    every update and lists the filter as off. *)
Definition switched_off : PluginManagement.Server :=
  fun A r =>
    match r in PluginManagement.Request T return Outcome T with
    | PluginManagement.GetPlugins => Fulfilled [filter_off]
    | PluginManagement.PutPlugin _ _ => Fulfilled tt
    end.

(** A server that lists the filter as on. *)
Definition switched_on : PluginManagement.Server :=
  fun A r =>
    match r in PluginManagement.Request T return Outcome T with
    | PluginManagement.GetPlugins => Fulfilled [filter_on]
    | PluginManagement.PutPlugin _ _ => Fulfilled tt
    end.

(** The plugin page once it has loaded the list from that server. *)
Definition listed : PluginManagement.Page :=
  Async.drain PluginManagement.write 1 switched_on PluginManagement.mounted.

(** The settings are opened, the switch is flipped while they are open,
    and the update and the reload it starts settle. *)
Definition edited_then_switched : PluginManagement.Page :=
  Async.drain PluginManagement.write 2 switched_off
    (PluginManagement.fire (PluginManagement.SwitchChange 0)
       (PluginManagement.fire (PluginManagement.EditClick 0) listed)).

End Example.

(* ================================================================== *)
(** * Properties: strings *)
(* ================================================================== *)

Lemma trimStart_nil_iff (s : jsstring) :
  trimStart s = [] <-> forallb isWhiteSpace s = true.
Proof.
  induction s as [|c r IH]; simpl.
  - split; reflexivity.
  - destruct (isWhiteSpace c); simpl.
    + exact IH.
    + split; discriminate.
Qed.

Lemma forallb_trimStart (s : jsstring) :
  forallb isWhiteSpace (trimStart s) = forallb isWhiteSpace s.
Proof.
  induction s as [|c r IH]; simpl; [reflexivity|].
  destruct (isWhiteSpace c) eqn:E; simpl.
  - exact IH.
  - now rewrite E.
Qed.

Lemma forallb_rev_eq {X : Type} (f : X -> bool) (l : list X) :
  forallb f (rev l) = forallb f l.
Proof.
  induction l as [|x l IH]; simpl; [reflexivity|].
  rewrite forallb_app, IH; simpl.
  rewrite andb_true_r.
  apply andb_comm.
Qed.

Lemma rev_nil_iff {X : Type} (l : list X) : rev l = [] <-> l = [].
Proof.
  split; intro H.
  - rewrite <- (rev_involutive l), H. reflexivity.
  - now subst.
Qed.

(** [s.trim()] is the empty string exactly when [s] holds nothing but white
    space. *)
Lemma trim_nil_iff (s : jsstring) :
  trim s = [] <-> forallb isWhiteSpace s = true.
Proof.
  unfold trim, trimEnd.
  rewrite <- (forallb_trimStart s), <- (forallb_rev_eq _ (trimStart s)).
  split; intro H.
  - apply trimStart_nil_iff, rev_nil_iff, H.
  - apply rev_nil_iff, trimStart_nil_iff, H.
Qed.

Lemma truthy_trim (s : jsstring) :
  truthy_string (trim s) = negb (forallb isWhiteSpace s).
Proof.
  destruct (forallb isWhiteSpace s) eqn:E; simpl.
  - apply trim_nil_iff in E. now rewrite E.
  - destruct (trim s) eqn:T; [|reflexivity].
    apply trim_nil_iff in T. congruence.
Qed.

(* ================================================================== *)
(** * Properties: the password rules *)
(* ================================================================== *)

(** [validatePassword] pushes an error exactly for the rules of the
    indicator that fail: it accepts a password when all four pass. *)
Lemma validatePassword_accepts_iff_allPassed (p : jsstring) :
  Login.validatePassword p = [] <-> PasswordStrengthIndicator.allPassed p = true.
Proof.
  unfold Login.validatePassword, PasswordStrengthIndicator.allPassed; simpl.
  rewrite Z.leb_antisym.
  destruct (strlen p <? 8)%Z, (test_class Login.upper p),
    (test_class Login.lower p), (test_class Login.special p);
    simpl; split; intro H; try reflexivity; discriminate H.
Qed.

(** A letter is not a special character. *)
Lemma letter_not_special (c : N) :
  Login.upper c || Login.lower c = true -> Login.special c = false.
Proof.
  unfold Login.upper, Login.lower, Login.special, Login.special_chars.
  intro H. cbn.
  repeat match goal with
         | |- context [N.eqb c ?k] =>
             let E := fresh "E" in
             destruct (N.eqb_spec c k) as [E|E];
             [ exfalso; subst c; cbn in H; discriminate H | clear E ]
         end.
  reflexivity.
Qed.

(** Removing the special characters never changes the outcome of the two
    letter rules, and always leaves the special-character rule failing. *)
Lemma remove_special_keeps_letters (p : jsstring) :
  test_class Login.upper (remove_special p) = test_class Login.upper p
  /\ test_class Login.lower (remove_special p) = test_class Login.lower p
  /\ test_class Login.special (remove_special p) = false.
Proof.
  unfold test_class, remove_special.
  induction p as [|c r (IHu & IHl & IHs)]; simpl; [auto|].
  destruct (Login.special c) eqn:S; simpl.
  - destruct (Login.upper c) eqn:U.
    { rewrite (letter_not_special c) in S; [discriminate|now rewrite U]. }
    destruct (Login.lower c) eqn:L.
    { rewrite (letter_not_special c) in S; [discriminate|].
      rewrite L. apply orb_true_r. }
    simpl. auto.
  - rewrite S, IHu, IHl, IHs. simpl. auto.
Qed.

(** C5, as the source has it.  The validator has four rules.  "abc" fails
    the length, uppercase and special-character rules and passes the
    lowercase rule; "Abcdef1!" passes all four.  Removing the special
    character from "Abcdef1!" leaves the seven characters "Abcdef1", so it
    flips two rules, the special-character rule and the length rule;
    replacing it by a character that is not special ("Abcdef12") flips the
    special-character rule alone. *)
Theorem password_rules_on_examples :
  map PasswordStrengthIndicator.id PasswordStrengthIndicator.requirements
  = [PasswordStrengthIndicator.length; PasswordStrengthIndicator.uppercase;
     PasswordStrengthIndicator.lowercase; PasswordStrengthIndicator.special]
  /\ Login.validatePassword (lit "abc")
     = [Login.Minimum_8_characters; Login.At_least_one_uppercase_letter;
        Login.At_least_one_special_character]
  /\ PasswordStrengthIndicator.outcomes (lit "abc")
     = [(PasswordStrengthIndicator.length, false);
        (PasswordStrengthIndicator.uppercase, false);
        (PasswordStrengthIndicator.lowercase, true);
        (PasswordStrengthIndicator.special, false)]
  /\ Login.validatePassword (lit "Abcdef1!") = []
  /\ PasswordStrengthIndicator.allPassed (lit "Abcdef1!") = true
  /\ remove_special (lit "Abcdef1!") = lit "Abcdef1"
  /\ flipped (lit "Abcdef1!") (remove_special (lit "Abcdef1!"))
     = [PasswordStrengthIndicator.length; PasswordStrengthIndicator.special]
  /\ Login.validatePassword (lit "Abcdef1")
     = [Login.Minimum_8_characters; Login.At_least_one_special_character]
  /\ flipped (lit "Abcdef1!") (lit "Abcdef12")
     = [PasswordStrengthIndicator.special].
Proof.
  repeat split; vm_compute; reflexivity.
Qed.

(** C5 as the specification words it fails: removing the special character
    from "Abcdef1!" does not flip the special-character rule alone. *)
Lemma removing_special_flips_length_too :
  flipped (lit "Abcdef1!") (remove_special (lit "Abcdef1!"))
  <> [PasswordStrengthIndicator.special].
Proof.
  vm_compute. discriminate.
Qed.

(* ================================================================== *)
(** * Properties: creating a folder *)
(* ================================================================== *)

(** With a name that is not blank the handler sends the request, with the
    name as typed (not trimmed) and the current folder as parent. *)
Lemma handleCreateFolder_sends (w : World) :
  forallb isWhiteSpace (newFolderName (state w)) = false ->
  trace (run (Dashboard.handleCreateFolder (state w)) w)
  = trace w ++ [Sent (PostFoldersCreate (newFolderName (state w))
                        (currentFolder (state w)))].
Proof.
  intro H. unfold Dashboard.handleCreateFolder.
  rewrite truthy_trim, H. reflexivity.
Qed.

(** C3.  When the name typed in the dialog is empty or holds only white
    space, [handleCreateFolder] returns at once: nothing is sent, nothing
    is put in flight and no cell changes, whether the handler is called
    directly or through the submit button of the dialog. *)
Theorem create_folder_blank_name_sends_nothing (w : World) :
  forallb isWhiteSpace (newFolderName (state w)) = true ->
  Dashboard.handleCreateFolder (state w) = Done
  /\ run (Dashboard.handleCreateFolder (state w)) w = w
  /\ View.fire View.CreateFolderSubmitClick w = w
  /\ sent_count (trace (View.fire View.CreateFolderSubmitClick w))
     = sent_count (trace w).
Proof.
  intro H.
  assert (E : Dashboard.handleCreateFolder (state w) = Done).
  { unfold Dashboard.handleCreateFolder. now rewrite truthy_trim, H. }
  assert (F : View.fire View.CreateFolderSubmitClick w = w).
  { unfold View.fire; simpl. rewrite E. now destruct (showFolderDialog (state w)). }
  rewrite E, F. auto.
Qed.

(** The dialog open with three spaces typed in it. *)
Lemma create_folder_blank_name_witness :
  forallb isWhiteSpace (newFolderName (state Sample.blank_name_typed)) = true
  /\ newFolderName (state Sample.blank_name_typed) = lit "   "
  /\ showFolderDialog (state Sample.blank_name_typed) = true
  /\ View.fire View.CreateFolderSubmitClick Sample.blank_name_typed
     = Sample.blank_name_typed.
Proof.
  split; [reflexivity|].
  split; [reflexivity|].
  split; [reflexivity|].
  apply (create_folder_blank_name_sends_nothing Sample.blank_name_typed).
  reflexivity.
Defined.

(* ================================================================== *)
(** * Properties: segments, settlements and what a run keeps *)
(* ================================================================== *)

Lemma perform_inflight (a : Action) (w : World) :
  inflight (perform a w) = inflight w.
Proof. destruct a; reflexivity. Qed.

Lemma perform_sent_some (p : forall A : Type, Request A -> bool)
  (a : Action) (w : World) :
  sent_some p (trace (perform a w)) = sent_some p (trace w).
Proof.
  destruct a; try reflexivity; unfold sent_some; simpl;
    rewrite existsb_app; simpl; now rewrite !orb_false_r.
Qed.

Lemma uploads_app (a b : list Output) : uploads (a ++ b) = uploads a ++ uploads b.
Proof.
  induction a as [|o a IH]; simpl; [reflexivity|].
  destruct o; try exact IH.
  destruct (upload_form r); simpl; now rewrite IH.
Qed.

Lemma toasts_app (a b : list Output) : toasts (a ++ b) = toasts a ++ toasts b.
Proof. apply filter_app. Qed.

Lemma pick_some_split (sel : Pending -> bool) (pool before : list Pending)
  (b a : list Pending) (p : Pending) :
  pick sel before pool = Some (b, p, a) -> before ++ pool = b ++ p :: a.
Proof.
  revert before. induction pool as [|q pool IH]; simpl; intros before H.
  - discriminate.
  - destruct (sel q).
    + now inversion H; subst.
    + apply IH in H. now rewrite <- app_assoc in H.
Qed.

(** Settling a selected request is a turn of the event loop. *)
Lemma settle_first_step (sel : forall A : Type, Request A -> bool)
  (b : Backend) (w w' : World) :
  settle_first sel b w = Some w' -> step w w'.
Proof.
  unfold settle_first.
  destruct (pick _ [] (inflight w)) as [[[before p] after]|] eqn:E;
    [|discriminate].
  intro H; inversion H; subst; clear H.
  apply pick_some_split in E; simpl in E.
  now apply step_settle.
Qed.

(** When the pool holds no selected request before the end, the one at the
    end is picked. *)
Lemma pick_last (sel : Pending -> bool) (pool before : list Pending)
  (p : Pending) :
  forallb (fun q => negb (sel q)) pool = true -> sel p = true ->
  pick sel before (pool ++ [p]) = Some (before ++ pool, p, []).
Proof.
  revert before. induction pool as [|q pool IH]; simpl; intros before F S.
  - rewrite S. now rewrite app_nil_r.
  - apply andb_true_iff in F as [Q F].
    destruct (sel q); [discriminate|].
    rewrite IH by assumption. now rewrite <- app_assoc.
Qed.

Section Confinement.

Variable okA : Action -> bool.
Variable okR : forall A : Type, Request A -> bool.
Variable X : Type.
Variable obs : State -> X.

Hypothesis okA_keeps_obs :
  forall (a : Action) (w : World),
    okA a = true -> obs (state (perform a w)) = obs (state w).

Lemma run_confined (t : Task) :
  forall w : World,
    confined okA okR t -> pool_confined okA okR (inflight w) ->
    kept okA okR obs w (run t w).
Proof.
  unfold kept.
  induction t as [| |a k IH|c IHc k IHk|A r k _]; simpl; intros w C P.
  - auto.
  - auto.
  - destruct C as [Ca Ck].
    destruct (IH (perform a w) Ck) as (P1 & O1 & S1).
    { now rewrite perform_inflight. }
    repeat split; [exact P1| |].
    + rewrite O1. now apply okA_keeps_obs.
    + rewrite S1. apply perform_sent_some.
  - destruct C as [Cc Ck].
    destruct (IHc w Cc P) as (P1 & O1 & S1).
    destruct (IHk (run c w) Ck P1) as (P2 & O2 & S2).
    repeat split; [exact P2|congruence|congruence].
  - destruct C as [Cr Ck].
    repeat split.
    + apply Forall_app. split; [exact P|].
      constructor; [exact Ck|constructor].
    + unfold strayed, sent_some. rewrite existsb_app; simpl.
      rewrite Cr. simpl. now rewrite orb_false_r.
Qed.

Lemma step_confined (w w' : World) :
  step w w' -> pool_confined okA okR (inflight w) -> kept okA okR obs w w'.
Proof.
  intros H P. destruct H as [w before after p o E].
  rewrite E in P. apply Forall_app in P as [Pb Pa].
  inversion Pa as [|p' after' Pp Pafter]; subst.
  apply (run_confined (continuation p o)
           {| state := state w; inflight := before ++ after; trace := trace w |}).
  - apply Pp.
  - simpl. apply Forall_app. now split.
Qed.

Lemma steps_confined (w w' : World) :
  steps w w' -> pool_confined okA okR (inflight w) -> kept okA okR obs w w'.
Proof.
  induction 1 as [w|w1 w2 w3 H12 H23 IH]; intro P.
  - unfold kept. auto.
  - destruct (step_confined H12 P) as (P2 & O2 & S2).
    destruct (IH P2) as (P3 & O3 & S3).
    unfold kept. repeat split; [exact P3|congruence|congruence].
Qed.

End Confinement.

(** The three loaders send one GET each and set one cell. *)
Lemma loadFiles_confined_stats (s : State) :
  confined keeps_stats (@not_stats) (Dashboard.loadFiles s).
Proof. simpl. split; [reflexivity|]. intros [d|e]; simpl; auto. Qed.

Lemma loadFolders_confined_stats (s : State) :
  confined keeps_stats (@not_stats) (Dashboard.loadFolders s).
Proof. simpl. split; [reflexivity|]. intros [d|e]; simpl; auto. Qed.

Lemma loadFiles_confined_move (s : State) :
  confined any_action (@not_move) (Dashboard.loadFiles s).
Proof. simpl. split; [reflexivity|]. intros [d|e]; simpl; auto. Qed.

Lemma loadFolders_confined_move (s : State) :
  confined any_action (@not_move) (Dashboard.loadFolders s).
Proof. simpl. split; [reflexivity|]. intros [d|e]; simpl; auto. Qed.

Lemma loadStats_confined_move (s : State) :
  confined any_action (@not_move) (Dashboard.loadStats s).
Proof. simpl. split; [reflexivity|]. intros [d|e]; simpl; auto. Qed.

Lemma keeps_stats_perform (a : Action) (w : World) :
  keeps_stats a = true -> stats (state (perform a w)) = stats (state w).
Proof. destruct a; simpl; intro H; try reflexivity. discriminate H. Qed.

(* ================================================================== *)
(** * Properties: a drag that is cancelled *)
(* ================================================================== *)

(** The gestures of a drag other than a drop touch the drag cells only:
    the directory view is as it was, nothing is sent or put in flight. *)
Lemma fire_drag_gesture_keeps (ev : View.UIEvent) (w : World) :
  dragstart ev || View.hover ev || dragend ev = true ->
  directory (state (View.fire ev w)) = directory (state w)
  /\ trace (View.fire ev w) = trace w
  /\ inflight (View.fire ev w) = inflight w.
Proof.
  intro H. unfold View.fire.
  destruct ev; simpl in H; try discriminate H; simpl.
  - destruct (draggedItem (state w)); simpl; auto.
  - auto.
  - destruct (nth_error (folders (state w)) row); simpl; auto.
  - destruct (nth_error (files (state w)) row); simpl; auto.
  - auto.
  - destruct (nth_error (folders (state w)) row); simpl; auto.
    destruct (draggedItem (state w)); simpl; auto.
    destruct (id_eq _ _); simpl; auto.
  - auto.
Qed.

Lemma fire_all_hover_keeps (hovers : list View.UIEvent) :
  forall w : World,
    forallb View.hover hovers = true ->
    directory (state (View.fire_all hovers w)) = directory (state w)
    /\ trace (View.fire_all hovers w) = trace w
    /\ inflight (View.fire_all hovers w) = inflight w.
Proof.
  induction hovers as [|ev hovers IH]; simpl; intros w H; [auto|].
  apply andb_true_iff in H as [Hev Hrest].
  destruct (IH (View.fire ev w) Hrest) as (D & T & I).
  destruct (fire_drag_gesture_keeps ev w) as (D' & T' & I').
  { rewrite Hev. now rewrite orb_true_r. }
  repeat split; congruence.
Qed.

(** [handleDragEnd] clears both drag cells, whatever they held. *)
Lemma handleDragEnd_clears (w : World) :
  draggedItem (state (View.fire View.RowDragEnd w)) = None
  /\ dropTarget (state (View.fire View.RowDragEnd w)) = None.
Proof. split; reflexivity. Qed.

(** C7.  A drag that starts on a row, passes over any rows and areas and
    ends without a drop leaves both [draggedItem] and the drop target
    [null]; the directory view (files, folders, breadcrumb, stats and the
    current folder) is what it was before the drag, and nothing was sent. *)
Theorem cancelled_drag_clears_drag_state_only
  (w : World) (start : View.UIEvent) (hovers : list View.UIEvent) :
  dragstart start = true ->
  forallb View.hover hovers = true ->
  draggedItem
    (state (View.fire_all (start :: hovers ++ [View.RowDragEnd]) w)) = None
  /\ dropTarget
       (state (View.fire_all (start :: hovers ++ [View.RowDragEnd]) w)) = None
  /\ directory
       (state (View.fire_all (start :: hovers ++ [View.RowDragEnd]) w))
     = directory (state w)
  /\ trace (View.fire_all (start :: hovers ++ [View.RowDragEnd]) w) = trace w
  /\ inflight (View.fire_all (start :: hovers ++ [View.RowDragEnd]) w)
     = inflight w.
Proof.
  intros Hs Hh. simpl.
  unfold View.fire_all. rewrite fold_left_app. simpl.
  fold (View.fire_all hovers (View.fire start w)).
  set (w1 := View.fire start w).
  set (w2 := View.fire_all hovers w1).
  destruct (fire_drag_gesture_keeps start w) as (D1 & T1 & I1).
  { now rewrite Hs. }
  destruct (fire_all_hover_keeps hovers w1 Hh) as (D2 & T2 & I2).
  destruct (fire_drag_gesture_keeps View.RowDragEnd w2) as (D3 & T3 & I3).
  { reflexivity. }
  fold w1 in D1, T1, I1. fold w2 in D2, T2, I2.
  repeat split; try reflexivity.
  - exact (eq_trans D3 (eq_trans D2 D1)).
  - congruence.
  - congruence.
Qed.

(** The first folder row is dragged over the second row and back, and the
    drag ends outside any target. *)
Lemma cancelled_drag_witness :
  dragstart (View.FolderRowDragStart 0) = true
  /\ forallb View.hover Sample.hovering = true
  /\ draggedItem
       (state (View.fire_all (View.FolderRowDragStart 0 :: Sample.hovering)
                 Sample.loaded)) <> None
  /\ draggedItem
       (state (View.fire_all
                 (View.FolderRowDragStart 0
                  :: Sample.hovering ++ [View.RowDragEnd]) Sample.loaded))
     = None.
Proof.
  split; [reflexivity|].
  split; [reflexivity|].
  split; [discriminate|].
  apply (@cancelled_drag_clears_drag_state_only Sample.loaded
           (View.FolderRowDragStart 0) Sample.hovering);
    reflexivity.
Defined.

(* ================================================================== *)
(** * Properties: moving a folder into itself *)
(* ================================================================== *)

(** The guard of the drop handler: a drop of an item on the folder with
    the item's own id sends nothing. *)
Lemma handleDropOnFolder_self_sends_nothing
  (w : World) (row : nat) (target : FolderNode.t) (dragged : Tagged) :
  nth_error (folders (state w)) row = Some target ->
  draggedItem (state w) = Some dragged ->
  id_eq (id dragged) (FolderNode.id target) = true ->
  trace (View.fire (View.FolderRowDrop row) w) = trace w
  /\ inflight (View.fire (View.FolderRowDrop row) w) = inflight w.
Proof.
  intros Hrow Hd Hid. unfold View.fire; simpl.
  rewrite Hrow. unfold Dashboard.handleDropOnFolder; simpl.
  rewrite Hd. simpl. rewrite Hid. simpl. auto.
Qed.

(** The move dialog disables the button of the folder being moved. *)
Lemma move_dialog_refuses_own_button
  (w : World) (row : nat) (target : FolderNode.t) (moved : Tagged) :
  nth_error (folders (state w)) row = Some target ->
  moveTarget (state w) = Some moved ->
  id_eq (id moved) (FolderNode.id target) = true ->
  View.fire (View.MoveToClick row) w = w.
Proof.
  intros Hrow Hm Hid. unfold View.fire; simpl.
  destruct (showMoveDialog (state w)); [|reflexivity].
  rewrite Hrow. unfold View.move_to_disabled. rewrite Hm, Hid. reflexivity.
Qed.

(** [handleMove] itself compares nothing: whatever destination the cell
    holds goes into the request, also the id of the folder being moved. *)
Lemma handleMove_sends_whatever_destination (w : World) (moved : Tagged) :
  moveTarget (state w) = Some moved ->
  trace (run (Dashboard.handleMove (state w)) w)
  = trace w ++ [Sent (Dashboard.move_request moved (moveDestination (state w)))].
Proof.
  intro Hm. unfold Dashboard.handleMove. rewrite Hm. reflexivity.
Qed.

(** C1, the move dialog.  The destination chosen in a dialog that was
    dismissed stays in its cell; opening the dialog on that very folder and
    confirming sends the move of the folder into itself. *)
Theorem move_dialog_sends_self_move :
  moveTarget (state (View.fire_all Sample.stale_destination Sample.loaded))
  = Some {| item := FolderItem Sample.folderB; type := type_folder |}
  /\ moveDestination
       (state (View.fire_all Sample.stale_destination Sample.loaded))
     = Some (FolderNode.id Sample.folderB)
  /\ trace (View.fire_all (Sample.stale_destination ++ [View.MoveConfirmClick])
              Sample.loaded)
     = trace Sample.loaded
       ++ [Sent (PostFoldersMove (FolderNode.id Sample.folderB)
                   (Some (FolderNode.id Sample.folderB)))].
Proof.
  split; [reflexivity|].
  split; reflexivity.
Qed.

(* ================================================================== *)
(** * Properties: a drop on a folder *)
(* ================================================================== *)

(** When one request is in flight, a turn of the event loop settles it. *)
Lemma step_single_inv (w w' : World) (p : Pending) :
  inflight w = [p] -> step w w' ->
  exists o : Outcome (answer p),
    w' = run (continuation p o)
           {| state := state w; inflight := []; trace := trace w |}.
Proof.
  intros Hp H. destruct H as [w before after q o E].
  rewrite Hp in E.
  destruct before as [|b before]; simpl in E.
  - injection E as Eq Ea. subst q after. now exists o.
  - injection E as _ E. destruct before; discriminate E.
Qed.

(** C6 as the specification words it fails: when the drop handler has run
    its synchronous part, the drop target is cleared but [draggedItem]
    still holds the dragged file; the handler clears it only after its
    [await]. *)
Lemma drop_handler_leaves_draggedItem_set :
  ~ (draggedItem (state (View.fire (View.FolderRowDrop 1) Sample.dragging))
     = None
     /\ dropTarget (state (View.fire (View.FolderRowDrop 1) Sample.dragging))
        = None).
Proof.
  intros [H _]. vm_compute in H. discriminate H.
Qed.

(** The same cells after a drop on the file-manager area itself. *)
Lemma drop_on_root_drag_state (w : World) (dragged : Tagged) :
  inflight w = [] ->
  draggedItem (state w) = Some dragged ->
  dropTarget (state (View.fire (View.ManagerDrop []) w)) = None
  /\ draggedItem (state (View.fire (View.ManagerDrop []) w)) = Some dragged
  /\ draggedItem
       (state (View.fire_all [View.ManagerDrop []; View.RowDragEnd] w))
     = None
  /\ dropTarget
       (state (View.fire_all [View.ManagerDrop []; View.RowDragEnd] w))
     = None
  /\ (forall o : Outcome unit,
         exists w2 : World,
           answer_move o (View.fire (View.ManagerDrop []) w) = Some w2
           /\ draggedItem (state w2) = None
           /\ dropTarget (state w2) = None)
  /\ (forall o : Outcome unit,
         exists w2 : World,
           answer_move o
             (View.fire_all [View.ManagerDrop []; View.RowDragEnd] w)
           = Some w2
           /\ draggedItem (state w2) = None
           /\ dropTarget (state w2) = None).
Proof.
  intros Hpool Hd.
  destruct w as [s pool tr]; simpl in *. subst pool.
  unfold View.fire_all, View.fire; simpl.
  unfold Dashboard.handleDropOnRoot, Dashboard.drop_move,
    Dashboard.move_request; simpl.
  rewrite Hd; simpl.
  split; [reflexivity|]. split; [exact Hd|].
  split; [reflexivity|]. split; [reflexivity|].
  split; intro o; unfold answer_move, settle_first; simpl;
    destruct (type dragged); simpl;
    (eexists; split; [reflexivity|]); destruct o; simpl; auto.
Qed.

(** The same cells after a drop on a folder row. *)
Lemma drop_on_folder_drag_state
  (w : World) (row : nat) (target : FolderNode.t) (dragged : Tagged) :
  inflight w = [] ->
  nth_error (folders (state w)) row = Some target ->
  draggedItem (state w) = Some dragged ->
  (dropTarget (state (View.fire (View.FolderRowDrop row) w)) = None
   /\ draggedItem (state (View.fire (View.FolderRowDrop row) w))
      = Some dragged)
  /\ (draggedItem
        (state (View.fire_all [View.FolderRowDrop row; View.RowDragEnd] w))
      = None
      /\ dropTarget
           (state (View.fire_all [View.FolderRowDrop row; View.RowDragEnd] w))
         = None
      /\ inflight (View.fire_all [View.FolderRowDrop row; View.RowDragEnd] w)
         = inflight (View.fire (View.FolderRowDrop row) w)
      /\ trace (View.fire_all [View.FolderRowDrop row; View.RowDragEnd] w)
         = trace (View.fire (View.FolderRowDrop row) w))
  /\ (id_eq (id dragged) (FolderNode.id target) = true ->
      inflight (View.fire (View.FolderRowDrop row) w) = []
      /\ trace (View.fire (View.FolderRowDrop row) w) = trace w)
  /\ (id_eq (id dragged) (FolderNode.id target) = false ->
      trace (View.fire (View.FolderRowDrop row) w)
      = trace w
        ++ [Sent (match type dragged with
                  | type_file =>
                      PostFilesMove (id dragged) (Some (FolderNode.id target))
                  | type_folder =>
                      PostFoldersMove (id dragged)
                        (Some (FolderNode.id target))
                  end)]
      /\ (forall o : Outcome unit,
             exists w2 : World,
               answer_move o (View.fire (View.FolderRowDrop row) w) = Some w2
               /\ draggedItem (state w2) = None
               /\ dropTarget (state w2) = None)
      /\ (forall o : Outcome unit,
             exists w2 : World,
               answer_move o
                 (View.fire_all [View.FolderRowDrop row; View.RowDragEnd] w)
               = Some w2
               /\ draggedItem (state w2) = None
               /\ dropTarget (state w2) = None)
      /\ (forall w2 : World,
             step (View.fire (View.FolderRowDrop row) w) w2 ->
             draggedItem (state w2) = None /\ dropTarget (state w2) = None)
      /\ (forall w2 : World,
             step (View.fire_all [View.FolderRowDrop row; View.RowDragEnd] w)
               w2 ->
             draggedItem (state w2) = None /\ dropTarget (state w2) = None)).
Proof.
  intros Hpool Hrow Hd.
  destruct w as [s pool tr]; simpl in *. subst pool.
  unfold View.fire_all, View.fire; simpl. rewrite Hrow.
  unfold Dashboard.handleDropOnFolder, Dashboard.drop_move,
    Dashboard.move_request; simpl.
  rewrite Hd.
  destruct (id_eq (id dragged) (FolderNode.id target)); simpl.
  - split; [split; [reflexivity|exact Hd]|].
    split; [repeat split|].
    split; [intros _; split; reflexivity|discriminate].
  - split; [split; [reflexivity|exact Hd]|].
    split; [repeat split|].
    split; [discriminate|]. intros _.
    split; [reflexivity|].
    split; [|split; [|split]].
    + intro o. unfold answer_move, settle_first; simpl.
      destruct (type dragged); simpl;
        (eexists; split; [reflexivity|]); destruct o; simpl; auto.
    + intro o. unfold answer_move, settle_first; simpl.
      destruct (type dragged); simpl;
        (eexists; split; [reflexivity|]); destruct o; simpl; auto.
    + intros w2 H.
      eapply step_single_inv in H; [|reflexivity]. simpl in H.
      destruct H as [o ->].
      destruct o; simpl; auto.
    + intros w2 H.
      eapply step_single_inv in H; [|reflexivity]. simpl in H.
      destruct H as [o ->].
      destruct o; simpl; auto.
Qed.

(** C6, as the source has it.  An item is being dragged and is dropped on
    a folder row; the browser then ends the drag on the dragged row
    ([dragend]).

    The drop handler clears the drop target at once, and [draggedItem] not:
    that cell is cleared by the [dragend] handler, which leaves both cells
    [null] without touching what is in flight, and once more by the drop
    handler when its request has settled.

    The handler compares ids only.  When the id of the dragged item is the
    id of the folder (the folder itself, or a file that has the same id)
    nothing is sent.  Otherwise exactly the move of the item into the
    folder is sent ([/files/move] for a file, [/folders/move] for a
    folder), and however it settles, before or after the [dragend], both
    cells are [null] afterwards.

    A drop of the item on the file-manager area itself (a move to the
    root) treats the two cells in the same way. *)
Theorem drop_on_folder_clears_drag_state
  (w : World) (row : nat) (target : FolderNode.t) (dragged : Tagged) :
  inflight w = [] ->
  nth_error (folders (state w)) row = Some target ->
  draggedItem (state w) = Some dragged ->
  (dropTarget (state (View.fire (View.FolderRowDrop row) w)) = None
   /\ draggedItem (state (View.fire (View.FolderRowDrop row) w))
      = Some dragged)
  /\ (draggedItem
        (state (View.fire_all [View.FolderRowDrop row; View.RowDragEnd] w))
      = None
      /\ dropTarget
           (state (View.fire_all [View.FolderRowDrop row; View.RowDragEnd] w))
         = None
      /\ inflight (View.fire_all [View.FolderRowDrop row; View.RowDragEnd] w)
         = inflight (View.fire (View.FolderRowDrop row) w)
      /\ trace (View.fire_all [View.FolderRowDrop row; View.RowDragEnd] w)
         = trace (View.fire (View.FolderRowDrop row) w))
  /\ (id_eq (id dragged) (FolderNode.id target) = true ->
      inflight (View.fire (View.FolderRowDrop row) w) = []
      /\ trace (View.fire (View.FolderRowDrop row) w) = trace w)
  /\ (id_eq (id dragged) (FolderNode.id target) = false ->
      trace (View.fire (View.FolderRowDrop row) w)
      = trace w
        ++ [Sent (match type dragged with
                  | type_file =>
                      PostFilesMove (id dragged) (Some (FolderNode.id target))
                  | type_folder =>
                      PostFoldersMove (id dragged)
                        (Some (FolderNode.id target))
                  end)]
      /\ (forall o : Outcome unit,
             exists w2 : World,
               answer_move o (View.fire (View.FolderRowDrop row) w) = Some w2
               /\ draggedItem (state w2) = None
               /\ dropTarget (state w2) = None)
      /\ (forall o : Outcome unit,
             exists w2 : World,
               answer_move o
                 (View.fire_all [View.FolderRowDrop row; View.RowDragEnd] w)
               = Some w2
               /\ draggedItem (state w2) = None
               /\ dropTarget (state w2) = None)
      /\ (forall w2 : World,
             step (View.fire (View.FolderRowDrop row) w) w2 ->
             draggedItem (state w2) = None /\ dropTarget (state w2) = None)
      /\ (forall w2 : World,
             step (View.fire_all [View.FolderRowDrop row; View.RowDragEnd] w)
               w2 ->
             draggedItem (state w2) = None /\ dropTarget (state w2) = None))
  /\ (dropTarget (state (View.fire (View.ManagerDrop []) w)) = None
      /\ draggedItem (state (View.fire (View.ManagerDrop []) w))
         = Some dragged
      /\ draggedItem
           (state (View.fire_all [View.ManagerDrop []; View.RowDragEnd] w))
         = None
      /\ dropTarget
           (state (View.fire_all [View.ManagerDrop []; View.RowDragEnd] w))
         = None
      /\ (forall o : Outcome unit,
             exists w2 : World,
               answer_move o (View.fire (View.ManagerDrop []) w) = Some w2
               /\ draggedItem (state w2) = None
               /\ dropTarget (state w2) = None)
      /\ (forall o : Outcome unit,
             exists w2 : World,
               answer_move o
                 (View.fire_all [View.ManagerDrop []; View.RowDragEnd] w)
               = Some w2
               /\ draggedItem (state w2) = None
               /\ dropTarget (state w2) = None)).
Proof.
  intros Hpool Hrow Hd.
  destruct (@drop_on_folder_drag_state w row target dragged Hpool Hrow Hd)
    as (Hdrop & Hend & Hsame & Hother).
  split; [exact Hdrop|]. split; [exact Hend|].
  split; [exact Hsame|]. split; [exact Hother|].
  exact (@drop_on_root_drag_state w dragged Hpool Hd).
Qed.

(** The dragged file of the sample is dropped on the second folder, and
    the drag ends; and a file is dropped on a folder that has the same id
    as the file. *)
Lemma drop_on_folder_witness :
  inflight Sample.dragging = []
  /\ nth_error (folders (state Sample.dragging)) 1 = Some Sample.folderB
  /\ draggedItem (state Sample.dragging)
     = Some {| item := FileItem Sample.report_txt; type := type_file |}
  /\ id_eq (FileNode.id Sample.report_txt) (FolderNode.id Sample.folderB)
     = false
  /\ trace (View.fire (View.FolderRowDrop 1) Sample.dragging)
     = trace Sample.dragging
       ++ [Sent (PostFilesMove (FileNode.id Sample.report_txt)
                   (Some (FolderNode.id Sample.folderB)))]
  /\ draggedItem
       (state (View.fire_all [View.FolderRowDrop 1; View.RowDragEnd]
                 Sample.dragging))
     = None
  /\ draggedItem (state Scenario.twins_dragging)
     = Some {| item := FileItem Scenario.twin_file; type := type_file |}
  /\ trace (View.fire (View.FolderRowDrop 0) Scenario.twins_dragging)
     = trace Scenario.twins_dragging.
Proof.
  pose proof (@drop_on_folder_clears_drag_state Sample.dragging 1
                Sample.folderB
                {| item := FileItem Sample.report_txt; type := type_file |}
                eq_refl eq_refl eq_refl) as H.
  pose proof (@drop_on_folder_clears_drag_state Scenario.twins_dragging 0
                Scenario.twin_folder
                {| item := FileItem Scenario.twin_file; type := type_file |}
                eq_refl eq_refl eq_refl) as T.
  split; [reflexivity|].
  split; [reflexivity|].
  split; [reflexivity|].
  split; [reflexivity|].
  split; [exact (proj1 (proj1 (proj2 (proj2 (proj2 H))) eq_refl))|].
  split; [exact (proj1 (proj1 (proj2 H)))|].
  split; [reflexivity|].
  exact (proj2 (proj1 (proj2 (proj2 T)) eq_refl)).
Defined.

(* ================================================================== *)
(** * Properties: uploading a batch *)
(* ================================================================== *)

Lemma fulfilled_cons_fulfilled {A : Type} (d : A) (os : list (Outcome A)) :
  fulfilled (Fulfilled d :: os) = (fulfilled os + 1)%N.
Proof. unfold fulfilled; simpl. lia. Qed.

Lemma rejected_cons_rejected {A : Type} (e : option jsstring)
  (os : list (Outcome A)) :
  rejected (@Rejected A e :: os) = (rejected os + 1)%N.
Proof. unfold rejected; simpl. lia. Qed.

Lemma fulfilled_plus_rejected {A : Type} (os : list (Outcome A)) :
  (fulfilled os + rejected os)%N = N.of_nat (List.length os).
Proof.
  induction os as [|[d|e] os IH]; [reflexivity| |].
  - rewrite fulfilled_cons_fulfilled.
    change (rejected (Fulfilled d :: os)) with (rejected os).
    cbn [List.length]. rewrite Nat2N.inj_succ. lia.
  - rewrite rejected_cons_rejected.
    change (fulfilled (@Rejected A e :: os)) with (fulfilled os).
    cbn [List.length]. rewrite Nat2N.inj_succ. lia.
Qed.

(** Settling the upload at the end of the pool runs what waits for it. *)
Lemma answer_upload_last (o : Outcome unit) (st : State)
  (pool : list Pending) (tr : list Output)
  (form : list FormField) (k : Outcome unit -> Task) :
  forallb (fun p => negb (is_upload (request p))) pool = true ->
  answer_upload o
    {| state := st;
       inflight := pool ++ [pend (PostFilesUpload form) k];
       trace := tr |}
  = Some (run (k o) {| state := st; inflight := pool; trace := tr |}).
Proof.
  intro H. unfold answer_upload, settle_first; simpl.
  rewrite (pick_last (fun p => is_upload (request p)) pool []
             (pend (PostFilesUpload form) k) H eq_refl).
  simpl. now rewrite app_nil_r.
Qed.

(** The loop, against any outcomes: every file's request is sent, whatever
    came back for the files before it, and the counters end at the numbers
    of fulfilled and rejected uploads. *)
Lemma upload_loop_answered (s : State) (folderPath : option jsstring)
  (files : list LocalFile.t) :
  forall (os : list (Outcome unit)) (successCount errorCount : N) (w : World),
    List.length os = List.length files ->
    no_upload_in_flight w = true ->
    answer_uploads os
      (run (Dashboard.upload_loop s folderPath files successCount errorCount) w)
    = Some (run (Dashboard.upload_report s
                   (successCount + fulfilled os) (errorCount + rejected os))
              {| state := state w;
                 inflight := inflight w;
                 trace := trace w ++ loop_trace s folderPath files os |}).
Proof.
  induction files as [|file rest IH]; intros os sc ec w Hlen Hpool.
  - destruct os; [|discriminate Hlen]. simpl.
    rewrite !N.add_0_r, app_nil_r. now destruct w.
  - destruct os as [|o os]; [discriminate Hlen|].
    injection Hlen as Hlen.
    cbn [Dashboard.upload_loop run answer_uploads].
    rewrite (answer_upload_last o (state w) (inflight w) _ _ _ Hpool).
    destruct o as [[]|e].
    + rewrite IH by assumption.
      rewrite fulfilled_cons_fulfilled.
      change (rejected (Fulfilled tt :: os)) with (rejected os).
      cbn [state inflight trace loop_trace].
      replace (sc + 1 + fulfilled os)%N with (sc + (fulfilled os + 1))%N by lia.
      rewrite <- app_assoc. reflexivity.
    + cbn [run]. rewrite IH by (simpl; assumption).
      rewrite rejected_cons_rejected.
      change (fulfilled (@Rejected unit e :: os)) with (fulfilled os).
      cbn [state inflight trace loop_trace perform emit].
      replace (ec + 1 + rejected os)%N with (ec + (rejected os + 1))%N by lia.
      rewrite <- !app_assoc. reflexivity.
Qed.

Lemma upload_report_trace (s : State) (m n : N) (w : World) :
  trace (run (Dashboard.upload_report s m n) w)
  = trace w ++ report m n
    ++ [Sent (GetFilesList (Dashboard.or_empty (currentFolder s)));
        Sent GetFoldersTree; Sent GetUserStats].
Proof.
  unfold Dashboard.upload_report, when, report.
  destruct (0 <? m)%N, (0 <? n)%N; simpl; rewrite <- ?app_assoc; reflexivity.
Qed.

Lemma uploads_loop_trace (s : State) (folderPath : option jsstring)
  (files : list LocalFile.t) :
  forall os : list (Outcome unit),
    List.length os = List.length files ->
    uploads (loop_trace s folderPath files os)
    = map (Dashboard.formData s folderPath) files.
Proof.
  induction files as [|file rest IH]; intros [|o os] H;
    try discriminate H; [reflexivity|].
  injection H as H. simpl. rewrite uploads_app, (IH os H).
  now destruct o.
Qed.

Lemma toasts_loop_trace (s : State) (folderPath : option jsstring)
  (files : list LocalFile.t) :
  forall os : list (Outcome unit), toasts (loop_trace s folderPath files os) = [].
Proof.
  induction files as [|file rest IH]; intros [|o os]; try reflexivity.
  simpl. rewrite toasts_app, IH. now destruct o.
Qed.

Lemma uploads_report (m n : N) : uploads (report m n) = [].
Proof. unfold report. now destruct (0 <? m)%N, (0 <? n)%N. Qed.

Lemma toasts_report (m n : N) : toasts (report m n) = report m n.
Proof. unfold report. now destruct (0 <? m)%N, (0 <? n)%N. Qed.

(** The report is made of two toasts at most, whatever the size of the
    batch. *)
Lemma report_at_most_two (m n : N) : List.length (report m n) <= 2.
Proof. unfold report. destruct (0 <? m)%N, (0 <? n)%N; simpl; lia. Qed.

(** The whole handler on a batch that is not empty. *)
Lemma handleFileUpload_answered
  (s : State) (folderPath : option jsstring) (files : list LocalFile.t)
  (os : list (Outcome unit)) (w : World) :
  files <> [] ->
  List.length os = List.length files ->
  no_upload_in_flight w = true ->
  answer_uploads os (run (Dashboard.handleFileUpload s files folderPath) w)
  = Some (run (Dashboard.upload_report s (fulfilled os) (rejected os))
            {| state := setLoading true (state w);
               inflight := inflight w;
               trace := trace w ++ loop_trace s folderPath files os |}).
Proof.
  intros Hne Hlen Hpool.
  destruct files as [|file rest]; [now elim Hne|].
  unfold Dashboard.handleFileUpload. cbn [run].
  rewrite (upload_loop_answered s folderPath (file :: rest) os 0 0
             (perform (SetLoading true) w) Hlen Hpool).
  now rewrite !N.add_0_l.
Qed.

(** The upload requests of the run of the handler. *)
Lemma handleFileUpload_uploads
  (s : State) (folderPath : option jsstring) (files : list LocalFile.t)
  (os : list (Outcome unit)) (st : State) (pool : list Pending)
  (tr : list Output) :
  List.length os = List.length files ->
  uploads (trace (run (Dashboard.upload_report s (fulfilled os) (rejected os))
                    {| state := st; inflight := pool;
                       trace := tr ++ loop_trace s folderPath files os |}))
  = uploads tr ++ map (Dashboard.formData s folderPath) files.
Proof.
  intro Hlen.
  rewrite upload_report_trace. cbn [trace].
  rewrite !uploads_app, (uploads_loop_trace s folderPath files os Hlen).
  rewrite uploads_report. cbn [uploads upload_form].
  now rewrite !app_nil_r.
Qed.

(** C2.  [handleFileUpload] on a batch of files, against any outcomes [os]
    of the uploads (one per file): every upload in turn is in flight and
    settles, so one request per file is sent, in order, with that file's
    form, whichever of the earlier ones were rejected; and the toasts
    shown are the report of the two totals, the number of fulfilled
    uploads and the number of rejected ones, which add up to the size of
    the batch: one toast per total that is not zero, none per file. *)
Theorem upload_batch_reports_aggregate
  (s : State) (folderPath : option jsstring) (files : list LocalFile.t)
  (os : list (Outcome unit)) (w : World) :
  List.length os = List.length files ->
  no_upload_in_flight w = true ->
  exists w' : World,
    answer_uploads os (run (Dashboard.handleFileUpload s files folderPath) w)
    = Some w'
    /\ uploads (trace w')
       = uploads (trace w) ++ map (Dashboard.formData s folderPath) files
    /\ toasts (trace w')
       = toasts (trace w) ++ report (fulfilled os) (rejected os)
    /\ (fulfilled os + rejected os)%N = N.of_nat (List.length files)
    /\ List.length (toasts (trace w')) <= List.length (toasts (trace w)) + 2.
Proof.
  intros Hlen Hpool.
  assert (Hsum : (fulfilled os + rejected os)%N = N.of_nat (List.length files)).
  { rewrite fulfilled_plus_rejected. now rewrite Hlen. }
  destruct files as [|file rest].
  - destruct os; [|discriminate Hlen]. exists w. simpl.
    rewrite !app_nil_r. repeat split; auto. lia.
  - rewrite (@handleFileUpload_answered s folderPath (file :: rest) os w)
      by (assumption || discriminate).
    eexists. split; [reflexivity|].
    split; [now apply handleFileUpload_uploads|].
    rewrite upload_report_trace. cbn [trace].
    rewrite !toasts_app, toasts_loop_trace, toasts_report.
    cbn [toasts filter].
    rewrite !app_nil_r.
    repeat split; auto.
    rewrite length_app.
    pose proof (report_at_most_two (fulfilled os) (rejected os)). lia.
Qed.

(** Three files picked in the root folder; the second upload is rejected. *)
Lemma upload_batch_witness :
  List.length [Fulfilled tt; Rejected None; Fulfilled tt]
  = List.length [Sample.photo; Sample.docs_a; Sample.docs_sub_b]
  /\ no_upload_in_flight Sample.loaded = true
  /\ exists w' : World,
       answer_uploads [Fulfilled tt; Rejected None; Fulfilled tt]
         (run (Dashboard.handleFileUpload (state Sample.loaded)
                 [Sample.photo; Sample.docs_a; Sample.docs_sub_b] None)
            Sample.loaded)
       = Some w'
       /\ toasts (trace w')
          = [ToastSuccess (TranslatedCount "fileUploaded" 2);
             ToastError (TranslatedCount "fileUploadFailed" 1)].
Proof.
  split; [reflexivity|].
  split; [reflexivity|].
  destruct (@upload_batch_reports_aggregate (state Sample.loaded) None
              [Sample.photo; Sample.docs_a; Sample.docs_sub_b]
              [Fulfilled tt; Rejected None; Fulfilled tt]
              Sample.loaded eq_refl eq_refl)
    as (w' & Hrun & _ & Htoasts & _).
  exists w'. split; [exact Hrun|exact Htoasts].
Defined.

(** The earlier revision of the handler shows one toast per file instead:
    as many toasts as the batch has files. *)
Lemma rev1_toasts_every_file (s : State) (files : list LocalFile.t) :
  forall (os : list (Outcome unit)) (w : World),
    List.length os = List.length files ->
    no_upload_in_flight w = true ->
    exists w' : World,
      answer_uploads os (run (DashboardRev1.upload_loop s files) w) = Some w'
      /\ List.length (toasts (trace w'))
         = List.length (toasts (trace w)) + List.length files.
Proof.
  induction files as [|file rest IH]; intros os w Hlen Hpool.
  - destruct os; [|discriminate Hlen].
    eexists. split; [reflexivity|]. simpl.
    rewrite !toasts_app. simpl. rewrite !app_nil_r. lia.
  - destruct os as [|o os]; [discriminate Hlen|]. injection Hlen as Hlen.
    cbn [DashboardRev1.upload_loop run answer_uploads].
    rewrite (answer_upload_last o (state w) (inflight w) _ _ _ Hpool).
    destruct o as [[]|e]; cbn [run];
      match goal with
      | |- context [run (DashboardRev1.upload_loop s rest) ?w1] =>
          destruct (IH os w1 Hlen) as (w' & Hrun & Htoasts);
            [destruct w; exact Hpool|]
      end;
      exists w'; (split; [exact Hrun|]);
      rewrite Htoasts; simpl; rewrite !toasts_app; simpl;
      rewrite !length_app; simpl; lia.
Qed.

(* ================================================================== *)
(** * Properties: uploading a folder *)
(* ================================================================== *)

(** C4.  For the two files picked with a folder whose relative paths are
    docs/a.txt and docs/sub/b.txt, the grouping loop builds two groups,
    "docs" holding a.txt and "docs/sub" holding b.txt, [Object.entries]
    lists them in that order, and however the two uploads settle the
    requests sent carry a.txt with folder_path "docs" and b.txt with
    folder_path "docs/sub". *)
Theorem folder_upload_groups_by_path (w : World) (o1 o2 : Outcome unit) :
  no_upload_in_flight w = true ->
  map Dashboard.folderPath_of [Sample.docs_a; Sample.docs_sub_b]
  = [lit "docs"; lit "docs/sub"]
  /\ Dashboard.group_files [Sample.docs_a; Sample.docs_sub_b] []
     = Some [(lit "docs", [Sample.docs_a]);
             (lit "docs/sub", [Sample.docs_sub_b])]
  /\ JsObject.entries [(lit "docs", [Sample.docs_a]);
                       (lit "docs/sub", [Sample.docs_sub_b])]
     = [(lit "docs", [Sample.docs_a]); (lit "docs/sub", [Sample.docs_sub_b])]
  /\ exists w' : World,
       answer_uploads [o1; o2]
         (View.fire
            (View.FolderInputChange [Sample.docs_a; Sample.docs_sub_b]) w)
       = Some w'
       /\ uploads (trace w')
          = uploads (trace w)
            ++ [[field_file Sample.docs_a; field_folder_path (lit "docs")];
                [field_file Sample.docs_sub_b;
                 field_folder_path (lit "docs/sub")]].
Proof.
  intro Hpool.
  split; [reflexivity|]. split; [reflexivity|]. split; [reflexivity|].
  unfold View.fire. cbn [View.dispatch].
  assert (E : Dashboard.handleFolderUpload (state w)
                [Sample.docs_a; Sample.docs_sub_b]
              = Do (SetLoading true)
                  (and_then
                     (Dashboard.handleFileUpload (state w) [Sample.docs_a]
                        (Some (lit "docs")))
                     (and_then
                        (Dashboard.handleFileUpload (state w)
                           [Sample.docs_sub_b] (Some (lit "docs/sub")))
                        (Do (SetLoading false) Done))))
    by reflexivity.
  rewrite E; clear E.
  cbn [Dashboard.handleFileUpload Dashboard.upload_loop and_then run
         answer_uploads].
  rewrite answer_upload_last by (rewrite !perform_inflight; exact Hpool).
  destruct o1 as [[]|e1];
    cbn [Dashboard.upload_loop Dashboard.upload_report when N.ltb N.compare
           N.add Pos.compare and_then run perform emit with_state
           state inflight trace];
    cbn [Dashboard.loadStats Dashboard.loadFolders Dashboard.loadFiles run
           state inflight trace];
    (rewrite answer_upload_last
       by (rewrite !forallb_app; simpl;
           unfold no_upload_in_flight in Hpool; now rewrite Hpool));
    destruct o2 as [[]|e2];
    (eexists; split; [reflexivity|]);
    simpl; rewrite !uploads_app; simpl;
    rewrite ?app_nil_r, <- ?app_assoc; reflexivity.
Qed.

(** The folder is picked on the dashboard just loaded; the first upload is
    fulfilled and the second rejected. *)
Lemma folder_upload_witness :
  no_upload_in_flight Sample.loaded = true
  /\ Dashboard.group_files [Sample.docs_a; Sample.docs_sub_b] []
     = Some [(lit "docs", [Sample.docs_a]);
             (lit "docs/sub", [Sample.docs_sub_b])].
Proof.
  split; [reflexivity|].
  exact (proj1 (proj2 (@folder_upload_groups_by_path Sample.loaded
                         (Fulfilled tt) (Rejected None) eq_refl))).
Defined.

(* ================================================================== *)
(** * Properties: what a successful move reloads *)
(* ================================================================== *)

Lemma strayed_not_stats (tr : list Output) :
  strayed (@not_stats) tr = sent_some (@is_stats) tr.
Proof.
  unfold strayed, sent_some, not_stats.
  induction tr as [|o tr IH]; simpl; [reflexivity|].
  rewrite IH. destruct o; try reflexivity.
  now rewrite negb_involutive.
Qed.

Lemma strayed_not_move (tr : list Output) :
  strayed (@not_move) tr = sent_some (@is_move) tr.
Proof.
  unfold strayed, sent_some, not_move.
  induction tr as [|o tr IH]; simpl; [reflexivity|].
  rewrite IH. destruct o; try reflexivity.
  now rewrite negb_involutive.
Qed.

(** A segment that neither writes the stats cell nor asks for the stats,
    run when nothing else is in flight, leaves the stats as they are for
    good. *)
Lemma confined_keeps_stats (t : Task) (w0 : World) :
  inflight w0 = [] ->
  confined keeps_stats (@not_stats) t ->
  stats (state (run t w0)) = stats (state w0)
  /\ forall w3 : World,
       steps (run t w0) w3 ->
       stats (state w3) = stats (state w0)
       /\ sent_some (@is_stats) (trace w3) = sent_some (@is_stats) (trace w0).
Proof.
  intros Hpool Ht.
  destruct (@run_confined keeps_stats (@not_stats) Stats stats
              keeps_stats_perform t w0 Ht) as (P1 & O1 & S1).
  { rewrite Hpool. constructor. }
  split; [exact O1|].
  intros w3 H3.
  destruct (@steps_confined keeps_stats (@not_stats) Stats stats
              keeps_stats_perform _ _ H3 P1) as (P3 & O3 & S3).
  split; [congruence|].
  rewrite <- !strayed_not_stats. congruence.
Qed.

Lemma sent_some_snoc (p : forall A : Type, Request A -> bool)
  (tr : list Output) (A : Type) (r : Request A) :
  sent_some p (tr ++ [Sent r]) = sent_some p tr || p A r.
Proof.
  unfold sent_some. rewrite existsb_app. simpl. now rewrite orb_false_r.
Qed.

(** The move in flight, alone, settles. *)
Lemma answer_move_single (o : Outcome unit) (st : State) (tr : list Output)
  (x : Tagged) (destination : option JsId) (k : Outcome unit -> Task) :
  answer_move o
    {| state := st;
       inflight := [pend (Dashboard.move_request x destination) k];
       trace := tr |}
  = Some (run (k o) {| state := st; inflight := []; trace := tr |}).
Proof.
  unfold answer_move, settle_first, Dashboard.move_request.
  destruct (type x); reflexivity.
Qed.

Lemma sent_stats_move (tr : list Output) (x : Tagged)
  (destination : option JsId) :
  sent_some (@is_stats) (tr ++ [Sent (Dashboard.move_request x destination)])
  = sent_some (@is_stats) tr.
Proof.
  rewrite sent_some_snoc. unfold Dashboard.move_request.
  destruct (type x); apply orb_false_r.
Qed.

(** The common end of the three proofs below: the segment [t] that runs
    once the move is fulfilled. *)
Lemma fulfilled_move_reloads (s st : State) (tr : list Output) (x : Tagged)
  (destination : option JsId) (k : Outcome unit -> Task) (m : Message) :
  stats st = stats s ->
  confined keeps_stats (@not_stats) (k (Fulfilled tt)) ->
  (forall w0 : World,
      trace (run (k (Fulfilled tt)) w0)
      = trace w0
        ++ [ToastSuccess m;
            Sent (GetFilesList (Dashboard.or_empty (currentFolder s)));
            Sent GetFoldersTree]) ->
  (forall (tr0 : list Output) (files_first : bool)
     (listing : list FileNode.t) (tree : list FolderNode.t),
      exists w4 : World,
        answer_lists files_first listing tree
          (run (k (Fulfilled tt))
             {| state := st; inflight := []; trace := tr0 |})
        = Some w4
        /\ files (state w4) = listing
        /\ folders (state w4)
           = filter (fun f => nullable_eq (FolderNode.parent_id f)
                                (currentFolder s))
               tree
        /\ stats (state w4) = stats st
        /\ inflight w4 = []
        /\ trace w4
           = trace (run (k (Fulfilled tt))
                      {| state := st; inflight := []; trace := tr0 |})) ->
  reloads_lists_not_stats {| state := s; inflight := []; trace := tr |}
    {| state := st;
       inflight := [pend (Dashboard.move_request x destination) k];
       trace := tr ++ [Sent (Dashboard.move_request x destination)] |}
    (Dashboard.move_request x destination) m.
Proof.
  intros Hst Hk Htrace Hlists. unfold reloads_lists_not_stats.
  rewrite answer_move_single.
  eexists. split; [reflexivity|].
  split; [rewrite Htrace; simpl; now rewrite <- app_assoc|].
  destruct (@confined_keeps_stats (k (Fulfilled tt))
              {| state := st; inflight := [];
                 trace := tr ++ [Sent (Dashboard.move_request x destination)] |}
              eq_refl Hk) as [Hs Hlater].
  simpl in Hs, Hlater |- *.
  split; [congruence|].
  split.
  { intros files_first listing tree.
    destruct (Hlists (tr ++ [Sent (Dashboard.move_request x destination)])
                files_first listing tree)
      as (w4 & H4 & Hf & Hd & Hs4 & Hp4 & Ht4).
    exists w4. repeat split; try assumption. congruence. }
  intros w3 H3. destruct (Hlater w3 H3) as [H3s H3t].
  split; [congruence|].
  rewrite H3t. apply sent_stats_move.
Qed.

(** The three ways to a move: the dialog, a drop on a folder, a drop on
    the root area. *)
Lemma move_dialog_reloads (w : World) (target : Tagged) :
  inflight w = [] ->
  showMoveDialog (state w) = true ->
  moveTarget (state w) = Some target ->
  reloads_lists_not_stats w (View.fire View.MoveConfirmClick w)
    (Dashboard.move_request target (moveDestination (state w)))
    (Text "Moved successfully").
Proof.
  intros Hpool Hopen Htarget.
  destruct w as [s pool tr]; simpl in *. subst pool.
  unfold View.fire; simpl. rewrite Hopen.
  unfold Dashboard.handleMove. rewrite Htarget. cbn [run app state inflight trace].
  apply fulfilled_move_reloads.
  - reflexivity.
  - simpl. repeat split; try reflexivity; intros [d|e]; simpl; auto.
  - intro w0. simpl. now rewrite <- !app_assoc.
  - intros tr0 [|] listing tree; eexists;
      (split; [reflexivity|]); repeat split.
Qed.

Lemma drop_on_folder_reloads
  (w : World) (row : nat) (target : FolderNode.t) (dragged : Tagged) :
  inflight w = [] ->
  nth_error (folders (state w)) row = Some target ->
  draggedItem (state w) = Some dragged ->
  id_eq (id dragged) (FolderNode.id target) = false ->
  reloads_lists_not_stats w (View.fire (View.FolderRowDrop row) w)
    (Dashboard.move_request dragged (Some (FolderNode.id target)))
    (moved_text dragged "File moved successfully" "Folder moved successfully").
Proof.
  intros Hpool Hrow Hd Hid.
  destruct w as [s pool tr]; simpl in *. subst pool.
  unfold View.fire; simpl. rewrite Hrow.
  unfold Dashboard.handleDropOnFolder, Dashboard.drop_move.
  cbn [run perform with_state state inflight trace].
  rewrite Hd, Hid. cbn [run app state inflight trace].
  apply fulfilled_move_reloads.
  - reflexivity.
  - simpl. repeat split; try reflexivity; intros [d|e]; simpl; auto.
  - intro w0. simpl. now rewrite <- !app_assoc.
  - intros tr0 [|] listing tree; eexists;
      (split; [reflexivity|]); repeat split.
Qed.

Lemma drop_on_root_reloads (w : World) (dragged : Tagged) :
  inflight w = [] ->
  draggedItem (state w) = Some dragged ->
  reloads_lists_not_stats w (View.fire (View.ManagerDrop []) w)
    (Dashboard.move_request dragged None)
    (moved_text dragged "File moved to root" "Folder moved to root").
Proof.
  intros Hpool Hd.
  destruct w as [s pool tr]; simpl in *. subst pool.
  unfold View.fire; simpl.
  unfold Dashboard.handleDropOnRoot, Dashboard.drop_move.
  cbn [run perform with_state state inflight trace].
  rewrite Hd. cbn [run app state inflight trace].
  apply fulfilled_move_reloads.
  - reflexivity.
  - simpl. repeat split; try reflexivity; intros [d|e]; simpl; auto.
  - intro w0. simpl. now rewrite <- !app_assoc.
  - intros tr0 [|] listing tree; eexists;
      (split; [reflexivity|]); repeat split.
Qed.

(** C8.  A move that succeeds, by the dialog or by a drop on a folder or
    on the root area ([/files/move] for a file, [/folders/move] for a
    folder), asks again for the file list of the current folder and for
    the folder tree, and for nothing else.  When the two answers arrive, in
    either order, the [files] cell holds the list received and the
    [folders] cell the folders received whose parent is the current
    folder.  The stats are not asked for, and the stats cell keeps its
    value, also after the two reloads have settled. *)
Theorem successful_move_reloads_lists_not_stats (w : World) :
  inflight w = [] ->
  (forall target : Tagged,
      showMoveDialog (state w) = true ->
      moveTarget (state w) = Some target ->
      reloads_lists_not_stats w (View.fire View.MoveConfirmClick w)
        (match type target with
         | type_file => PostFilesMove (id target) (moveDestination (state w))
         | type_folder =>
             PostFoldersMove (id target) (moveDestination (state w))
         end)
        (Text "Moved successfully"))
  /\ (forall (row : nat) (target : FolderNode.t) (dragged : Tagged),
         nth_error (folders (state w)) row = Some target ->
         draggedItem (state w) = Some dragged ->
         id_eq (id dragged) (FolderNode.id target) = false ->
         reloads_lists_not_stats w (View.fire (View.FolderRowDrop row) w)
           (match type dragged with
            | type_file =>
                PostFilesMove (id dragged) (Some (FolderNode.id target))
            | type_folder =>
                PostFoldersMove (id dragged) (Some (FolderNode.id target))
            end)
           (Text (match type dragged with
                  | type_file => "File moved successfully"
                  | type_folder => "Folder moved successfully"
                  end)))
  /\ (forall dragged : Tagged,
         draggedItem (state w) = Some dragged ->
         reloads_lists_not_stats w (View.fire (View.ManagerDrop []) w)
           (match type dragged with
            | type_file => PostFilesMove (id dragged) None
            | type_folder => PostFoldersMove (id dragged) None
            end)
           (Text (match type dragged with
                  | type_file => "File moved to root"
                  | type_folder => "Folder moved to root"
                  end))).
Proof.
  intro Hpool. split; [|split].
  - intros target Hopen Htarget.
    exact (@move_dialog_reloads w target Hpool Hopen Htarget).
  - intros row target dragged Hrow Hd Hid.
    exact (@drop_on_folder_reloads w row target dragged Hpool Hrow Hd Hid).
  - intros dragged Hd.
    exact (@drop_on_root_reloads w dragged Hpool Hd).
Qed.

(** The file of the sample is moved to the second folder through the
    dialog. *)
Lemma successful_move_witness :
  inflight Sample.move_chosen = []
  /\ showMoveDialog (state Sample.move_chosen) = true
  /\ moveTarget (state Sample.move_chosen)
     = Some {| item := FileItem Sample.report_txt; type := type_file |}
  /\ reloads_lists_not_stats Sample.move_chosen
       (View.fire View.MoveConfirmClick Sample.move_chosen)
       (PostFilesMove (FileNode.id Sample.report_txt)
          (Some (FolderNode.id Sample.folderB)))
       (Text "Moved successfully")
  /\ reloads_lists_not_stats Sample.dragging
       (View.fire (View.FolderRowDrop 1) Sample.dragging)
       (PostFilesMove (FileNode.id Sample.report_txt)
          (Some (FolderNode.id Sample.folderB)))
       (Text "File moved successfully").
Proof.
  split; [reflexivity|].
  split; [reflexivity|].
  split; [reflexivity|].
  split.
  - exact (proj1 (@successful_move_reloads_lists_not_stats Sample.move_chosen
                    eq_refl)
             {| item := FileItem Sample.report_txt; type := type_file |}
             eq_refl eq_refl).
  - exact (proj1 (proj2 (@successful_move_reloads_lists_not_stats
                           Sample.dragging eq_refl))
             1 Sample.folderB
             {| item := FileItem Sample.report_txt; type := type_file |}
             eq_refl eq_refl eq_refl).
Defined.

(* ================================================================== *)
(** * Properties: a drop on the file-manager area *)
(* ================================================================== *)

Lemma upload_loop_confined_move (s : State) (folderPath : option jsstring)
  (files : list LocalFile.t) :
  forall successCount errorCount : N,
    confined any_action (@not_move)
      (Dashboard.upload_loop s folderPath files successCount errorCount).
Proof.
  induction files as [|file rest IH]; intros sc ec; simpl.
  - unfold Dashboard.upload_report, when.
    destruct (0 <? sc)%N, (0 <? ec)%N; simpl;
      repeat split; try reflexivity; intros [d|e]; simpl; auto.
  - split; [reflexivity|]. intros [d|e]; simpl; auto.
Qed.

Lemma handleFileUpload_confined_move (s : State)
  (folderPath : option jsstring) (files : list LocalFile.t) :
  confined any_action (@not_move)
    (Dashboard.handleFileUpload s files folderPath).
Proof.
  destruct files as [|file rest]; [exact I|].
  split; [reflexivity|]. apply upload_loop_confined_move.
Qed.

(** C9.  A drop on the file-manager area.  When the drop carries files,
    the page runs [handleDrop]: every dropped file is uploaded, in its own
    request whose form holds the file (and the current folder, if any),
    and no move request is sent then or later, whether or not an item of
    the listing is being dragged.  When it carries none, the page runs
    [handleDropOnRoot], which sends the move of the dragged item to the
    root, [/files/move] with [target_folder_id: null] for a file and
    [/folders/move] with [target_parent_id: null] for a folder, and sends
    nothing when no item is being dragged. *)
Theorem root_drop_uploads_files_else_moves_to_root
  (w : World) (dropped : list LocalFile.t) (os : list (Outcome unit)) :
  inflight w = [] ->
  List.length os = List.length dropped ->
  (dropped <> [] ->
   View.dispatch (state w) (View.ManagerDrop dropped)
   = Dashboard.handleDrop (state w) dropped
   /\ (exists w' : World,
          answer_uploads os (View.fire (View.ManagerDrop dropped) w) = Some w'
          /\ uploads (trace w')
             = uploads (trace w)
               ++ map (fun file =>
                         field_file file
                         :: match currentFolder (state w) with
                            | Some c =>
                                if truthy_id c then [field_folder_id c] else []
                            | None => []
                            end)
                    dropped)
   /\ (forall w' : World,
          steps (View.fire (View.ManagerDrop dropped) w) w' ->
          sent_some (@is_move) (trace w') = sent_some (@is_move) (trace w)))
  /\ (dropped = [] ->
      View.dispatch (state w) (View.ManagerDrop dropped)
      = Dashboard.handleDropOnRoot (state w)
      /\ (forall dragged : Tagged,
             draggedItem (state w) = Some dragged ->
             trace (View.fire (View.ManagerDrop dropped) w)
             = trace w
               ++ [Sent (match type dragged with
                         | type_file => PostFilesMove (id dragged) None
                         | type_folder => PostFoldersMove (id dragged) None
                         end)]
             /\ List.length (inflight (View.fire (View.ManagerDrop dropped) w))
                = 1)
      /\ (draggedItem (state w) = None ->
          trace (View.fire (View.ManagerDrop dropped) w) = trace w
          /\ inflight (View.fire (View.ManagerDrop dropped) w) = [])).
Proof.
  intros Hpool Hlen. split.
  - intro Hne.
    destruct dropped as [|f rest]; [now elim Hne|].
    split; [reflexivity|].
    assert (Hfire : View.fire (View.ManagerDrop (f :: rest)) w
                    = run (Dashboard.handleFileUpload (state w) (f :: rest) None)
                        (with_state (setDragOver false) w)) by reflexivity.
    split.
    + rewrite Hfire.
      rewrite (@handleFileUpload_answered (state w) None (f :: rest) os
                 (with_state (setDragOver false) w) Hne Hlen)
        by (unfold no_upload_in_flight; simpl; now rewrite Hpool).
      eexists. split; [reflexivity|].
      etransitivity; [now apply handleFileUpload_uploads|reflexivity].
    + intros w' Hsteps. rewrite Hfire in Hsteps.
      destruct (@run_confined any_action (@not_move) unit (fun _ => tt)
                  (fun _ _ _ => eq_refl)
                  (Dashboard.handleFileUpload (state w) (f :: rest) None)
                  (with_state (setDragOver false) w)
                  (handleFileUpload_confined_move _ _ _))
        as (P1 & _ & S1).
      { simpl. rewrite Hpool. constructor. }
      destruct (@steps_confined any_action (@not_move) unit (fun _ => tt)
                  (fun _ _ _ => eq_refl) _ _ Hsteps P1) as (_ & _ & S2).
      rewrite <- !strayed_not_move. rewrite S2, S1. reflexivity.
  - intros ->. split; [reflexivity|]. split.
    + intros dragged Hd. unfold View.fire; simpl.
      unfold Dashboard.handleDropOnRoot, Dashboard.drop_move; simpl.
      rewrite Hd. simpl. rewrite Hpool. split; reflexivity.
    + intro Hd. unfold View.fire; simpl.
      unfold Dashboard.handleDropOnRoot; simpl. rewrite Hd. simpl.
      split; [reflexivity|exact Hpool].
Qed.

(** A picture is dropped from the desktop while the file row of the
    sample is being dragged: the picture is uploaded, nothing is moved.
    The dragged file row itself is dropped on the area: the file is moved
    to the root. *)
Lemma root_drop_witness :
  inflight Sample.dragging = []
  /\ draggedItem (state Sample.dragging)
     = Some {| item := FileItem Sample.report_txt; type := type_file |}
  /\ (exists w' : World,
         answer_uploads [Fulfilled tt]
           (View.fire (View.ManagerDrop [Sample.photo]) Sample.dragging)
         = Some w'
         /\ uploads (trace w')
            = uploads (trace Sample.dragging) ++ [[field_file Sample.photo]])
  /\ trace (View.fire (View.ManagerDrop []) Sample.dragging)
     = trace Sample.dragging
       ++ [Sent (PostFilesMove (FileNode.id Sample.report_txt) None)].
Proof.
  split; [reflexivity|].
  split; [reflexivity|].
  split.
  - refine (proj1 (proj2 (proj1 (@root_drop_uploads_files_else_moves_to_root
                                   Sample.dragging [Sample.photo]
                                   [Fulfilled tt] eq_refl eq_refl) _))).
    discriminate.
  - exact (proj1 (proj1 (proj2 (proj2 (@root_drop_uploads_files_else_moves_to_root
                                          Sample.dragging [] [] eq_refl eq_refl)
                                  eq_refl))
                    {| item := FileItem Sample.report_txt; type := type_file |}
                    eq_refl)).
Defined.

(* ================================================================== *)
(** * Properties: paths of the picked files *)
(* ================================================================== *)

Lemma streq_eq (a b : jsstring) : streq a b = true <-> a = b.
Proof.
  revert b. induction a as [|x a IH]; intros [|y b]; simpl;
    try (split; [discriminate|discriminate]); [split; reflexivity|].
  rewrite andb_true_iff, N.eqb_eq, IH.
  split; [intros [-> ->]; reflexivity|intro H; injection H; auto].
Qed.

Lemma streq_refl (a : jsstring) : streq a a = true.
Proof. now apply streq_eq. Qed.

Lemma streq_false (a b : jsstring) : streq a b = false <-> a <> b.
Proof.
  split.
  - intros H E. apply streq_eq in E. congruence.
  - intro H. destruct (streq a b) eqn:E; [|reflexivity].
    apply streq_eq in E. contradiction.
Qed.

Lemma split_go_app (sep : N) (a b : jsstring) :
  forall cur : jsstring,
    split_go sep cur (a ++ sep :: b)
    = split_go sep cur a ++ split_go sep [] b.
Proof.
  induction a as [|c a IH]; intro cur; simpl.
  - now rewrite N.eqb_refl.
  - destruct (N.eqb c sep); simpl; now rewrite IH.
Qed.

Lemma split_go_no_sep (sep : N) (s : jsstring) :
  forall cur : jsstring,
    forallb (fun c => negb (N.eqb c sep)) s = true ->
    split_go sep cur s = [rev cur ++ s].
Proof.
  induction s as [|c s IH]; intros cur H; simpl in *.
  - now rewrite app_nil_r.
  - apply andb_true_iff in H as [Hc Hs].
    destruct (N.eqb c sep); [discriminate Hc|].
    rewrite (IH (c :: cur) Hs). simpl. now rewrite <- app_assoc.
Qed.

Lemma split_go_not_nil (sep : N) (s cur : jsstring) : split_go sep cur s <> [].
Proof.
  revert cur. induction s as [|c s IH]; intro cur; simpl.
  - discriminate.
  - destruct (N.eqb c sep); [discriminate|apply IH].
Qed.

Lemma join_cons (sep : N) (x : jsstring) (l : list jsstring) :
  l <> [] -> join sep (x :: l) = x ++ sep :: join sep l.
Proof. destruct l; [contradiction|reflexivity]. Qed.

(** Splitting and joining again on the same separator gives the string
    back. *)
Lemma join_split_go (sep : N) (s : jsstring) :
  forall cur : jsstring, join sep (split_go sep cur s) = rev cur ++ s.
Proof.
  induction s as [|c s IH]; intro cur; simpl.
  - now rewrite app_nil_r.
  - destruct (N.eqb_spec c sep) as [->|Hc].
    + rewrite join_cons by apply split_go_not_nil.
      now rewrite IH.
    + rewrite IH. simpl. now rewrite <- app_assoc.
Qed.

(** X1.  The folder path computed for a picked file is its relative
    path up to the last slash: for a relative path [dir/name] whose [name]
    holds no slash it is [dir], and for a relative path without any slash
    it is the empty string. *)
Theorem folderPath_of_is_directory_part
  (file : LocalFile.t) (dir name : jsstring) :
  forallb (fun c => negb (N.eqb c 47)) name = true ->
  (LocalFile.webkitRelativePath file = dir ++ 47%N :: name ->
   Dashboard.folderPath_of file = dir)
  /\ (LocalFile.webkitRelativePath file = name ->
      Dashboard.folderPath_of file = []).
Proof.
  intro Hname. unfold Dashboard.folderPath_of, slice_0_m1, split. split.
  - intros ->.
    rewrite split_go_app, (split_go_no_sep 47 name [] Hname).
    rewrite removelast_last. apply (join_split_go 47 dir []).
  - intros ->. now rewrite (split_go_no_sep 47 name [] Hname).
Qed.

Lemma folderPath_of_witness :
  forallb (fun c => negb (N.eqb c 47)) (lit "b.txt") = true
  /\ LocalFile.webkitRelativePath Sample.docs_sub_b
     = lit "docs/sub" ++ 47%N :: lit "b.txt"
  /\ Dashboard.folderPath_of Sample.docs_sub_b = lit "docs/sub".
Proof.
  split; [reflexivity|]. split; [reflexivity|].
  exact (proj1 (@folderPath_of_is_directory_part Sample.docs_sub_b
                  (lit "docs/sub") (lit "b.txt") eq_refl) eq_refl).
Defined.

(* ================================================================== *)
(** * Properties: the groups of a picked folder *)
(* ================================================================== *)

Lemma get_own_replace {V : Type} (p q : jsstring) (v old : V)
  (o : JsObject.t V) :
  JsObject.get_own q o = Some old ->
  JsObject.get_own p (JsObject.replace q v o)
  = if streq p q then Some v else JsObject.get_own p o.
Proof.
  induction o as [|[k x] r IH]; simpl; [discriminate|].
  destruct (streq q k) eqn:Eqk; simpl.
  - intros _. apply streq_eq in Eqk. subst k.
    now destruct (streq p q).
  - intro H. rewrite (IH H).
    destruct (streq p k) eqn:Epk, (streq p q) eqn:Epq; try reflexivity.
    apply streq_eq in Epk, Epq. subst.
    rewrite streq_refl in Eqk. discriminate Eqk.
Qed.

Lemma get_own_app_new {V : Type} (p q : jsstring) (v : V) (o : JsObject.t V) :
  JsObject.get_own p (o ++ [(q, v)])
  = match JsObject.get_own p o with
    | Some x => Some x
    | None => if streq p q then Some v else None
    end.
Proof.
  induction o as [|[k x] r IH]; simpl; [reflexivity|].
  now destruct (streq p k).
Qed.

Lemma keys_replace {V : Type} (q : jsstring) (v : V) (o : JsObject.t V) :
  map fst (JsObject.replace q v o) = map fst o.
Proof.
  induction o as [|[k x] r IH]; simpl; [reflexivity|].
  destruct (streq q k); simpl; now rewrite ?IH.
Qed.

Lemma files_under_snoc (p : jsstring) (done : list LocalFile.t)
  (f : LocalFile.t) :
  files_under p (done ++ [f])
  = files_under p done
    ++ (if streq (Dashboard.folderPath_of f) p then [f] else []).
Proof. unfold files_under. rewrite filter_app. reflexivity. Qed.

Lemma group_under_some (p : jsstring) (files x : list LocalFile.t) :
  group_under p files = Some x -> files_under p files = x /\ x <> [].
Proof.
  unfold group_under. destruct (files_under p files); [discriminate|].
  intro H; injection H as <-. split; [reflexivity|discriminate].
Qed.

Lemma group_under_none (p : jsstring) (files : list LocalFile.t) :
  group_under p files = None -> files_under p files = [].
Proof.
  unfold group_under. now destruct (files_under p files).
Qed.

Lemma group_under_snoc_same (p : jsstring) (done : list LocalFile.t)
  (f : LocalFile.t) :
  Dashboard.folderPath_of f = p ->
  group_under p (done ++ [f]) = Some (files_under p done ++ [f]).
Proof.
  intros <-. unfold group_under. rewrite files_under_snoc, streq_refl.
  now destruct (files_under (Dashboard.folderPath_of f) done).
Qed.

Lemma group_under_snoc_other (p : jsstring) (done : list LocalFile.t)
  (f : LocalFile.t) :
  Dashboard.folderPath_of f <> p ->
  group_under p (done ++ [f]) = group_under p done.
Proof.
  intro H. unfold group_under. rewrite files_under_snoc.
  apply streq_false in H. rewrite H. now rewrite app_nil_r.
Qed.

(** The loop keeps, under every path, the files seen so far that lie
    there. *)
Lemma group_files_keeps_groups (files : list LocalFile.t) :
  forall (acc : JsObject.t (list LocalFile.t)) (done : list LocalFile.t)
         (o : JsObject.t (list LocalFile.t)),
    (forall p, JsObject.get_own p acc = group_under p done) ->
    Dashboard.group_files files acc = Some o ->
    forall p, JsObject.get_own p o = group_under p (done ++ files).
Proof.
  induction files as [|f rest IH]; intros acc done o Hacc Hrun p.
  - simpl in Hrun. injection Hrun as <-. rewrite app_nil_r. apply Hacc.
  - simpl in Hrun.
    replace (done ++ f :: rest) with ((done ++ [f]) ++ rest)
      by (rewrite <- app_assoc; reflexivity).
    destruct (JsObject.get_own (Dashboard.folderPath_of f) acc)
      as [pathFiles|] eqn:Eq.
    + apply (IH _ (done ++ [f]) o) with (p := p) in Hrun; [exact Hrun|].
      intro p'. erewrite get_own_replace by exact Eq.
      rewrite Hacc in Eq. apply group_under_some in Eq as [Eq _].
      destruct (streq p' (Dashboard.folderPath_of f)) eqn:E.
      * apply streq_eq in E. subst p'.
        rewrite group_under_snoc_same by reflexivity. now rewrite Eq.
      * apply streq_false in E.
        rewrite group_under_snoc_other by congruence. apply Hacc.
    + destruct (JsObject.inherited (Dashboard.folderPath_of f));
        [discriminate Hrun|].
      apply (IH _ (done ++ [f]) o) with (p := p) in Hrun; [exact Hrun|].
      intro p'. rewrite get_own_app_new.
      destruct (streq p' (Dashboard.folderPath_of f)) eqn:E.
      * apply streq_eq in E. subst p'. rewrite Eq.
        rewrite group_under_snoc_same by reflexivity.
        rewrite Hacc in Eq. apply group_under_none in Eq. now rewrite Eq.
      * apply streq_false in E.
        rewrite group_under_snoc_other by congruence.
        rewrite Hacc. now destruct (group_under p' done).
Qed.

(** X2.  When the grouping loop of [handleFolderUpload] ends, the
    object it built has, under each folder path, exactly the picked files
    whose relative path lies in that folder, in picking order, and no
    entry for a path no file lies in. *)
Theorem group_files_groups_by_folder_path
  (files : list LocalFile.t) (o : JsObject.t (list LocalFile.t))
  (path : jsstring) :
  Dashboard.group_files files [] = Some o ->
  JsObject.get_own path o = group_under path files.
Proof.
  intro H.
  apply (@group_files_keeps_groups files [] [] o (fun p => eq_refl) H).
Qed.

Lemma group_files_groups_witness :
  Dashboard.group_files
    [Scenario.seven_sub_b; Scenario.seven_a; Scenario.seven_c] []
  = Some [(lit "7/sub", [Scenario.seven_sub_b; Scenario.seven_c]);
          (lit "7", [Scenario.seven_a])]
  /\ JsObject.get_own (lit "7/sub")
       [(lit "7/sub", [Scenario.seven_sub_b; Scenario.seven_c]);
        (lit "7", [Scenario.seven_a])]
     = group_under (lit "7/sub")
         [Scenario.seven_sub_b; Scenario.seven_a; Scenario.seven_c].
Proof.
  split; [reflexivity|].
  apply (@group_files_groups_by_folder_path
           [Scenario.seven_sub_b; Scenario.seven_a; Scenario.seven_c]).
  reflexivity.
Defined.

Lemma get_own_key_not_inherited {V : Type} (q : jsstring) (v : V)
  (o : JsObject.t V) :
  forallb (fun k => negb (JsObject.inherited k)) (map fst o) = true ->
  JsObject.get_own q o = Some v ->
  JsObject.inherited q = false.
Proof.
  induction o as [|[k x] r IH]; simpl; [discriminate|].
  intros H. apply andb_true_iff in H as [Hk Hr].
  destruct (streq q k) eqn:E.
  - intros _. apply streq_eq in E. subst k. now apply negb_true_iff in Hk.
  - now apply IH.
Qed.

Lemma group_files_throws_iff (files : list LocalFile.t) :
  forall acc : JsObject.t (list LocalFile.t),
    forallb (fun k => negb (JsObject.inherited k)) (map fst acc) = true ->
    (Dashboard.group_files files acc = None <-> hits_prototype files = true).
Proof.
  induction files as [|f rest IH]; intros acc Hacc; simpl.
  - split; discriminate.
  - destruct (JsObject.get_own (Dashboard.folderPath_of f) acc)
      as [pathFiles|] eqn:Eq.
    + erewrite get_own_key_not_inherited by eassumption. simpl.
      apply IH. now rewrite keys_replace.
    + destruct (JsObject.inherited (Dashboard.folderPath_of f)) eqn:Ei; simpl.
      * split; reflexivity.
      * apply IH. rewrite map_app, forallb_app, Hacc. simpl. now rewrite Ei.
Qed.

(** X3.  When the folder path of a picked file is a name that every
    object inherits from [Object.prototype] (the picked folder is called
    "constructor", "toString", ... and the file lies directly in it), and
    only then, the grouping loop throws: the handler has set [loading] and
    does nothing more, so no file of the folder is uploaded, nothing is put
    in flight and [loading] stays true. *)
Theorem folder_upload_throws_on_prototype_name
  (s : State) (files : list LocalFile.t) (w : World) :
  (Dashboard.group_files files [] = None <-> hits_prototype files = true)
  /\ (hits_prototype files = true ->
      run (Dashboard.handleFolderUpload s files) w
      = with_state (setLoading true) w
      /\ loading (state (run (Dashboard.handleFolderUpload s files) w)) = true
      /\ trace (run (Dashboard.handleFolderUpload s files) w) = trace w
      /\ inflight (run (Dashboard.handleFolderUpload s files) w) = inflight w).
Proof.
  assert (Hiff : Dashboard.group_files files [] = None
                 <-> hits_prototype files = true)
    by (apply group_files_throws_iff; reflexivity).
  split; [exact Hiff|].
  intro H.
  assert (E : run (Dashboard.handleFolderUpload s files) w
              = with_state (setLoading true) w).
  { unfold Dashboard.handleFolderUpload.
    destruct files as [|f rest]; [discriminate H|].
    apply Hiff in H. rewrite H. reflexivity. }
  rewrite E. repeat split.
Qed.

Lemma folder_upload_throws_witness :
  hits_prototype [Scenario.site_index; Scenario.in_constructor] = true
  /\ run (Dashboard.handleFolderUpload (state Sample.loaded)
            [Scenario.site_index; Scenario.in_constructor]) Sample.loaded
     = with_state (setLoading true) Sample.loaded.
Proof.
  split; [reflexivity|].
  exact (proj1 (proj2 (@folder_upload_throws_on_prototype_name
                         (state Sample.loaded)
                         [Scenario.site_index; Scenario.in_constructor]
                         Sample.loaded) eq_refl)).
Defined.

(* ================================================================== *)
(** * Properties: the uploads of a picked folder *)
(* ================================================================== *)



Lemma upload_report_state (s : State) (m n : N) (w : World) :
  state (run (Dashboard.upload_report s m n) w) = setLoading false (state w)
  /\ no_upload_in_flight (run (Dashboard.upload_report s m n) w)
     = no_upload_in_flight w.
Proof.
  unfold Dashboard.upload_report, when, no_upload_in_flight.
  destruct (0 <? m)%N, (0 <? n)%N; simpl;
    rewrite ?forallb_app; simpl; rewrite ?andb_true_r; auto.
Qed.





Lemma replace_keeps_nonempty (q : jsstring) (v : list LocalFile.t)
  (o : JsObject.t (list LocalFile.t)) :
  v <> [] ->
  Forall (fun g => snd g <> []) o ->
  Forall (fun g => snd g <> []) (JsObject.replace q v o).
Proof.
  intros Hv. induction 1 as [|[k x] r Hx Hr IH]; simpl; [constructor|].
  destruct (streq q k); constructor; auto.
Qed.

Lemma group_files_nonempty (files : list LocalFile.t) :
  forall acc o : JsObject.t (list LocalFile.t),
    Forall (fun g => snd g <> []) acc ->
    Dashboard.group_files files acc = Some o ->
    Forall (fun g => snd g <> []) o.
Proof.
  induction files as [|f rest IH]; intros acc o Hacc Hrun; simpl in Hrun.
  - now injection Hrun as <-.
  - destruct (JsObject.get_own (Dashboard.folderPath_of f) acc) as [pf|].
    + apply (IH _ _) in Hrun; [exact Hrun|].
      apply replace_keeps_nonempty; [|exact Hacc].
      destruct pf; discriminate.
    + destruct (JsObject.inherited (Dashboard.folderPath_of f));
        [discriminate Hrun|].
      apply (IH _ _) in Hrun; [exact Hrun|].
      apply Forall_app. split; [exact Hacc|].
      constructor; [discriminate|constructor].
Qed.

Lemma insert_index_perm {V : Type} (n : N) (e : jsstring * V)
  (l : list (N * (jsstring * V))) :
  Permutation (JsObject.insert_index n e l) ((n, e) :: l).
Proof.
  induction l as [|[m x] r IH]; simpl; [reflexivity|].
  destruct (n <? m)%N; [reflexivity|].
  rewrite IH. apply perm_swap.
Qed.

(** [Object.entries] lists every own property once: it only moves the
    array-index keys to the front. *)
Lemma entries_perm {V : Type} (o : JsObject.t V) :
  Permutation (JsObject.entries o) o.
Proof.
  unfold JsObject.entries.
  induction o as [|[k v] r IH]; simpl; [reflexivity|].
  destruct (JsObject.array_index k) as [n|]; simpl.
  - rewrite insert_index_perm. simpl. now constructor.
  - rewrite <- Permutation_middle. now constructor.
Qed.

Lemma replace_perm (q : jsstring) (pf : list LocalFile.t) (f : LocalFile.t)
  (o : JsObject.t (list LocalFile.t)) :
  JsObject.get_own q o = Some pf ->
  Permutation (flat_map snd (JsObject.replace q (pf ++ [f]) o))
    (flat_map snd o ++ [f]).
Proof.
  induction o as [|[k x] r IH]; simpl; [discriminate|].
  destruct (streq q k); simpl.
  - intro H; injection H as ->.
    rewrite <- !app_assoc. apply Permutation_app_head.
    apply Permutation_app_comm.
  - intro H. rewrite (IH H). now rewrite app_assoc.
Qed.

Lemma group_files_perm (files : list LocalFile.t) :
  forall (acc o : JsObject.t (list LocalFile.t)) (done : list LocalFile.t),
    Permutation (flat_map snd acc) done ->
    Dashboard.group_files files acc = Some o ->
    Permutation (flat_map snd o) (done ++ files).
Proof.
  induction files as [|f rest IH]; intros acc o done Hacc Hrun;
    simpl in Hrun.
  - injection Hrun as <-. now rewrite app_nil_r.
  - replace (done ++ f :: rest) with ((done ++ [f]) ++ rest)
      by (rewrite <- app_assoc; reflexivity).
    destruct (JsObject.get_own (Dashboard.folderPath_of f) acc)
      as [pf|] eqn:Eq.
    + apply (IH _ _ (done ++ [f])) in Hrun; [exact Hrun|].
      rewrite (replace_perm _ f _ Eq). now apply Permutation_app_tail.
    + destruct (JsObject.inherited (Dashboard.folderPath_of f));
        [discriminate Hrun|].
      apply (IH _ _ (done ++ [f])) in Hrun; [exact Hrun|].
      rewrite flat_map_app. simpl. now apply Permutation_app_tail.
Qed.

(** X4.  The groups that [handleFolderUpload] uploads, taken in the
    order of [Object.entries], hold every picked file exactly once: their
    files are a rearrangement of the picked files, and no group is
    empty. *)
Theorem folder_groups_hold_every_file_once
  (files : list LocalFile.t) (o : JsObject.t (list LocalFile.t)) :
  Dashboard.group_files files [] = Some o ->
  Permutation (flat_map snd (JsObject.entries o)) files
  /\ Forall (fun g => snd g <> []) (JsObject.entries o).
Proof.
  intro H. split.
  - rewrite (Permutation_flat_map snd (entries_perm o)).
    apply (@group_files_perm files [] o [] (Permutation_refl _) H).
  - apply (Permutation_Forall (Permutation_sym (entries_perm o))).
    apply (@group_files_nonempty files [] o (Forall_nil _) H).
Qed.

Lemma folder_groups_witness :
  Dashboard.group_files
    [Scenario.seven_sub_b; Scenario.seven_a; Scenario.seven_c] []
  = Some [(lit "7/sub", [Scenario.seven_sub_b; Scenario.seven_c]);
          (lit "7", [Scenario.seven_a])]
  /\ JsObject.entries
       [(lit "7/sub", [Scenario.seven_sub_b; Scenario.seven_c]);
        (lit "7", [Scenario.seven_a])]
     = [(lit "7", [Scenario.seven_a]);
        (lit "7/sub", [Scenario.seven_sub_b; Scenario.seven_c])]
  /\ Permutation
       (flat_map snd
          (JsObject.entries
             [(lit "7/sub", [Scenario.seven_sub_b; Scenario.seven_c]);
              (lit "7", [Scenario.seven_a])]))
       [Scenario.seven_sub_b; Scenario.seven_a; Scenario.seven_c].
Proof.
  split; [reflexivity|]. split; [reflexivity|].
  exact (proj1 (@folder_groups_hold_every_file_once
                  [Scenario.seven_sub_b; Scenario.seven_a; Scenario.seven_c]
                  _ eq_refl)).
Defined.



(* ================================================================== *)
(** * Properties: the end of a batch *)
(* ================================================================== *)

Lemma upload_report_inflight (s : State) (m n : N) (w : World) :
  List.length (inflight (run (Dashboard.upload_report s m n) w))
  = List.length (inflight w) + 3.
Proof.
  unfold Dashboard.upload_report, when.
  destruct (0 <? m)%N, (0 <? n)%N; simpl; rewrite !length_app; simpl; lia.
Qed.

(** X6.  A batch that is not empty ends the same way however its
    uploads settled, also when every one of them was rejected: [loading]
    is false again, and the last three things sent are the requests for
    the file list, the folder tree and the stats, now in flight. *)
Theorem upload_batch_reloads_whatever_failed
  (s : State) (folderPath : option jsstring) (files : list LocalFile.t)
  (os : list (Outcome unit)) (w : World) :
  files <> [] ->
  List.length os = List.length files ->
  no_upload_in_flight w = true ->
  exists (w' : World) (before : list Output),
    answer_uploads os (run (Dashboard.handleFileUpload s files folderPath) w)
    = Some w'
    /\ loading (state w') = false
    /\ trace w'
       = before
         ++ [Sent (GetFilesList (Dashboard.or_empty (currentFolder s)));
             Sent GetFoldersTree; Sent GetUserStats]
    /\ List.length (inflight w') = List.length (inflight w) + 3.
Proof.
  intros Hne Hlen Hpool.
  rewrite (@handleFileUpload_answered s folderPath files os w Hne Hlen Hpool).
  eexists. eexists. split; [reflexivity|].
  split; [now rewrite (proj1 (upload_report_state _ _ _ _))|].
  split.
  - rewrite upload_report_trace. rewrite app_assoc. reflexivity.
  - now rewrite upload_report_inflight.
Qed.

Lemma upload_batch_reloads_witness :
  [Sample.photo; Sample.docs_a] <> []
  /\ List.length [@Rejected unit None; Rejected None]
     = List.length [Sample.photo; Sample.docs_a]
  /\ no_upload_in_flight Sample.loaded = true
  /\ exists (w' : World) (before : list Output),
       answer_uploads [Rejected None; Rejected None]
         (run (Dashboard.handleFileUpload (state Sample.loaded)
                 [Sample.photo; Sample.docs_a] None) Sample.loaded)
       = Some w'
       /\ loading (state w') = false
       /\ trace w'
          = before ++ [Sent (GetFilesList None); Sent GetFoldersTree;
                       Sent GetUserStats].
Proof.
  split; [discriminate|]. split; [reflexivity|]. split; [reflexivity|].
  destruct (@upload_batch_reloads_whatever_failed (state Sample.loaded) None
              [Sample.photo; Sample.docs_a] [Rejected None; Rejected None]
              Sample.loaded ltac:(discriminate) eq_refl eq_refl)
    as (w' & before & Hrun & Hload & Htrace & _).
  exists w', before. split; [exact Hrun|]. split; [exact Hload|exact Htrace].
Defined.

(** The earlier revision on two files, one uploaded and one rejected. *)
Lemma rev1_toasts_witness :
  List.length [Fulfilled tt; Rejected None]
  = List.length [Sample.photo; Sample.docs_a]
  /\ no_upload_in_flight Sample.loaded = true
  /\ exists w' : World,
       answer_uploads [Fulfilled tt; Rejected None]
         (run (DashboardRev1.upload_loop (state Sample.loaded)
                 [Sample.photo; Sample.docs_a]) Sample.loaded) = Some w'
       /\ List.length (toasts (trace w')) = 2.
Proof.
  split; [reflexivity|]. split; [reflexivity|].
  destruct (@rev1_toasts_every_file (state Sample.loaded)
              [Sample.photo; Sample.docs_a] [Fulfilled tt; Rejected None]
              Sample.loaded eq_refl eq_refl) as (w' & Hrun & Hto).
  exists w'. split; [exact Hrun|exact Hto].
Defined.

(** X7.  The earlier revision of the upload handler reports file by
    file: once the uploads of a batch have settled, whatever their
    outcomes, it has shown exactly one toast per file of the batch, where
    the current revision shows two at most. *)
Theorem rev1_upload_toasts_once_per_file
  (s : State) (files : list LocalFile.t) (os : list (Outcome unit))
  (w : World) :
  List.length os = List.length files ->
  no_upload_in_flight w = true ->
  exists w' : World,
    answer_uploads os (run (DashboardRev1.handleFileUpload s files) w)
    = Some w'
    /\ List.length (toasts (trace w'))
       = List.length (toasts (trace w)) + List.length files.
Proof.
  intros Hlen Hpool. destruct files as [|file rest].
  - destruct os; [|discriminate Hlen].
    exists w. split; [reflexivity|]. simpl. lia.
  - cbn [DashboardRev1.handleFileUpload run].
    match goal with
    | |- context [run (DashboardRev1.upload_loop s (file :: rest)) ?w1] =>
        destruct (@rev1_toasts_every_file s (file :: rest) os w1 Hlen)
          as (w' & Hrun & Htoasts); [destruct w; exact Hpool|]
    end.
    exists w'. split; [exact Hrun|].
    rewrite Htoasts. simpl. rewrite ?toasts_app. simpl.
    rewrite ?app_nil_r. reflexivity.
Qed.

Lemma rev1_upload_witness :
  exists w' : World,
    answer_uploads [Fulfilled tt; Rejected None; Fulfilled tt]
      (run (DashboardRev1.handleFileUpload (state Sample.loaded)
              [Sample.photo; Sample.docs_a; Sample.docs_sub_b])
         Sample.loaded)
    = Some w'
    /\ List.length (toasts (trace w')) = 3.
Proof.
  destruct (@rev1_upload_toasts_once_per_file (state Sample.loaded)
              [Sample.photo; Sample.docs_a; Sample.docs_sub_b]
              [Fulfilled tt; Rejected None; Fulfilled tt]
              Sample.loaded eq_refl eq_refl) as (w' & Hrun & Hto).
  exists w'. split; [exact Hrun|exact Hto].
Defined.

(* ================================================================== *)
(** * Properties: one session of the move dialog, and the highlight *)
(* ================================================================== *)

Lemma destination_click_keeps (ev : View.UIEvent) (w : World) :
  destination_click ev = true ->
  self_destination (state w) = false ->
  self_destination (state (View.fire ev w)) = false
  /\ moveTarget (state (View.fire ev w)) = moveTarget (state w)
  /\ showMoveDialog (state (View.fire ev w)) = showMoveDialog (state w)
  /\ trace (View.fire ev w) = trace w.
Proof.
  intros Hev Hself. unfold View.fire.
  destruct ev; try discriminate Hev; simpl.
  - destruct (showMoveDialog (state w)) eqn:Eo; simpl; auto.
    unfold self_destination; simpl.
    repeat split; auto. now destruct (moveTarget (state w)).
  - destruct (showMoveDialog (state w)) eqn:Eo; simpl; auto.
    destruct (nth_error (folders (state w)) row) as [f|]; simpl; auto.
    destruct (View.move_to_disabled (state w) f) eqn:D; simpl; auto.
Qed.

Lemma destination_clicks_keep (clicks : list View.UIEvent) :
  forall w : World,
    forallb destination_click clicks = true ->
    self_destination (state w) = false ->
    self_destination (state (View.fire_all clicks w)) = false
    /\ moveTarget (state (View.fire_all clicks w)) = moveTarget (state w)
    /\ showMoveDialog (state (View.fire_all clicks w))
       = showMoveDialog (state w)
    /\ trace (View.fire_all clicks w) = trace w.
Proof.
  induction clicks as [|ev clicks IH]; simpl; intros w H Hself; [auto|].
  apply andb_true_iff in H as [Hev Hrest].
  destruct (destination_click_keeps ev w Hev Hself) as (S1 & T1 & D1 & R1).
  destruct (IH (View.fire ev w) Hrest S1) as (S2 & T2 & D2 & R2).
  repeat split; congruence.
Qed.

(** X8.  Within one session of the move dialog the button-level
    guard is enough: when the destination cell does not hold the id of the
    item to move as the dialog opens (it is [null] on a fresh page and
    after every successful move), then whatever destinations are clicked,
    confirming sends one move request whose destination is not the item's
    own id. *)
Theorem move_dialog_session_never_sends_self_move
  (w : World) (target : Tagged) (clicks : list View.UIEvent) :
  showMoveDialog (state w) = true ->
  moveTarget (state w) = Some target ->
  self_destination (state w) = false ->
  forallb destination_click clicks = true ->
  trace (View.fire_all (clicks ++ [View.MoveConfirmClick]) w)
  = trace w
    ++ [Sent (Dashboard.move_request target
                (moveDestination (state (View.fire_all clicks w))))]
  /\ match moveDestination (state (View.fire_all clicks w)) with
     | Some d => id_eq (id target) d = false
     | None => True
     end.
Proof.
  intros Hopen Htarget Hself Hclicks.
  destruct (destination_clicks_keep clicks w Hclicks Hself)
    as (S & T & D & R).
  unfold View.fire_all. rewrite fold_left_app. simpl.
  fold (View.fire_all clicks w).
  set (w1 := View.fire_all clicks w) in *.
  split.
  - unfold View.fire. simpl. rewrite D, Hopen.
    unfold Dashboard.handleMove. rewrite T, Htarget. simpl. now rewrite R.
  - unfold self_destination in S. rewrite T, Htarget in S.
    now destruct (moveDestination (state w1)).
Qed.

Lemma move_dialog_session_witness :
  showMoveDialog (state (View.fire (View.FolderMoveClick 1) Sample.loaded))
  = true
  /\ moveTarget (state (View.fire (View.FolderMoveClick 1) Sample.loaded))
     = Some {| item := FolderItem Sample.folderB; type := type_folder |}
  /\ self_destination
       (state (View.fire (View.FolderMoveClick 1) Sample.loaded)) = false
  /\ forallb destination_click
       [View.MoveToClick 1; View.MoveToClick 0; View.MoveToClick 1] = true
  /\ trace (View.fire_all
              ([View.MoveToClick 1; View.MoveToClick 0; View.MoveToClick 1]
               ++ [View.MoveConfirmClick])
              (View.fire (View.FolderMoveClick 1) Sample.loaded))
     = trace Sample.loaded
       ++ [Sent (PostFoldersMove (FolderNode.id Sample.folderB)
                   (Some (FolderNode.id Sample.folderA)))].
Proof.
  split; [reflexivity|]. split; [reflexivity|]. split; [reflexivity|].
  split; [reflexivity|].
  exact (proj1 (@move_dialog_session_never_sends_self_move
                  (View.fire (View.FolderMoveClick 1) Sample.loaded)
                  {| item := FolderItem Sample.folderB; type := type_folder |}
                  [View.MoveToClick 1; View.MoveToClick 0; View.MoveToClick 1]
                  eq_refl eq_refl eq_refl eq_refl)).
Defined.

Lemma hover_keeps_highlight (ev : View.UIEvent) (w : World) :
  View.hover ev = true ->
  self_highlight (state w) = false ->
  self_highlight (state (View.fire ev w)) = false.
Proof.
  intros Hev Hself. unfold View.fire.
  destruct ev; try discriminate Hev; simpl.
  - destruct (draggedItem (state w)) eqn:Ed; exact Hself.
  - exact Hself.
  - destruct (nth_error (folders (state w)) row) as [f|]; [|exact Hself].
    unfold Dashboard.handleDragOverItem. simpl.
    destruct (draggedItem (state w)) as [dragged|] eqn:Ed; [|exact Hself].
    destruct (id_eq (id dragged) (FolderNode.id f)) eqn:E; simpl;
      [exact Hself|].
    unfold self_highlight; simpl. now rewrite Ed.
  - unfold self_highlight; simpl. now destruct (draggedItem (state w)).
Qed.

(** X9.  During a drag that starts while no row is highlighted,
    the highlighted drop target is never the dragged item itself, whatever
    rows and areas the pointer passes over. *)
Theorem drag_never_highlights_dragged_item
  (w : World) (start : View.UIEvent) (hovers : list View.UIEvent) :
  dropTarget (state w) = None ->
  dragstart start = true ->
  forallb View.hover hovers = true ->
  self_highlight (state (View.fire_all (start :: hovers) w)) = false.
Proof.
  intros Hnone Hs Hh. simpl.
  assert (H1 : self_highlight (state (View.fire start w)) = false).
  { unfold View.fire.
    destruct start; try discriminate Hs; simpl;
      match goal with
      | |- context [nth_error ?l ?n] => destruct (nth_error l n)
      end; simpl; unfold self_highlight; simpl; rewrite ?Hnone;
      try reflexivity; now destruct (draggedItem (state w)). }
  revert H1. generalize (View.fire start w). clear w Hnone Hs.
  induction hovers as [|ev hovers IH]; simpl; intros w H; [exact H|].
  apply andb_true_iff in Hh as [Hev Hrest].
  apply (IH Hrest). now apply hover_keeps_highlight.
Qed.

Lemma drag_highlight_witness :
  dropTarget (state Sample.loaded) = None
  /\ dragstart (View.FolderRowDragStart 1) = true
  /\ forallb View.hover
       [View.FolderRowDragOver 0; View.FolderRowDragOver 1] = true
  /\ dropTarget
       (state (View.fire_all
                 [View.FolderRowDragStart 1; View.FolderRowDragOver 0;
                  View.FolderRowDragOver 1] Sample.loaded))
     = Some (FolderNode.id Sample.folderA)
  /\ self_highlight
       (state (View.fire_all
                 (View.FolderRowDragStart 1
                  :: [View.FolderRowDragOver 0; View.FolderRowDragOver 1])
                 Sample.loaded)) = false.
Proof.
  split; [reflexivity|]. split; [reflexivity|]. split; [reflexivity|].
  split; [reflexivity|].
  apply (@drag_never_highlights_dragged_item Sample.loaded
           (View.FolderRowDragStart 1)
           [View.FolderRowDragOver 0; View.FolderRowDragOver 1]);
    reflexivity.
Defined.

(* ================================================================== *)
(** * Properties: creating a folder, the two outcomes *)
(* ================================================================== *)

(** X10.  With a name that is not blank, the submit button of the
    dialog sends one create request that carries the name exactly as typed
    (the trimmed name is used for the test only) and the current folder as
    parent, and changes nothing else yet.  When the request is fulfilled
    the name is emptied, the dialog closed and the folder tree and the
    stats, not the file list, are asked for again; when it is rejected the
    dialog stays open with the name as typed, nothing is reloaded, and the
    toast shows the server's detail when there is one that is not empty,
    the translated text otherwise.  Every turn of the event loop after the
    click is one of these two settlements. *)
Theorem create_folder_sends_name_as_typed
  (w : World) :
  inflight w = [] ->
  showFolderDialog (state w) = true ->
  forallb isWhiteSpace (newFolderName (state w)) = false ->
  trace (View.fire View.CreateFolderSubmitClick w)
  = trace w
    ++ [Sent (PostFoldersCreate (newFolderName (state w))
                (currentFolder (state w)))]
  /\ state (View.fire View.CreateFolderSubmitClick w) = state w
  /\ (forall o : Outcome unit,
         exists w2 : World,
           answer_create o (View.fire View.CreateFolderSubmitClick w) = Some w2
           /\ match o with
              | Fulfilled _ =>
                  newFolderName (state w2) = []
                  /\ showFolderDialog (state w2) = false
                  /\ files (state w2) = files (state w)
                  /\ trace w2
                     = trace w
                       ++ [Sent (PostFoldersCreate (newFolderName (state w))
                                   (currentFolder (state w)));
                           ToastSuccess (Translated "folderCreated");
                           Sent GetFoldersTree; Sent GetUserStats]
                  /\ List.length (inflight w2) = 2
              | Rejected detail =>
                  state w2 = state w
                  /\ inflight w2 = []
                  /\ trace w2
                     = trace w
                       ++ [Sent (PostFoldersCreate (newFolderName (state w))
                                   (currentFolder (state w)));
                           ToastError
                             match detail with
                             | Some (c :: d) => Detail (c :: d)
                             | _ => Translated "folderCreateFailed"
                             end]
              end)
  /\ (forall w2 : World,
         step (View.fire View.CreateFolderSubmitClick w) w2 ->
         exists o : Outcome unit,
           answer_create o (View.fire View.CreateFolderSubmitClick w)
           = Some w2).
Proof.
  intros Hpool Hopen Hname.
  destruct w as [s pool tr]; simpl in *. subst pool.
  unfold View.fire; simpl. rewrite Hopen.
  unfold Dashboard.handleCreateFolder. rewrite truthy_trim, Hname. simpl.
  split; [reflexivity|]. split; [reflexivity|]. split.
  - intros [[]|detail]; eexists; (split; [reflexivity|]); simpl.
    + repeat split. now rewrite <- !app_assoc.
    + repeat split. rewrite <- !app_assoc. simpl.
      destruct detail as [[|c d]|]; reflexivity.
  - intros w2 H.
    eapply step_single_inv in H; [|reflexivity]. simpl in H.
    destruct H as [o ->]. exists o. reflexivity.
Qed.

(** The name " a " is typed and submitted, and the server answers that
    the folder exists. *)
Lemma create_folder_as_typed_witness :
  inflight (View.fire_all [View.FolderDialogOpenChange true;
                           View.FolderNameChange (lit " a ")] Sample.loaded)
  = []
  /\ forallb isWhiteSpace (lit " a ") = false
  /\ trace (View.fire_all [View.FolderDialogOpenChange true;
                           View.FolderNameChange (lit " a ");
                           View.CreateFolderSubmitClick] Sample.loaded)
     = trace Sample.loaded ++ [Sent (PostFoldersCreate (lit " a ") None)]
  /\ exists w2 : World,
       answer_create (Rejected (Some (lit "Folder exists")))
         (View.fire_all [View.FolderDialogOpenChange true;
                         View.FolderNameChange (lit " a ");
                         View.CreateFolderSubmitClick] Sample.loaded)
       = Some w2
       /\ trace w2
          = trace Sample.loaded
            ++ [Sent (PostFoldersCreate (lit " a ") None);
                ToastError (Detail (lit "Folder exists"))].
Proof.
  pose proof (@create_folder_sends_name_as_typed
                (View.fire_all [View.FolderDialogOpenChange true;
                                View.FolderNameChange (lit " a ")]
                   Sample.loaded)
                eq_refl eq_refl eq_refl) as H.
  split; [reflexivity|]. split; [reflexivity|].
  split; [exact (proj1 H)|].
  destruct (proj1 (proj2 (proj2 H)) (Rejected (Some (lit "Folder exists"))))
    as (w2 & Hw2 & _ & _ & Htrace).
  exists w2. split; [exact Hw2|exact Htrace].
Defined.

(* ================================================================== *)
(** * Properties: the strength indicator and the validator *)
(* ================================================================== *)

(** X11.  The indicator and the validator count the same four
    rules: the number of requirements the indicator shows as passed and
    the number of errors [validatePassword] returns add up to four, so the
    registration form accepts a password exactly when the indicator says
    Strong. *)
Theorem indicator_agrees_with_validator (p : jsstring) :
  PasswordStrengthIndicator.passed p
  + List.length (Login.validatePassword p) = 4
  /\ (PasswordStrengthIndicator.getStrength p = PasswordStrengthIndicator.Strong
      <-> Login.validatePassword p = []).
Proof.
  unfold PasswordStrengthIndicator.getStrength,
    PasswordStrengthIndicator.passed, Login.validatePassword; simpl.
  rewrite Z.leb_antisym.
  destruct (strlen p <? 8)%Z, (test_class Login.upper p),
    (test_class Login.lower p), (test_class Login.special p);
    simpl; (split; [reflexivity|]); split; intro H;
    try reflexivity; discriminate H.
Qed.

Lemma test_class_app (cls : N -> bool) (p q : jsstring) :
  test_class cls p = true -> test_class cls (p ++ q) = true.
Proof.
  unfold test_class. intro H. rewrite existsb_app, H. reflexivity.
Qed.

Lemma requirement_monotone (req : PasswordStrengthIndicator.Requirement)
  (p q : jsstring) :
  In req PasswordStrengthIndicator.requirements ->
  PasswordStrengthIndicator.test req p = true ->
  PasswordStrengthIndicator.test req (p ++ q) = true.
Proof.
  intros Hin H. simpl in Hin.
  destruct Hin as [<-|[<-|[<-|[<-|[]]]]]; simpl in *.
  - unfold strlen in *. rewrite length_app.
    apply Z.leb_le in H. apply Z.leb_le. lia.
  - now apply test_class_app.
  - now apply test_class_app.
  - now apply test_class_app.
Qed.

Lemma filter_length_monotone {X : Type} (f g : X -> bool) (l : list X) :
  (forall x, In x l -> f x = true -> g x = true) ->
  List.length (filter f l) <= List.length (filter g l).
Proof.
  induction l as [|x l IH]; simpl; intro H; [lia|].
  assert (IH' : List.length (filter f l) <= List.length (filter g l))
    by (apply IH; intros; apply H; auto).
  destruct (f x) eqn:F.
  - rewrite (H x (or_introl eq_refl) F). simpl. lia.
  - destruct (g x); simpl; lia.
Qed.

(** X12.  Typing more characters at the end of a password never
    fails a rule that passed: the number of passed requirements does not
    go down, and every error [validatePassword] returns for the longer
    password was already returned for the shorter one. *)
Theorem typing_more_never_lowers_strength (p q : jsstring) :
  PasswordStrengthIndicator.passed p
  <= PasswordStrengthIndicator.passed (p ++ q)
  /\ incl (Login.validatePassword (p ++ q)) (Login.validatePassword p).
Proof.
  split.
  - unfold PasswordStrengthIndicator.passed.
    apply filter_length_monotone.
    intros req Hin. now apply requirement_monotone.
  - unfold Login.validatePassword.
    pose proof (@requirement_monotone _ p q (or_introl eq_refl)) as Hl.
    pose proof (@test_class_app Login.upper p q) as Hu.
    pose proof (@test_class_app Login.lower p q) as Hw.
    pose proof (@test_class_app Login.special p q) as Hs.
    simpl in Hl. rewrite !Z.leb_antisym in Hl.
    destruct (strlen p <? 8)%Z, (test_class Login.upper p),
      (test_class Login.lower p), (test_class Login.special p);
      simpl in *;
      rewrite ?(Hu eq_refl), ?(Hw eq_refl), ?(Hs eq_refl);
      try (apply negb_true_iff in Hl; [rewrite Hl|reflexivity]);
      simpl;
      repeat match goal with
             | |- context [if ?b then _ else _] => destruct b
             end;
      simpl; intros e He; simpl in *; tauto.
Qed.

(* ================================================================== *)
(** * Properties: routes and the admin panel *)
(* ================================================================== *)

Lemma id_eq_refl (a : JsId) : id_eq a a = true.
Proof. destruct a; simpl; [apply Z.eqb_refl|apply streq_refl]. Qed.

(** X13.  Once the session has been read ([loading] is false), every
    path ends, after two redirects at most, on a page, never in a redirect
    loop; and the page is one the user may see: the login page exactly
    when there is no user, the admin panel only for a user whose role is
    "admin", plugin management only for a super admin. *)
Theorem routes_end_on_an_allowed_page
  (user : option App.User) (path : App.Path) :
  exists page : App.Element,
    App.screen 2 false user path = Some page
    /\ page <> App.Loading
    /\ (forall to, page <> App.Navigate to)
    /\ (page = App.LoginPage <-> user = None)
    /\ (page = App.AdminPanel ->
        exists u, user = Some u /\ App.role u = lit "admin")
    /\ (page = App.PluginManagement ->
        exists u, user = Some u /\ App.is_super_admin u = true).
Proof.
  destruct user as [u|].
  - destruct (App.is_admin u) eqn:Ea, (App.is_super_admin u) eqn:Es;
      destruct path; simpl; rewrite ?Ea, ?Es; simpl;
      eexists; (split; [reflexivity|]);
      (split; [discriminate|]); (split; [discriminate|]);
      (split; [split; discriminate|]);
      split; intro H; try discriminate H;
      exists u; split; try reflexivity; try assumption;
      now apply streq_eq.
  - destruct path; simpl; eexists; (split; [reflexivity|]);
      (split; [discriminate|]); (split; [discriminate|]);
      (split; [split; reflexivity|]);
      split; discriminate.
Qed.

(** X14.  The dashboard shows the button to the admin panel exactly
    to the users the admin route lets in. *)
Theorem admin_button_matches_admin_route (user : option App.User) :
  App.admin_button_shown user = true
  <-> App.element false user App.admin = App.AdminPanel.
Proof.
  destruct user as [u|]; simpl.
  - destruct (App.is_admin u); simpl; split; intro H;
      try reflexivity; discriminate H.
  - split; discriminate.
Qed.

(** X15.  In the admin panel no row of a super admin offers any action,
    a delete button is only offered where the role and password buttons
    are, never on the viewer's own row; and a viewer the admin route lets
    in is offered no action at all on the row that describes themselves. *)
Theorem admin_panel_offers_nothing_on_own_row
  (user : App.User) (u : AdminPanel.Row) :
  (AdminPanel.is_super_admin u = true ->
   AdminPanel.manage_shown user u = false
   /\ AdminPanel.delete_shown user u = false)
  /\ (AdminPanel.delete_shown user u = true ->
      AdminPanel.manage_shown user u = true
      /\ id_eq (AdminPanel.id u) (App.id user) = false)
  /\ (App.element false (Some user) App.admin = App.AdminPanel ->
      AdminPanel.manage_shown user (AdminPanel.row_of user) = false
      /\ AdminPanel.delete_shown user (AdminPanel.row_of user) = false).
Proof.
  unfold AdminPanel.manage_shown, AdminPanel.delete_shown.
  split; [|split].
  - intros ->. split; reflexivity.
  - destruct (AdminPanel.is_super_admin u), (id_eq _ _), (streq _ _),
      (App.is_super_admin user); simpl; intro H;
      try discriminate H; split; reflexivity.
  - simpl. unfold App.is_admin. rewrite id_eq_refl.
    destruct (streq (App.role user) (lit "admin")),
      (App.is_super_admin user); simpl; intro H;
      try discriminate H; split; reflexivity.
Qed.

(* ================================================================== *)
(** * Properties: registering *)
(* ================================================================== *)

Lemma strong_iff_no_error (p : jsstring) :
  PasswordStrengthIndicator.getStrength p = PasswordStrengthIndicator.Strong
  <-> Login.validatePassword p = [].
Proof.
  unfold PasswordStrengthIndicator.getStrength,
    PasswordStrengthIndicator.passed, Login.validatePassword; simpl.
  rewrite Z.leb_antisym.
  destruct (strlen p <? 8)%Z, (test_class Login.upper p),
    (test_class Login.lower p), (test_class Login.special p);
    simpl; split; intro H; try reflexivity; discriminate H.
Qed.

(** X16.  Submitting the register form sends the registration
    request exactly when the strength indicator shows Strong for the
    password and the confirmation equals it.  Otherwise nothing is sent
    and [loading] is untouched; an error is shown instead, the validator's
    messages when the password is weak, also when the confirmation
    differs as well, and the mismatch message only for a strong
    password. *)
Theorem register_asks_only_for_strong_matching_password
  (s : LoginPage.State) :
  (existsb LoginPage.asked_register
     (Async.log (LoginPage.submit_register (LoginPage.page_of s))) = true
   <-> PasswordStrengthIndicator.getStrength
         (RegisterData.password (LoginPage.registerData s))
       = PasswordStrengthIndicator.Strong
       /\ RegisterData.password (LoginPage.registerData s)
          = RegisterData.confirm_password (LoginPage.registerData s))
  /\ (existsb LoginPage.asked_register
        (Async.log (LoginPage.submit_register (LoginPage.page_of s))) = false ->
      Async.pending (LoginPage.submit_register (LoginPage.page_of s)) = []
      /\ LoginPage.loading
           (Async.cells (LoginPage.submit_register (LoginPage.page_of s)))
         = LoginPage.loading s
      /\ LoginPage.registerErrors
           (Async.cells (LoginPage.submit_register (LoginPage.page_of s)))
         = match Login.validatePassword
                   (RegisterData.password (LoginPage.registerData s)) with
           | [] => {| LoginPage.password := None;
                      LoginPage.confirm := Some "Passwords do not match"%string |}
           | errors => {| LoginPage.password := Some errors;
                          LoginPage.confirm := None |}
           end).
Proof.
  rewrite strong_iff_no_error.
  unfold LoginPage.submit_register, LoginPage.page_of,
    LoginPage.handleRegister; simpl.
  destruct (Login.validatePassword
              (RegisterData.password (LoginPage.registerData s)))
    as [|e es]; simpl.
  - destruct (streq (RegisterData.password (LoginPage.registerData s))
                (RegisterData.confirm_password (LoginPage.registerData s)))
      eqn:E; simpl.
    + apply streq_eq in E. split; [split; auto|discriminate].
    + apply streq_false in E. split; [|auto].
      split; [discriminate|]. intros [_ H]. contradiction.
  - split; [|auto]. split; [discriminate|]. intros [H _]. discriminate H.
Qed.

(** X17.  When the register form passes its checks, whatever the
    server answers the handler ends with nothing pending and [loading]
    false.  The token and the user are stored, and the application's user
    set, only when both the registration and the login that follows it
    are fulfilled; when the registration is rejected no login is asked
    for; and when the account was created but the login is rejected, the
    page shows the registration-failed toast and stores nothing. *)
Theorem register_opens_session_only_after_both_succeed
  (b : LoginPage.Server) (s : LoginPage.State) :
  Login.validatePassword (RegisterData.password (LoginPage.registerData s))
  = [] ->
  RegisterData.password (LoginPage.registerData s)
  = RegisterData.confirm_password (LoginPage.registerData s) ->
  Async.pending (LoginPage.register b s) = []
  /\ LoginPage.loading (Async.cells (LoginPage.register b s)) = false
  /\ match b _ (LoginPage.PostRegister
                  (RegisterData.username (LoginPage.registerData s))
                  (RegisterData.email (LoginPage.registerData s))
                  (RegisterData.password (LoginPage.registerData s))),
           b _ (LoginPage.PostLogin
                  (RegisterData.username (LoginPage.registerData s))
                  (RegisterData.password (LoginPage.registerData s)))
     with
     | Fulfilled _, Fulfilled r =>
         LoginPage.stored_token (Async.cells (LoginPage.register b s))
         = Some (LoginPage.token r)
         /\ LoginPage.stored_user (Async.cells (LoginPage.register b s))
            = Some (LoginPage.user r)
         /\ LoginPage.app_user (Async.cells (LoginPage.register b s))
            = Some (LoginPage.user r)
         /\ existsb LoginPage.toasted_error
              (Async.log (LoginPage.register b s)) = false
     | Fulfilled _, Rejected detail =>
         LoginPage.stored_token (Async.cells (LoginPage.register b s))
         = LoginPage.stored_token s
         /\ LoginPage.stored_user (Async.cells (LoginPage.register b s))
            = LoginPage.stored_user s
         /\ LoginPage.app_user (Async.cells (LoginPage.register b s))
            = LoginPage.app_user s
         /\ last (Async.log (LoginPage.register b s))
              (Async.Did _ LoginPage.preventDefault)
            = Async.Did _ (LoginPage.SetLoading false)
         /\ In (Async.Did _
                  (LoginPage.toast_error
                     (detail_or detail (Translated "registerFailed"))))
              (Async.log (LoginPage.register b s))
     | Rejected detail, _ =>
         existsb LoginPage.asked_login
           (Async.log (LoginPage.register b s)) = false
         /\ LoginPage.stored_token (Async.cells (LoginPage.register b s))
            = LoginPage.stored_token s
         /\ LoginPage.app_user (Async.cells (LoginPage.register b s))
            = LoginPage.app_user s
         /\ In (Async.Did _
                  (LoginPage.toast_error
                     (detail_or detail (Translated "registerFailed"))))
              (Async.log (LoginPage.register b s))
     end.
Proof.
  intros Hvalid Hsame.
  unfold LoginPage.register, LoginPage.submit_register, LoginPage.page_of,
    LoginPage.handleRegister; simpl.
  rewrite Hvalid. rewrite <- Hsame, streq_refl. simpl.
  unfold Async.settle_oldest; simpl.
  destruct (b unit _) as [[]|d1]; simpl.
  - unfold Async.settle_oldest; simpl.
    destruct (b LoginPage.Session _) as [r|d2]; simpl.
    + repeat split.
    + repeat split. repeat first [left; reflexivity | right].
  - repeat split. repeat first [left; reflexivity | right].
Qed.

Lemma register_session_witness :
  Async.pending (LoginPage.register Example.login_refused Example.register_form)
  = []
  /\ LoginPage.app_user
       (Async.cells
          (LoginPage.register Example.login_refused Example.register_form))
     = None
  /\ In (Async.Did _
           (LoginPage.toast_error (Detail (lit "Too many attempts"))))
       (Async.log
          (LoginPage.register Example.login_refused Example.register_form)).
Proof.
  pose proof (@register_opens_session_only_after_both_succeed
                Example.login_refused Example.register_form
                eq_refl eq_refl) as H.
  split; [exact (proj1 H)|].
  split; [exact (proj1 (proj2 (proj2 (proj2 (proj2 H)))))|].
  exact (proj2 (proj2 (proj2 (proj2 (proj2 (proj2 H)))))).
Defined.

(* ================================================================== *)
(** * Properties: the password form of the profile page *)
(* ================================================================== *)

Lemma validatePassword_nil_nonempty (p : jsstring) :
  Login.validatePassword p = [] -> p <> [].
Proof. intros H ->. vm_compute in H. discriminate H. Qed.

Lemma segment_harmless (p : ProfileRev1.Prog) :
  ProfileRev1.harmless p ->
  forall pg : ProfileRev1.Page,
    ProfileRev1.passwordData
      (Async.cells (Async.segment ProfileRev1.write p pg))
    = ProfileRev1.passwordData (Async.cells pg)
    /\ ProfileRev1.loading
         (Async.cells (Async.segment ProfileRev1.write p pg))
       = ProfileRev1.loading (Async.cells pg)
    /\ existsb ProfileRev1.asked_change
         (Async.log (Async.segment ProfileRev1.write p pg))
       = existsb ProfileRev1.asked_change (Async.log pg)
    /\ (Forall (fun x => forall o : Outcome (Async.data x),
                   ProfileRev1.harmless (Async.rest x o))
          (Async.pending pg) ->
        Forall (fun x => forall o : Outcome (Async.data x),
                   ProfileRev1.harmless (Async.rest x o))
          (Async.pending (Async.segment ProfileRev1.write p pg))).
Proof.
  induction p as [|a k IH|c IHc k IHk|A r k IH]; simpl; intros Hp pg.
  - repeat split; auto.
  - destruct Hp as [Ha Hk].
    destruct (IH Hk
                {| Async.cells := ProfileRev1.write a (Async.cells pg);
                   Async.pending := Async.pending pg;
                   Async.log := Async.log pg ++ [Async.Did _ a] |})
      as (H1 & H2 & H3 & H4).
    simpl in H1, H2, H3, H4.
    rewrite H1, H2, H3, existsb_app. simpl. rewrite !orb_false_r.
    destruct a; try contradiction; repeat split; auto.
  - destruct Hp as [Hc Hk].
    destruct (IHc Hc pg) as (C1 & C2 & C3 & C4).
    destruct (IHk Hk (Async.segment ProfileRev1.write c pg))
      as (K1 & K2 & K3 & K4).
    repeat split; try congruence. auto.
  - destruct Hp as [Hr Hk].
    rewrite existsb_app. simpl. rewrite Hr, !orb_false_r.
    repeat split.
    intro F. apply Forall_app. split; [exact F|].
    constructor; [exact Hk|constructor].
Qed.

(** What holds of every page the user can bring about. *)
Lemma profile_reachable_invariant (pg : ProfileRev1.Page) :
  ProfileRev1.reachable pg ->
  PasswordData.confirm_password (ProfileRev1.passwordData (Async.cells pg))
  = []
  /\ ProfileRev1.loading (Async.cells pg) = false
  /\ existsb ProfileRev1.asked_change (Async.log pg) = false
  /\ Forall (fun x => forall o : Outcome (Async.data x),
                ProfileRev1.harmless (Async.rest x o))
       (Async.pending pg).
Proof.
  induction 1 as [|ev pg _ (Hc & Hl & Ha & Hp)|pg pg' _ (Hc & Hl & Ha & Hp) Hturn].
  - repeat split.
    constructor; [|constructor]. intros [d|e]; simpl; auto.
  - unfold ProfileRev1.fire.
    destruct ev as [value|value|];
      [simpl|simpl|cbn [ProfileRev1.dispatch]].
    + rewrite Hc, Hl, existsb_app, Ha. simpl. repeat split. exact Hp.
    + rewrite Hc, Hl, existsb_app, Ha. simpl. repeat split. exact Hp.
    + assert (Hh : ProfileRev1.harmless
                     (ProfileRev1.handlePasswordChange (Async.cells pg))).
      { unfold ProfileRev1.handlePasswordChange,
          ProfileRev1.validatePassword.
        rewrite Hc. simpl.
        split; [exact I|]. split; [exact I|].
        destruct (PasswordData.current_password
                    (ProfileRev1.passwordData (Async.cells pg)));
          simpl; [auto|].
        destruct (Login.validatePassword
                    (PasswordData.new_password
                       (ProfileRev1.passwordData (Async.cells pg))))
          as [|e es] eqn:Ev; simpl; [|auto].
        apply validatePassword_nil_nonempty in Ev.
        destruct (PasswordData.new_password
                    (ProfileRev1.passwordData (Async.cells pg)));
          [contradiction|]. simpl. auto. }
      destruct (@segment_harmless _ Hh pg) as (H1 & H2 & H3 & H4).
      rewrite H1, H2, H3. repeat split; auto.
  - destruct Hturn as [pg before after x o Hpend].
    rewrite Hpend in Hp. apply Forall_app in Hp as [Hb Hx].
    inversion Hx as [|x' after' Hxo Hafter]; subst.
    destruct (@segment_harmless _ (Hxo o)
                {| Async.cells := Async.cells pg;
                   Async.pending := before ++ after;
                   Async.log := Async.log pg |}) as (H1 & H2 & H3 & H4).
    rewrite H1, H2, H3. simpl. repeat split; auto.
    apply H4. simpl. apply Forall_app. now split.
Qed.

(** X18.  The first revision of the profile page has inputs for the
    current and for the new password only, while its handler still compares
    the new password with [passwordData.confirm_password].  So from the
    first render on, whatever is typed, whenever the form is submitted and
    however the requests settle, the confirmation is the empty string,
    [loading] is false and no change of password has been asked for; and a
    submit ends in an error, with nothing sent: that the current password
    is required when it is empty, else the messages of the validator for
    the new password, else, for every new password that passes the rules,
    that the passwords do not match. *)
Theorem rev1_password_form_never_sends (pg : ProfileRev1.Page) :
  ProfileRev1.reachable pg ->
  (PasswordData.confirm_password (ProfileRev1.passwordData (Async.cells pg))
   = []
   /\ ProfileRev1.loading (Async.cells pg) = false
   /\ existsb ProfileRev1.asked_change (Async.log pg) = false)
  /\ (ProfileRev1.passwordErrors
        (Async.cells (ProfileRev1.fire ProfileRev1.FormSubmit pg))
      = Some (ProfileRev1.submit_error
                (ProfileRev1.passwordData (Async.cells pg)))
      /\ Async.pending (ProfileRev1.fire ProfileRev1.FormSubmit pg)
         = Async.pending pg
      /\ ProfileRev1.passwordData
           (Async.cells (ProfileRev1.fire ProfileRev1.FormSubmit pg))
         = ProfileRev1.passwordData (Async.cells pg)).
Proof.
  intro Hreach.
  destruct (profile_reachable_invariant Hreach) as (Hc & Hl & Ha & _).
  split; [repeat split; assumption|].
  unfold ProfileRev1.fire, ProfileRev1.submit_error; simpl.
  unfold ProfileRev1.handlePasswordChange, ProfileRev1.validatePassword.
  rewrite Hc. simpl.
  destruct (PasswordData.current_password
              (ProfileRev1.passwordData (Async.cells pg)));
    simpl; [repeat split|].
  destruct (Login.validatePassword
              (PasswordData.new_password
                 (ProfileRev1.passwordData (Async.cells pg))))
    as [|e es] eqn:Ev; simpl; [|repeat split].
  apply validatePassword_nil_nonempty in Ev.
  destruct (PasswordData.new_password
              (ProfileRev1.passwordData (Async.cells pg)));
    [contradiction|]. simpl. repeat split.
Qed.

(** Two good passwords are typed and the form is submitted twice: the
    second submit, like the first, sends nothing and says that the
    passwords do not match. *)
Lemma rev1_password_form_witness :
  ProfileRev1.reachable Example.password_submitted
  /\ existsb ProfileRev1.asked_change (Async.log Example.password_submitted)
     = false
  /\ ProfileRev1.passwordErrors
       (Async.cells
          (ProfileRev1.fire ProfileRev1.FormSubmit Example.password_submitted))
     = Some (ProfileRev1.confirm_error "Passwords do not match").
Proof.
  assert (R : ProfileRev1.reachable Example.password_submitted).
  { repeat apply ProfileRev1.reach_gesture. apply ProfileRev1.reach_mount. }
  pose proof (@rev1_password_form_never_sends Example.password_submitted R)
    as H.
  split; [exact R|].
  split; [exact (proj2 (proj2 (proj1 H)))|].
  exact (proj1 (proj2 H)).
Defined.

(* ================================================================== *)
(** * Properties: the list typed in the text area of the plugin page *)
(* ================================================================== *)

(** The string starts with a code unit that is not white space, or is
    empty. *)
Lemma trimStart_fixed (s : jsstring) :
  trimStart s = s
  <-> match s with [] => True | c :: _ => isWhiteSpace c = false end.
Proof.
  destruct s as [|c r]; simpl; [split; auto|].
  destruct (isWhiteSpace c) eqn:E; split; intro H;
    try reflexivity; try discriminate H.
  exfalso.
  assert (L : forall t : jsstring, (List.length (trimStart t) <= List.length t)%nat).
  { induction t as [|d t IH]; simpl; [lia|].
    destruct (isWhiteSpace d); simpl; lia. }
  specialize (L r). rewrite H in L. simpl in L. lia.
Qed.

Lemma trimStart_idem (s : jsstring) : trimStart (trimStart s) = trimStart s.
Proof.
  induction s as [|c r IH]; simpl; [reflexivity|].
  destruct (isWhiteSpace c) eqn:E; [exact IH|].
  simpl. now rewrite E.
Qed.

Lemma trimStart_suffix (s : jsstring) : exists pre, s = pre ++ trimStart s.
Proof.
  induction s as [|c r [pre IH]]; simpl.
  - now exists [].
  - destruct (isWhiteSpace c).
    + exists (c :: pre). simpl. now rewrite <- IH.
    + now exists [].
Qed.

Lemma trimStart_app (a b : jsstring) :
  forallb isWhiteSpace a = false -> trimStart (a ++ b) = trimStart a ++ b.
Proof.
  induction a as [|c a IH]; simpl; [discriminate|].
  destruct (isWhiteSpace c); simpl; [exact IH|reflexivity].
Qed.

(** Trimming twice is trimming once. *)
Lemma trim_idem (s : jsstring) : trim (trim s) = trim s.
Proof.
  unfold trim, trimEnd.
  set (t := trimStart s).
  set (u := trimStart (rev t)).
  assert (Hu : trimStart (rev u) = rev u).
  { apply trimStart_fixed.
    destruct (trimStart_suffix (rev t)) as [pre Hpre]. fold u in Hpre.
    assert (Ht : t = rev u ++ rev pre).
    { rewrite <- (rev_involutive t), Hpre, rev_app_distr. reflexivity. }
    assert (Hfix : trimStart t = t) by apply trimStart_idem.
    apply trimStart_fixed in Hfix. rewrite Ht in Hfix.
    destruct (rev u); [exact I|exact Hfix]. }
  rewrite Hu, rev_involutive. unfold u at 1. now rewrite trimStart_idem.
Qed.

Lemma trim_cons_ws (c : N) (s : jsstring) :
  isWhiteSpace c = true -> trim (c :: s) = trim s.
Proof. intro H. unfold trim. simpl. now rewrite H. Qed.

Lemma trim_snoc_ws (c : N) (s : jsstring) :
  isWhiteSpace c = true -> trim (s ++ [c]) = trim s.
Proof.
  intro H. destruct (forallb isWhiteSpace s) eqn:E.
  - assert (E' : forallb isWhiteSpace (s ++ [c]) = true).
    { rewrite forallb_app, E. simpl. now rewrite H. }
    apply trim_nil_iff in E, E'. congruence.
  - unfold trim, trimEnd. rewrite (@trimStart_app s [c] E), rev_app_distr.
    simpl. now rewrite H.
Qed.

(** What [trim] keeps was in the string. *)
Lemma trim_keeps_only (s : jsstring) (f : N -> bool) :
  forallb f s = true -> forallb f (trim s) = true.
Proof.
  intro H. unfold trim, trimEnd. rewrite forallb_rev_eq.
  assert (S : forall t : jsstring,
             forallb f t = true -> forallb f (trimStart t) = true).
  { intros t Ht. destruct (trimStart_suffix t) as [pre Hpre].
    rewrite Hpre, forallb_app in Ht. now apply andb_true_iff in Ht. }
  apply S. rewrite forallb_rev_eq. now apply S.
Qed.

(** No piece of a split holds the separator. *)
Lemma split_go_pieces (sep : N) (s : jsstring) :
  forall cur : jsstring,
    forallb (fun c => negb (N.eqb c sep)) cur = true ->
    Forall (fun p => forallb (fun c => negb (N.eqb c sep)) p = true)
      (split_go sep cur s).
Proof.
  induction s as [|c s IH]; intros cur Hcur; simpl.
  - constructor; [|constructor]. now rewrite forallb_rev_eq.
  - destruct (N.eqb c sep) eqn:E.
    + constructor; [now rewrite forallb_rev_eq|]. now apply IH.
    + apply IH. simpl. now rewrite E.
Qed.

(** A last code unit that is not the separator stays in the last piece. *)
Lemma split_go_snoc (sep c : N) (s : jsstring) :
  N.eqb c sep = false ->
  forall cur : jsstring,
  exists init last,
    split_go sep cur s = init ++ [last]
    /\ split_go sep cur (s ++ [c]) = init ++ [last ++ [c]].
Proof.
  intro Hc. induction s as [|d s IH]; intro cur; simpl.
  - rewrite Hc. simpl. now exists [], (rev cur).
  - destruct (N.eqb d sep).
    + destruct (IH []) as [init [last [H1 H2]]].
      exists (rev cur :: init), last. simpl. now rewrite H1, H2.
    + apply IH.
Qed.

Lemma isWhiteSpace_not_comma (c : N) :
  isWhiteSpace c = true -> N.eqb c 44 = false.
Proof.
  intro H. destruct (N.eqb_spec c 44) as [->|]; [discriminate H|reflexivity].
Qed.

Lemma parse_extensions_like (value : jsstring) :
  Forall PluginManagement.extension_like
    (PluginManagement.parse_extensions value).
Proof.
  unfold PluginManagement.parse_extensions, split.
  apply Forall_forall. intros e He.
  apply filter_In in He as [He Ht].
  apply in_map_iff in He as [p [<- Hp]].
  pose proof (@split_go_pieces 44 value [] eq_refl) as F.
  rewrite Forall_forall in F. specialize (F p Hp).
  split; [|split].
  - intro E. rewrite E in Ht. discriminate Ht.
  - apply trim_idem.
  - now apply trim_keeps_only.
Qed.

(** X20.  Whatever is typed in the text area, every entry of the list
    stored for it is not empty, has no white space at either end and no
    comma; in particular the list never holds an empty extension, however
    many commas are typed in a row. *)
Theorem parsed_extensions_are_extension_like (value : jsstring) :
  Forall PluginManagement.extension_like
    (PluginManagement.parse_extensions value)
  /\ ~ In [] (PluginManagement.parse_extensions value).
Proof.
  split; [apply parse_extensions_like|].
  intro H. pose proof (parse_extensions_like value) as F.
  rewrite Forall_forall in F. destruct (F [] H) as [Hne _].
  now apply Hne.
Qed.

Lemma split_go_join_str (r : list jsstring) :
  Forall PluginManagement.extension_like r ->
  forall (x cur : jsstring),
    forallb (fun c => negb (N.eqb c 44)) x = true ->
    split_go 44 cur (join_str [44; 32]%N (x :: r))
    = (rev cur ++ x) :: map (cons 32%N) r.
Proof.
  induction 1 as [|y r Hy Hr IH]; intros x cur Hx.
  - simpl. now apply split_go_no_sep.
  - change (join_str [44; 32]%N (x :: y :: r))
      with (x ++ 44%N :: 32%N :: join_str [44; 32]%N (y :: r)).
    rewrite split_go_app, (@split_go_no_sep 44 x cur Hx).
    change (split_go 44 [] (32%N :: join_str [44; 32]%N (y :: r)))
      with (split_go 44 [32%N] (join_str [44; 32]%N (y :: r))).
    rewrite IH by apply Hy. reflexivity.
Qed.

Lemma parse_cons_space (r : list jsstring) :
  Forall PluginManagement.extension_like r ->
  filter truthy_string (map trim (map (cons 32%N) r)) = r.
Proof.
  induction 1 as [|y r [Hne [Ht _]] _ IH]; [reflexivity|].
  simpl map. rewrite trim_cons_ws by reflexivity. rewrite Ht.
  simpl. destruct y; [contradiction|]. simpl. now rewrite IH.
Qed.

Lemma parse_show_extensions (exts : list jsstring) :
  Forall PluginManagement.extension_like exts ->
  PluginManagement.parse_extensions (PluginManagement.show_extensions exts)
  = exts.
Proof.
  intro H. unfold PluginManagement.parse_extensions,
    PluginManagement.show_extensions, split.
  destruct H as [|x r [Hne [Ht Hx]] Hr]; [reflexivity|].
  rewrite (@split_go_join_str r Hr x [] Hx).
  simpl map. simpl rev. simpl app. rewrite Ht.
  simpl. destruct x; [contradiction|]. simpl.
  now rewrite parse_cons_space.
Qed.

(** X21.  The list shown in the text area reads back as itself:
    for a list of entries that are not empty, trimmed and free of commas,
    parsing the joined text gives the list again; and whatever was typed,
    the text the area shows for the stored list reads back as that
    list. *)
Theorem shown_extensions_parse_back :
  (forall exts : list jsstring,
      Forall PluginManagement.extension_like exts ->
      PluginManagement.parse_extensions
        (PluginManagement.show_extensions exts)
      = exts)
  /\ (forall value : jsstring,
         PluginManagement.parse_extensions
           (PluginManagement.show_extensions
              (PluginManagement.parse_extensions value))
         = PluginManagement.parse_extensions value).
Proof.
  split; [apply parse_show_extensions|].
  intro value. apply parse_show_extensions, parse_extensions_like.
Qed.

Lemma shown_extensions_witness :
  Forall PluginManagement.extension_like [lit "exe"; lit ".tar.gz"]
  /\ PluginManagement.show_extensions [lit "exe"; lit ".tar.gz"]
     = lit "exe, .tar.gz"
  /\ PluginManagement.parse_extensions (lit "exe, .tar.gz")
     = [lit "exe"; lit ".tar.gz"].
Proof.
  assert (F : Forall PluginManagement.extension_like
                [lit "exe"; lit ".tar.gz"]).
  { repeat constructor; discriminate. }
  split; [exact F|]. split; [reflexivity|].
  exact (proj1 shown_extensions_parse_back _ F).
Defined.

(** A comma or a white space at the end of the text changes nothing in
    the list read from it. *)
Lemma parse_extensions_snoc (value : jsstring) (c : N) :
  c = 44%N \/ isWhiteSpace c = true ->
  PluginManagement.parse_extensions (value ++ [c])
  = PluginManagement.parse_extensions value.
Proof.
  unfold PluginManagement.parse_extensions, split. intros [->|Hc].
  - rewrite split_go_app. simpl split_go.
    rewrite map_app, filter_app. simpl. apply app_nil_r.
  - destruct (@split_go_snoc 44 c value (@isWhiteSpace_not_comma c Hc) [])
      as [init [last [H1 H2]]].
    rewrite H1, H2, !map_app. simpl map.
    now rewrite (@trim_snoc_ws c last Hc).
Qed.

(** X22.  While the settings of the filter are being edited and the
    list held for them is one the text area can hold, a comma or a white
    space typed at the end of the text the area shows is lost: the change
    handler stores the same list again, so the cells of the page, and with
    them the text shown, stay as they were. *)
Theorem textarea_drops_trailing_separator
  (pg : PluginManagement.Page) (row : nat) (editing : Plugin.t) (c : N) :
  PluginManagement.editingPlugin (Async.cells pg) = Some editing ->
  Forall PluginManagement.extension_like
    (Settings.blocked_extensions (Plugin.settings editing)) ->
  c = 44%N \/ isWhiteSpace c = true ->
  Async.cells
    (PluginManagement.fire
       (PluginManagement.TextareaChange row
          (PluginManagement.show_extensions
             (Settings.blocked_extensions (Plugin.settings editing)) ++ [c]))
       pg)
  = Async.cells pg.
Proof.
  intros He Hexts Hc.
  unfold PluginManagement.fire, PluginManagement.dispatch.
  destruct (PluginManagement.loading (Async.cells pg)); [reflexivity|].
  destruct (nth_error _ row) as [p|]; [|reflexivity].
  rewrite He.
  destruct (PluginManagement.is_file_type_filter p
            && PluginManagement.editing_this (Async.cells pg) p);
    [|reflexivity].
  cbn [Async.segment Async.cells PluginManagement.write].
  unfold PluginManagement.with_extensions.
  rewrite (@parse_extensions_snoc _ c Hc),
    (@parse_show_extensions _ Hexts).
  destruct pg as [[ps l e] pend lg]. simpl in *. subst e.
  destruct editing as [n en [exts d]]. reflexivity.
Qed.

Lemma textarea_trailing_witness :
  Async.cells
    (PluginManagement.fire
       (PluginManagement.TextareaChange 0 (lit "exe, bat,"))
       (PluginManagement.fire (PluginManagement.EditClick 0)
          Example.plugin_page))
  = Async.cells
      (PluginManagement.fire (PluginManagement.EditClick 0)
         Example.plugin_page).
Proof.
  refine (@textarea_drops_trailing_separator
            (PluginManagement.fire (PluginManagement.EditClick 0)
               Example.plugin_page)
            0 Example.filter_on 44%N eq_refl _ (or_introl eq_refl)).
  repeat constructor; discriminate.
Defined.

(* ================================================================== *)
(** * Properties: saving the settings of a plugin *)
(* ================================================================== *)

Lemma closes_only_is_later (p : PluginManagement.Prog) :
  PluginManagement.closes_only p -> PluginManagement.closes_only_later p.
Proof.
  induction p as [|a k IH|c IHc k IHk|A r k IH]; simpl; auto.
  - intros [_ H]. auto.
  - intros [Hc Hk]. auto.
Qed.

(** What a segment puts in the pool. *)
Lemma segment_pool_closes_only (p : PluginManagement.Prog) :
  PluginManagement.closes_only_later p ->
  forall pg : PluginManagement.Page,
    PluginManagement.pool_closes_only (Async.pending pg) ->
    PluginManagement.pool_closes_only
      (Async.pending (Async.segment PluginManagement.write p pg)).
Proof.
  induction p as [|a k IH|c IHc k IHk|A r k IH]; simpl; intros Hp pg F.
  - exact F.
  - apply IH; [exact Hp|exact F].
  - destruct Hp as [Hc Hk]. apply IHk; [exact Hk|]. now apply IHc.
  - apply Forall_app. split; [exact F|].
    constructor; [exact Hp|constructor].
Qed.

(** What a segment that closes only does to the plugin being edited. *)
Lemma segment_closes_only (n : jsstring) (en : bool)
  (p : PluginManagement.Prog) :
  PluginManagement.closes_only p ->
  forall pg : PluginManagement.Page,
    PluginManagement.editing_as n en (Async.cells pg) ->
    PluginManagement.editing_as n en
      (Async.cells (Async.segment PluginManagement.write p pg)).
Proof.
  induction p as [|a k IH|c IHc k IHk|A r k IH]; simpl; intros Hp pg He.
  - exact He.
  - destruct Hp as [Ha Hk]. apply IH; [exact Hk|].
    unfold PluginManagement.editing_as in *. simpl.
    destruct a as [v|v|[e|]|m|m]; simpl; try exact He; [contradiction|exact I].
  - destruct Hp as [Hc Hk]. apply IHk; [exact Hk|]. now apply IHc.
  - exact He.
Qed.

Lemma loadPlugins_closes_only :
  PluginManagement.closes_only PluginManagement.loadPlugins.
Proof. simpl. split; [exact I|]. intros [data|detail]; simpl; auto. Qed.

Lemma togglePlugin_closes_only (pluginName : jsstring) (currentState : bool) :
  PluginManagement.closes_only
    (PluginManagement.togglePlugin pluginName currentState).
Proof.
  simpl. intros [[]|detail]; simpl; auto.
  split; [exact I|]. split; [|exact I]. split; [exact I|].
  intros [data|detail]; simpl; auto.
Qed.

Lemma updatePluginSettings_closes_only (s : PluginManagement.State)
  (pluginName : jsstring) (new_settings : Settings.t) :
  PluginManagement.closes_only
    (PluginManagement.updatePluginSettings s pluginName new_settings).
Proof.
  unfold PluginManagement.updatePluginSettings.
  destruct (PluginManagement.editingPlugin s); simpl; auto.
  intros [[]|detail]; simpl; auto.
  split; [exact I|]. split; [exact I|]. split; [|exact I].
  split; [exact I|]. intros [data|detail]; simpl; auto.
Qed.

(** Whatever a gesture runs, what it leaves waiting closes only. *)
Lemma dispatch_closes_only_later (s : PluginManagement.State)
  (ev : PluginManagement.UIEvent) :
  PluginManagement.closes_only_later (PluginManagement.dispatch s ev).
Proof.
  unfold PluginManagement.dispatch.
  destruct (PluginManagement.loading s); [exact I|].
  destruct ev as [row|row|row value|row|row].
  - destruct (nth_error _ row); [|exact I].
    apply closes_only_is_later, togglePlugin_closes_only.
  - destruct (nth_error _ row) as [p|]; [|exact I].
    destruct (_ && _); exact I.
  - destruct (nth_error _ row) as [p|]; [|exact I].
    destruct (PluginManagement.editingPlugin s); [|exact I].
    destruct (_ && _); exact I.
  - destruct (nth_error _ row) as [p|]; [|exact I].
    destruct (PluginManagement.editingPlugin s); [|exact I].
    destruct (_ && _); [|exact I].
    apply closes_only_is_later, updatePluginSettings_closes_only.
  - destruct (nth_error _ row) as [p|]; [|exact I].
    destruct (_ && _); exact I.
Qed.

(** On every page the user can bring about, what is waiting closes
    only. *)
Lemma reachable_pool_closes_only (pg : PluginManagement.Page) :
  PluginManagement.reachable pg ->
  PluginManagement.pool_closes_only (Async.pending pg).
Proof.
  induction 1 as [|ev pg _ IH|pg pg' _ IH Hturn].
  - apply segment_pool_closes_only.
    + apply closes_only_is_later, loadPlugins_closes_only.
    + constructor.
  - apply segment_pool_closes_only; [apply dispatch_closes_only_later|exact IH].
  - destruct Hturn as [pg before after x o Hpend].
    unfold PluginManagement.pool_closes_only in IH.
    rewrite Hpend in IH. apply Forall_app in IH as [Hb Hx].
    inversion Hx as [|x' after' Hxo Ha]; subst.
    apply segment_pool_closes_only.
    + apply closes_only_is_later, Hxo.
    + simpl. apply Forall_app. now split.
Qed.

(** A gesture other than a click on the edit button keeps the name and
    the flag of the plugin being edited, or closes the settings. *)
Lemma fire_keeps_editing_as (n : jsstring) (en : bool)
  (ev : PluginManagement.UIEvent) (pg : PluginManagement.Page) :
  PluginManagement.not_edit ev = true ->
  PluginManagement.editing_as n en (Async.cells pg) ->
  PluginManagement.editing_as n en
    (Async.cells (PluginManagement.fire ev pg)).
Proof.
  intros Hev He.
  unfold PluginManagement.fire, PluginManagement.dispatch.
  destruct (PluginManagement.loading (Async.cells pg)); [exact He|].
  destruct ev as [row|row|row value|row|row]; try discriminate Hev.
  - destruct (nth_error _ row); [|exact He].
    apply segment_closes_only; [apply togglePlugin_closes_only|exact He].
  - destruct (nth_error _ row) as [p|]; [|exact He].
    unfold PluginManagement.editing_as in He |- *.
    destruct (PluginManagement.editingPlugin (Async.cells pg)) as [e|] eqn:E;
      [|simpl; rewrite E; exact I].
    destruct (_ && _); [|simpl; rewrite E; exact He].
    simpl. exact He.
  - destruct (nth_error _ row) as [p|]; [|exact He].
    destruct (PluginManagement.editingPlugin (Async.cells pg)) as [e|] eqn:E;
      [|exact He].
    destruct (_ && _); [|exact He].
    apply segment_closes_only;
      [apply updatePluginSettings_closes_only|exact He].
  - destruct (nth_error _ row) as [p|]; [|exact He].
    destruct (_ && _); [|exact He].
    exact I.
Qed.

(** Once the settings are open, nothing that happens on the page before
    they are opened again changes the name or the [enabled] flag of the
    plugin being edited. *)
Lemma meanwhile_keeps_editing_as (pg pg' : PluginManagement.Page) :
  PluginManagement.meanwhile pg pg' ->
  forall (n : jsstring) (en : bool),
    PluginManagement.editing_as n en (Async.cells pg) ->
    PluginManagement.pool_closes_only (Async.pending pg) ->
    PluginManagement.editing_as n en (Async.cells pg').
Proof.
  induction 1 as [pg|ev pg pg' Hev _ IH|pg pg1 pg' Hturn _ IH];
    intros n en He Hpool.
  - exact He.
  - apply IH.
    + now apply fire_keeps_editing_as.
    + apply segment_pool_closes_only;
        [apply dispatch_closes_only_later|exact Hpool].
  - destruct Hturn as [pg before after x o Hpend].
    unfold PluginManagement.pool_closes_only in Hpool.
    rewrite Hpend in Hpool. apply Forall_app in Hpool as [Hb Hx].
    inversion Hx as [|x' after' Hxo Ha]; subst.
    apply IH.
    + apply segment_closes_only; [apply Hxo|exact He].
    + apply segment_pool_closes_only.
      * apply closes_only_is_later, Hxo.
      * simpl. apply Forall_app. now split.
Qed.

(** Settling the pending requests is something that can happen
    meanwhile, and leads to a page the user can bring about. *)
Lemma drain_meanwhile (b : PluginManagement.Server) (fuel : nat) :
  forall pg : PluginManagement.Page,
    PluginManagement.meanwhile pg (Async.drain PluginManagement.write fuel b pg).
Proof.
  induction fuel as [|fuel IH]; intro pg; simpl.
  - apply PluginManagement.meanwhile_stop.
  - unfold Async.settle_oldest.
    destruct (Async.pending pg) as [|x after] eqn:E.
    + apply PluginManagement.meanwhile_stop.
    + eapply PluginManagement.meanwhile_turn; [|apply IH].
      apply (@Async.turn_settle _ _ _ PluginManagement.write pg [] after x
               (b _ (Async.asked x)) E).
Qed.

Lemma drain_reachable (b : PluginManagement.Server) (fuel : nat) :
  forall pg : PluginManagement.Page,
    PluginManagement.reachable pg ->
    PluginManagement.reachable
      (Async.drain PluginManagement.write fuel b pg).
Proof.
  induction fuel as [|fuel IH]; intros pg R; simpl.
  - exact R.
  - unfold Async.settle_oldest.
    destruct (Async.pending pg) as [|x after] eqn:E.
    + exact R.
    + apply IH. eapply PluginManagement.reach_turn; [exact R|].
      apply (@Async.turn_settle _ _ _ PluginManagement.write pg [] after x
               (b _ (Async.asked x)) E).
Qed.

(** X23.  The save of the settings sends the [enabled] flag the plugin
    had when its settings were opened.  On any page the user can bring
    about, from a click on the edit button on, whatever switches are
    flipped, whatever is typed, whichever of save and cancel are clicked
    and however the requests settle, those sent before the click on the
    edit button too, a click on the save button finds one of two things.
    Either the settings have been closed meanwhile (by cancel, or by an
    earlier save that was fulfilled): then there is no save button and
    nothing is sent.  Or they are still open: then one update is sent, for
    the plugin that was opened, with the flag of the time it was opened
    and the settings as edited; if the plugin was switched meanwhile, the
    save switches it back. *)
Theorem save_sends_enabled_as_of_edit
  (pg pg' : PluginManagement.Page) (row row' : nat) (p q : Plugin.t) :
  PluginManagement.reachable pg ->
  PluginManagement.loading (Async.cells pg) = false ->
  nth_error (PluginManagement.plugins (Async.cells pg)) row = Some p ->
  PluginManagement.is_file_type_filter p = true ->
  PluginManagement.editing_this (Async.cells pg) p = false ->
  PluginManagement.meanwhile
    (PluginManagement.fire (PluginManagement.EditClick row) pg) pg' ->
  PluginManagement.loading (Async.cells pg') = false ->
  nth_error (PluginManagement.plugins (Async.cells pg')) row' = Some q ->
  Plugin.name q = Plugin.name p ->
  match PluginManagement.editingPlugin (Async.cells pg') with
  | None =>
      Async.log (PluginManagement.fire (PluginManagement.SaveClick row') pg')
      = Async.log pg'
  | Some editing =>
      Async.log (PluginManagement.fire (PluginManagement.SaveClick row') pg')
      = Async.log pg'
        ++ [@Async.Asked _ _ _
              (PluginManagement.PutPlugin (Plugin.name p)
                 {| PluginManagement.enabled := Plugin.enabled p;
                    PluginManagement.settings :=
                      Some (Plugin.settings editing) |})]
  end.
Proof.
  intros Hreach Hload Hrow Hfilter Hnot Hmean Hload' Hrow' Hname.
  assert (Hedit : PluginManagement.fire (PluginManagement.EditClick row) pg
                  = {| Async.cells :=
                         PluginManagement.write
                           (PluginManagement.SetEditingPlugin (Some p))
                           (Async.cells pg);
                       Async.pending := Async.pending pg;
                       Async.log :=
                         Async.log pg
                         ++ [Async.Did _
                               (PluginManagement.SetEditingPlugin (Some p))] |}).
  { unfold PluginManagement.fire, PluginManagement.dispatch.
    rewrite Hload, Hrow, Hfilter, Hnot. reflexivity. }
  rewrite Hedit in Hmean.
  pose proof (@meanwhile_keeps_editing_as _ _ Hmean (Plugin.name p)
                (Plugin.enabled p)) as He.
  unfold PluginManagement.editing_as in He at 2.
  specialize (He (conj eq_refl eq_refl)
                (reachable_pool_closes_only Hreach)).
  unfold PluginManagement.fire, PluginManagement.dispatch,
    PluginManagement.updatePluginSettings,
    PluginManagement.is_file_type_filter, PluginManagement.editing_this.
  rewrite Hload', Hrow'.
  destruct (PluginManagement.editingPlugin (Async.cells pg'))
    as [e|]; [|reflexivity].
  destruct He as [Hn Hen].
  rewrite Hname, Hn, streq_refl.
  unfold PluginManagement.is_file_type_filter in Hfilter. rewrite Hfilter.
  simpl. rewrite Hen. reflexivity.
Qed.

(** The filter is listed as on; its settings are opened, the switch is
    flipped, and the list comes back with the filter off: the save sends
    [enabled: true]. *)
Lemma save_sends_enabled_witness :
  PluginManagement.reachable Example.listed
  /\ nth_error
       (PluginManagement.plugins (Async.cells Example.edited_then_switched)) 0
     = Some Example.filter_off
  /\ Async.log
       (PluginManagement.fire (PluginManagement.SaveClick 0)
          Example.edited_then_switched)
     = Async.log Example.edited_then_switched
       ++ [@Async.Asked _ _ _
             (PluginManagement.PutPlugin (lit "file_type_filter")
                {| PluginManagement.enabled := true;
                   PluginManagement.settings :=
                     Some (Plugin.settings Example.filter_on) |})].
Proof.
  assert (R : PluginManagement.reachable Example.listed).
  { apply drain_reachable, PluginManagement.reach_mount. }
  split; [exact R|]. split; [reflexivity|].
  refine (@save_sends_enabled_as_of_edit
            Example.listed Example.edited_then_switched 0 0
            Example.filter_on Example.filter_off
            R eq_refl eq_refl eq_refl eq_refl _ eq_refl eq_refl eq_refl).
  eapply PluginManagement.meanwhile_gesture
    with (ev := PluginManagement.SwitchChange 0); [reflexivity|].
  apply drain_meanwhile.
Defined.

(** X24.  A switch sends the opposite of the state the list shows,
    and the list changes only when a reload settles: flipping a switch
    twice before that sends the same update twice, it does not switch the
    plugin back. *)
Theorem switch_twice_sends_same_update
  (pg : PluginManagement.Page) (row : nat) (p : Plugin.t) :
  PluginManagement.loading (Async.cells pg) = false ->
  nth_error (PluginManagement.plugins (Async.cells pg)) row = Some p ->
  Async.log
    (PluginManagement.fire (PluginManagement.SwitchChange row)
       (PluginManagement.fire (PluginManagement.SwitchChange row) pg))
  = Async.log pg
    ++ [@Async.Asked _ _ _
          (PluginManagement.PutPlugin (Plugin.name p)
             {| PluginManagement.enabled := negb (Plugin.enabled p);
                PluginManagement.settings := None |});
        @Async.Asked _ _ _
          (PluginManagement.PutPlugin (Plugin.name p)
             {| PluginManagement.enabled := negb (Plugin.enabled p);
                PluginManagement.settings := None |})].
Proof.
  intros Hload Hrow.
  unfold PluginManagement.fire, PluginManagement.dispatch.
  rewrite Hload, Hrow. simpl. rewrite Hload, Hrow. simpl.
  now rewrite <- app_assoc.
Qed.

Lemma switch_twice_witness :
  Async.log
    (PluginManagement.fire (PluginManagement.SwitchChange 0)
       (PluginManagement.fire (PluginManagement.SwitchChange 0)
          Example.plugin_page))
  = [@Async.Asked _ _ _
       (PluginManagement.PutPlugin (lit "file_type_filter")
          {| PluginManagement.enabled := false;
             PluginManagement.settings := None |});
     @Async.Asked _ _ _
       (PluginManagement.PutPlugin (lit "file_type_filter")
          {| PluginManagement.enabled := false;
             PluginManagement.settings := None |})].
Proof.
  exact (@switch_twice_sends_same_update Example.plugin_page 0
           Example.filter_on eq_refl eq_refl).
Defined.
